(** * Escrow coordinator: multisig sessions, trade release and deposit checks

    A shallow embedding of the server side of the escrow coordinator:

    - the multisig session routes ([/multisig/:sessionId/prepare], [/make],
      [/exchange] and [/admin/retry-service-exchange]),
    - the release routes of a trade ([/trades/:id/initiate-release],
      [/trades/:id/finalize-release], [/admin/trades/:id/release-escrow]),
    - the deposit monitor ([performWalletCheck], [checkWalletDeposits],
      [checkTradeDeposit]) together with its [walletLocks] map.

    The tables of the SQLite store are finite maps keyed by primary key, route
    handlers are computations in a state-and-exception monad, and the wallet
    library is an interface whose operations act on an abstract outside world.
    Every call made to the wallet is recorded, so that statements can speak
    about which calls a handler made and with which arguments.  JavaScript
    numbers are binary64 floats, [bigint] values are integers. *)

From Stdlib Require Import ZArith Floats Bool Lia.
From stdpp Require Import base option list gmap strings.

Open Scope Z_scope.

#[local] Set Warnings "-inexact-float".

(** ** JavaScript values *)

Module Js.

(** A field of a JSON request body: absent, [null], or a string. *)
Inductive JsVal : Type :=
| Undefined
| Null
| Str (s : string).

(** Truthiness of a request field ([!x], [x && y]). *)
Definition truthy (v : JsVal) : bool :=
  match v with
  | Str s => negb (String.eqb s EmptyString)
  | _ => false
  end.

(** Truthiness of a nullable TEXT column read back from the store. *)
Definition truthy_col (v : option string) : bool :=
  match v with
  | Some s => negb (String.eqb s EmptyString)
  | None => false
  end.

(** Truthiness of a nullable INTEGER column. *)
Definition truthy_int (v : option Z) : bool :=
  match v with
  | Some n => negb (Z.eqb n 0)
  | None => false
  end.

(** The value bound to a TEXT column by an UPDATE; [Undefined] never reaches
    the statement (it is filtered by the update functions). *)
Definition to_col (v : JsVal) : option string :=
  match v with
  | Str s => Some s
  | _ => None
  end.

(** [BigInt(Math.floor(x))]: defined on finite numbers only; on [NaN] and on
    the infinities [BigInt] raises a [RangeError]. *)
Definition BigInt_floor (x : float) : option Z :=
  match Prim2SF x with
  | S754_zero _ => Some 0
  | S754_finite sign m e =>
      let n := if sign then Z.neg m else Z.pos m in
      Some (if 0 <=? e then n * 2 ^ e else n / 2 ^ (- e))
  | S754_infinity _ => None
  | S754_nan => None
  end.

(** Results of an operation that may throw. *)
Inductive Res (A : Type) : Type :=
| Ok (a : A)
| Throw (e : string).
Arguments Ok {A} a.
Arguments Throw {A} e.

End Js.
Export Js.

(** ** The persistent store *)

Inductive SessionStatus : Type := preparing | making | exchanging | ready.

Inductive TradeStatus : Type :=
| pending | funded | payment_sent | payment_confirmed
| releasing | completed | disputed | cancelled.

#[global] Instance SessionStatus_eq_dec : EqDecision SessionStatus.
Proof. solve_decision. Defined.
#[global] Instance TradeStatus_eq_dec : EqDecision TradeStatus.
Proof. solve_decision. Defined.

Definition session_status_string (s : SessionStatus) : string :=
  match s with
  | preparing => "preparing" | making => "making"
  | exchanging => "exchanging" | ready => "ready"
  end.

Definition trade_status_string (s : TradeStatus) : string :=
  match s with
  | pending => "pending" | funded => "funded" | payment_sent => "payment_sent"
  | payment_confirmed => "payment_confirmed" | releasing => "releasing"
  | completed => "completed" | disputed => "disputed" | cancelled => "cancelled"
  end.

Module Session.

(** A row of [multisig_sessions]: the columns of its [CREATE TABLE] and of the
    migrations.  Nullable TEXT columns are [option string]; [None] is SQL NULL.
    ([interface MultisigSession] also declares [user_a_id] and [user_b_id];
    the table has no such columns, so no row carries them.) *)
Record t : Type := mk {
  id : string;
  user_id : string;
  status : SessionStatus;
  threshold : Z;
  total_participants : Z;
  service_wallet_path : option string;
  service_address : option string;
  service_prepared_hex : option string;
  service_made_hex : option string;
  user_a_prepared_hex : option string;
  user_a_made_hex : option string;
  user_b_prepared_hex : option string;
  user_b_made_hex : option string;
  exchange_round : Z;
  service_exchange_hexes : option string;
  user_a_exchange_hexes : option string;
  user_b_exchange_hexes : option string;
  service_exchange_hexes_prev : option string;
  user_a_exchange_hexes_prev : option string;
  user_b_exchange_hexes_prev : option string;
  multisig_address : option string;
  creation_height : option Z;
  created_at : Z;
  updated_at : Z
}.

Definition set_status (v : SessionStatus) (s : t) : t :=
  mk (s.(id)) (s.(user_id)) v (s.(threshold)) (s.(total_participants))
     (s.(service_wallet_path)) (s.(service_address)) (s.(service_prepared_hex))
     (s.(service_made_hex)) (s.(user_a_prepared_hex)) (s.(user_a_made_hex))
     (s.(user_b_prepared_hex)) (s.(user_b_made_hex)) (s.(exchange_round))
     (s.(service_exchange_hexes)) (s.(user_a_exchange_hexes)) (s.(user_b_exchange_hexes))
     (s.(service_exchange_hexes_prev)) (s.(user_a_exchange_hexes_prev))
     (s.(user_b_exchange_hexes_prev)) (s.(multisig_address)) (s.(creation_height))
     (s.(created_at)) (s.(updated_at)).

Definition set_service_wallet_path (v : option string) (s : t) : t :=
  mk (s.(id)) (s.(user_id)) (s.(status)) (s.(threshold)) (s.(total_participants)) v
     (s.(service_address)) (s.(service_prepared_hex)) (s.(service_made_hex))
     (s.(user_a_prepared_hex)) (s.(user_a_made_hex)) (s.(user_b_prepared_hex))
     (s.(user_b_made_hex)) (s.(exchange_round)) (s.(service_exchange_hexes))
     (s.(user_a_exchange_hexes)) (s.(user_b_exchange_hexes))
     (s.(service_exchange_hexes_prev)) (s.(user_a_exchange_hexes_prev))
     (s.(user_b_exchange_hexes_prev)) (s.(multisig_address)) (s.(creation_height))
     (s.(created_at)) (s.(updated_at)).

Definition set_service_address (v : option string) (s : t) : t :=
  mk (s.(id)) (s.(user_id)) (s.(status)) (s.(threshold)) (s.(total_participants))
     (s.(service_wallet_path)) v (s.(service_prepared_hex)) (s.(service_made_hex))
     (s.(user_a_prepared_hex)) (s.(user_a_made_hex)) (s.(user_b_prepared_hex))
     (s.(user_b_made_hex)) (s.(exchange_round)) (s.(service_exchange_hexes))
     (s.(user_a_exchange_hexes)) (s.(user_b_exchange_hexes))
     (s.(service_exchange_hexes_prev)) (s.(user_a_exchange_hexes_prev))
     (s.(user_b_exchange_hexes_prev)) (s.(multisig_address)) (s.(creation_height))
     (s.(created_at)) (s.(updated_at)).

Definition set_service_prepared_hex (v : option string) (s : t) : t :=
  mk (s.(id)) (s.(user_id)) (s.(status)) (s.(threshold)) (s.(total_participants))
     (s.(service_wallet_path)) (s.(service_address)) v (s.(service_made_hex))
     (s.(user_a_prepared_hex)) (s.(user_a_made_hex)) (s.(user_b_prepared_hex))
     (s.(user_b_made_hex)) (s.(exchange_round)) (s.(service_exchange_hexes))
     (s.(user_a_exchange_hexes)) (s.(user_b_exchange_hexes))
     (s.(service_exchange_hexes_prev)) (s.(user_a_exchange_hexes_prev))
     (s.(user_b_exchange_hexes_prev)) (s.(multisig_address)) (s.(creation_height))
     (s.(created_at)) (s.(updated_at)).

Definition set_service_made_hex (v : option string) (s : t) : t :=
  mk (s.(id)) (s.(user_id)) (s.(status)) (s.(threshold)) (s.(total_participants))
     (s.(service_wallet_path)) (s.(service_address)) (s.(service_prepared_hex)) v
     (s.(user_a_prepared_hex)) (s.(user_a_made_hex)) (s.(user_b_prepared_hex))
     (s.(user_b_made_hex)) (s.(exchange_round)) (s.(service_exchange_hexes))
     (s.(user_a_exchange_hexes)) (s.(user_b_exchange_hexes))
     (s.(service_exchange_hexes_prev)) (s.(user_a_exchange_hexes_prev))
     (s.(user_b_exchange_hexes_prev)) (s.(multisig_address)) (s.(creation_height))
     (s.(created_at)) (s.(updated_at)).

Definition set_user_a_prepared_hex (v : option string) (s : t) : t :=
  mk (s.(id)) (s.(user_id)) (s.(status)) (s.(threshold)) (s.(total_participants))
     (s.(service_wallet_path)) (s.(service_address)) (s.(service_prepared_hex))
     (s.(service_made_hex)) v (s.(user_a_made_hex)) (s.(user_b_prepared_hex))
     (s.(user_b_made_hex)) (s.(exchange_round)) (s.(service_exchange_hexes))
     (s.(user_a_exchange_hexes)) (s.(user_b_exchange_hexes))
     (s.(service_exchange_hexes_prev)) (s.(user_a_exchange_hexes_prev))
     (s.(user_b_exchange_hexes_prev)) (s.(multisig_address)) (s.(creation_height))
     (s.(created_at)) (s.(updated_at)).

Definition set_user_a_made_hex (v : option string) (s : t) : t :=
  mk (s.(id)) (s.(user_id)) (s.(status)) (s.(threshold)) (s.(total_participants))
     (s.(service_wallet_path)) (s.(service_address)) (s.(service_prepared_hex))
     (s.(service_made_hex)) (s.(user_a_prepared_hex)) v (s.(user_b_prepared_hex))
     (s.(user_b_made_hex)) (s.(exchange_round)) (s.(service_exchange_hexes))
     (s.(user_a_exchange_hexes)) (s.(user_b_exchange_hexes))
     (s.(service_exchange_hexes_prev)) (s.(user_a_exchange_hexes_prev))
     (s.(user_b_exchange_hexes_prev)) (s.(multisig_address)) (s.(creation_height))
     (s.(created_at)) (s.(updated_at)).

Definition set_user_b_prepared_hex (v : option string) (s : t) : t :=
  mk (s.(id)) (s.(user_id)) (s.(status)) (s.(threshold)) (s.(total_participants))
     (s.(service_wallet_path)) (s.(service_address)) (s.(service_prepared_hex))
     (s.(service_made_hex)) (s.(user_a_prepared_hex)) (s.(user_a_made_hex)) v
     (s.(user_b_made_hex)) (s.(exchange_round)) (s.(service_exchange_hexes))
     (s.(user_a_exchange_hexes)) (s.(user_b_exchange_hexes))
     (s.(service_exchange_hexes_prev)) (s.(user_a_exchange_hexes_prev))
     (s.(user_b_exchange_hexes_prev)) (s.(multisig_address)) (s.(creation_height))
     (s.(created_at)) (s.(updated_at)).

Definition set_user_b_made_hex (v : option string) (s : t) : t :=
  mk (s.(id)) (s.(user_id)) (s.(status)) (s.(threshold)) (s.(total_participants))
     (s.(service_wallet_path)) (s.(service_address)) (s.(service_prepared_hex))
     (s.(service_made_hex)) (s.(user_a_prepared_hex)) (s.(user_a_made_hex))
     (s.(user_b_prepared_hex)) v (s.(exchange_round)) (s.(service_exchange_hexes))
     (s.(user_a_exchange_hexes)) (s.(user_b_exchange_hexes))
     (s.(service_exchange_hexes_prev)) (s.(user_a_exchange_hexes_prev))
     (s.(user_b_exchange_hexes_prev)) (s.(multisig_address)) (s.(creation_height))
     (s.(created_at)) (s.(updated_at)).

Definition set_exchange_round (v : Z) (s : t) : t :=
  mk (s.(id)) (s.(user_id)) (s.(status)) (s.(threshold)) (s.(total_participants))
     (s.(service_wallet_path)) (s.(service_address)) (s.(service_prepared_hex))
     (s.(service_made_hex)) (s.(user_a_prepared_hex)) (s.(user_a_made_hex))
     (s.(user_b_prepared_hex)) (s.(user_b_made_hex)) v (s.(service_exchange_hexes))
     (s.(user_a_exchange_hexes)) (s.(user_b_exchange_hexes))
     (s.(service_exchange_hexes_prev)) (s.(user_a_exchange_hexes_prev))
     (s.(user_b_exchange_hexes_prev)) (s.(multisig_address)) (s.(creation_height))
     (s.(created_at)) (s.(updated_at)).

Definition set_service_exchange_hexes (v : option string) (s : t) : t :=
  mk (s.(id)) (s.(user_id)) (s.(status)) (s.(threshold)) (s.(total_participants))
     (s.(service_wallet_path)) (s.(service_address)) (s.(service_prepared_hex))
     (s.(service_made_hex)) (s.(user_a_prepared_hex)) (s.(user_a_made_hex))
     (s.(user_b_prepared_hex)) (s.(user_b_made_hex)) (s.(exchange_round)) v
     (s.(user_a_exchange_hexes)) (s.(user_b_exchange_hexes))
     (s.(service_exchange_hexes_prev)) (s.(user_a_exchange_hexes_prev))
     (s.(user_b_exchange_hexes_prev)) (s.(multisig_address)) (s.(creation_height))
     (s.(created_at)) (s.(updated_at)).

Definition set_user_a_exchange_hexes (v : option string) (s : t) : t :=
  mk (s.(id)) (s.(user_id)) (s.(status)) (s.(threshold)) (s.(total_participants))
     (s.(service_wallet_path)) (s.(service_address)) (s.(service_prepared_hex))
     (s.(service_made_hex)) (s.(user_a_prepared_hex)) (s.(user_a_made_hex))
     (s.(user_b_prepared_hex)) (s.(user_b_made_hex)) (s.(exchange_round))
     (s.(service_exchange_hexes)) v (s.(user_b_exchange_hexes))
     (s.(service_exchange_hexes_prev)) (s.(user_a_exchange_hexes_prev))
     (s.(user_b_exchange_hexes_prev)) (s.(multisig_address)) (s.(creation_height))
     (s.(created_at)) (s.(updated_at)).

Definition set_user_b_exchange_hexes (v : option string) (s : t) : t :=
  mk (s.(id)) (s.(user_id)) (s.(status)) (s.(threshold)) (s.(total_participants))
     (s.(service_wallet_path)) (s.(service_address)) (s.(service_prepared_hex))
     (s.(service_made_hex)) (s.(user_a_prepared_hex)) (s.(user_a_made_hex))
     (s.(user_b_prepared_hex)) (s.(user_b_made_hex)) (s.(exchange_round))
     (s.(service_exchange_hexes)) (s.(user_a_exchange_hexes)) v
     (s.(service_exchange_hexes_prev)) (s.(user_a_exchange_hexes_prev))
     (s.(user_b_exchange_hexes_prev)) (s.(multisig_address)) (s.(creation_height))
     (s.(created_at)) (s.(updated_at)).

Definition set_service_exchange_hexes_prev (v : option string) (s : t) : t :=
  mk (s.(id)) (s.(user_id)) (s.(status)) (s.(threshold)) (s.(total_participants))
     (s.(service_wallet_path)) (s.(service_address)) (s.(service_prepared_hex))
     (s.(service_made_hex)) (s.(user_a_prepared_hex)) (s.(user_a_made_hex))
     (s.(user_b_prepared_hex)) (s.(user_b_made_hex)) (s.(exchange_round))
     (s.(service_exchange_hexes)) (s.(user_a_exchange_hexes)) (s.(user_b_exchange_hexes)) v
     (s.(user_a_exchange_hexes_prev)) (s.(user_b_exchange_hexes_prev))
     (s.(multisig_address)) (s.(creation_height)) (s.(created_at)) (s.(updated_at)).

Definition set_user_a_exchange_hexes_prev (v : option string) (s : t) : t :=
  mk (s.(id)) (s.(user_id)) (s.(status)) (s.(threshold)) (s.(total_participants))
     (s.(service_wallet_path)) (s.(service_address)) (s.(service_prepared_hex))
     (s.(service_made_hex)) (s.(user_a_prepared_hex)) (s.(user_a_made_hex))
     (s.(user_b_prepared_hex)) (s.(user_b_made_hex)) (s.(exchange_round))
     (s.(service_exchange_hexes)) (s.(user_a_exchange_hexes)) (s.(user_b_exchange_hexes))
     (s.(service_exchange_hexes_prev)) v (s.(user_b_exchange_hexes_prev))
     (s.(multisig_address)) (s.(creation_height)) (s.(created_at)) (s.(updated_at)).

Definition set_user_b_exchange_hexes_prev (v : option string) (s : t) : t :=
  mk (s.(id)) (s.(user_id)) (s.(status)) (s.(threshold)) (s.(total_participants))
     (s.(service_wallet_path)) (s.(service_address)) (s.(service_prepared_hex))
     (s.(service_made_hex)) (s.(user_a_prepared_hex)) (s.(user_a_made_hex))
     (s.(user_b_prepared_hex)) (s.(user_b_made_hex)) (s.(exchange_round))
     (s.(service_exchange_hexes)) (s.(user_a_exchange_hexes)) (s.(user_b_exchange_hexes))
     (s.(service_exchange_hexes_prev)) (s.(user_a_exchange_hexes_prev)) v
     (s.(multisig_address)) (s.(creation_height)) (s.(created_at)) (s.(updated_at)).

Definition set_multisig_address (v : option string) (s : t) : t :=
  mk (s.(id)) (s.(user_id)) (s.(status)) (s.(threshold)) (s.(total_participants))
     (s.(service_wallet_path)) (s.(service_address)) (s.(service_prepared_hex))
     (s.(service_made_hex)) (s.(user_a_prepared_hex)) (s.(user_a_made_hex))
     (s.(user_b_prepared_hex)) (s.(user_b_made_hex)) (s.(exchange_round))
     (s.(service_exchange_hexes)) (s.(user_a_exchange_hexes)) (s.(user_b_exchange_hexes))
     (s.(service_exchange_hexes_prev)) (s.(user_a_exchange_hexes_prev))
     (s.(user_b_exchange_hexes_prev)) v (s.(creation_height)) (s.(created_at))
     (s.(updated_at)).

Definition set_creation_height (v : option Z) (s : t) : t :=
  mk (s.(id)) (s.(user_id)) (s.(status)) (s.(threshold)) (s.(total_participants))
     (s.(service_wallet_path)) (s.(service_address)) (s.(service_prepared_hex))
     (s.(service_made_hex)) (s.(user_a_prepared_hex)) (s.(user_a_made_hex))
     (s.(user_b_prepared_hex)) (s.(user_b_made_hex)) (s.(exchange_round))
     (s.(service_exchange_hexes)) (s.(user_a_exchange_hexes)) (s.(user_b_exchange_hexes))
     (s.(service_exchange_hexes_prev)) (s.(user_a_exchange_hexes_prev))
     (s.(user_b_exchange_hexes_prev)) (s.(multisig_address)) v (s.(created_at))
     (s.(updated_at)).

Definition set_updated_at (v : Z) (s : t) : t :=
  mk (s.(id)) (s.(user_id)) (s.(status)) (s.(threshold)) (s.(total_participants))
     (s.(service_wallet_path)) (s.(service_address)) (s.(service_prepared_hex))
     (s.(service_made_hex)) (s.(user_a_prepared_hex)) (s.(user_a_made_hex))
     (s.(user_b_prepared_hex)) (s.(user_b_made_hex)) (s.(exchange_round))
     (s.(service_exchange_hexes)) (s.(user_a_exchange_hexes)) (s.(user_b_exchange_hexes))
     (s.(service_exchange_hexes_prev)) (s.(user_a_exchange_hexes_prev))
     (s.(user_b_exchange_hexes_prev)) (s.(multisig_address)) (s.(creation_height))
     (s.(created_at)) v.
End Session.

Module Trade.

(** A row of [trades] ([interface Trade]).  REAL columns are binary64 numbers. *)
Record t : Type := mk {
  id : string;
  offer_id : string;
  buyer_id : string;
  seller_id : string;
  amount : float;
  xmr_amount : float;
  status : TradeStatus;
  multisig_session_id : option string;
  created_at : Z;
  updated_at : Z
}.

Definition set_status (v : TradeStatus) (s : t) : t :=
  mk (s.(id)) (s.(offer_id)) (s.(buyer_id)) (s.(seller_id)) (s.(amount))
     (s.(xmr_amount)) v (s.(multisig_session_id)) (s.(created_at)) (s.(updated_at)).

Definition set_multisig_session_id (v : option string) (s : t) : t :=
  mk (s.(id)) (s.(offer_id)) (s.(buyer_id)) (s.(seller_id)) (s.(amount))
     (s.(xmr_amount)) (s.(status)) v (s.(created_at)) (s.(updated_at)).

Definition set_updated_at (v : Z) (s : t) : t :=
  mk (s.(id)) (s.(offer_id)) (s.(buyer_id)) (s.(seller_id)) (s.(amount))
     (s.(xmr_amount)) (s.(status)) (s.(multisig_session_id)) (s.(created_at)) v.

End Trade.

Abbreviation MultisigSession := Session.t.
Abbreviation Trade := Trade.t.

(** A row of [platform_fees]. *)
Record PlatformFee : Type := mkPlatformFee {
  fee_id : string;
  fee_trade_id : string;
  amount_xmr : float;
  fee_percentage : float;
  collected_at : Z
}.

(** The keys of a [Partial<MultisigSession>] passed to [updateSession].
    [user_a_id] and [user_b_id] are keys of the interface that the routes
    pass, but not columns of the table. *)
Inductive SessionUpdate : Type :=
| U_status (v : SessionStatus)
| U_exchange_round (v : Z)
| U_service_wallet_path (v : JsVal)
| U_service_address (v : JsVal)
| U_service_prepared_hex (v : JsVal)
| U_service_made_hex (v : JsVal)
| U_user_a_id (v : JsVal)
| U_user_a_prepared_hex (v : JsVal)
| U_user_a_made_hex (v : JsVal)
| U_user_b_id (v : JsVal)
| U_user_b_prepared_hex (v : JsVal)
| U_user_b_made_hex (v : JsVal)
| U_service_exchange_hexes (v : JsVal)
| U_user_a_exchange_hexes (v : JsVal)
| U_user_b_exchange_hexes (v : JsVal)
| U_service_exchange_hexes_prev (v : JsVal)
| U_user_a_exchange_hexes_prev (v : JsVal)
| U_user_b_exchange_hexes_prev (v : JsVal)
| U_multisig_address (v : JsVal)
| U_creation_height (v : Z).

(** [col := value] of the generated UPDATE; a key whose value is
    [undefined] is dropped before the statement is built, [null] is kept and
    clears the column.  A statement that names [user_a_id] or [user_b_id] is
    never run (see [updateSession]), so these two keys write nothing. *)
Definition set_text (set : option string -> MultisigSession -> MultisigSession)
    (v : JsVal) (s : MultisigSession) : MultisigSession :=
  match v with
  | Undefined => s
  | _ => set (to_col v) s
  end.

Definition apply_session_update (s : MultisigSession) (u : SessionUpdate)
    : MultisigSession :=
  match u with
  | U_status v => Session.set_status v s
  | U_exchange_round v => Session.set_exchange_round v s
  | U_service_wallet_path v => set_text Session.set_service_wallet_path v s
  | U_service_address v => set_text Session.set_service_address v s
  | U_service_prepared_hex v => set_text Session.set_service_prepared_hex v s
  | U_service_made_hex v => set_text Session.set_service_made_hex v s
  | U_user_a_id _ => s
  | U_user_a_prepared_hex v => set_text Session.set_user_a_prepared_hex v s
  | U_user_a_made_hex v => set_text Session.set_user_a_made_hex v s
  | U_user_b_id _ => s
  | U_user_b_prepared_hex v => set_text Session.set_user_b_prepared_hex v s
  | U_user_b_made_hex v => set_text Session.set_user_b_made_hex v s
  | U_service_exchange_hexes v => set_text Session.set_service_exchange_hexes v s
  | U_user_a_exchange_hexes v => set_text Session.set_user_a_exchange_hexes v s
  | U_user_b_exchange_hexes v => set_text Session.set_user_b_exchange_hexes v s
  | U_service_exchange_hexes_prev v =>
      set_text Session.set_service_exchange_hexes_prev v s
  | U_user_a_exchange_hexes_prev v =>
      set_text Session.set_user_a_exchange_hexes_prev v s
  | U_user_b_exchange_hexes_prev v =>
      set_text Session.set_user_b_exchange_hexes_prev v s
  | U_multisig_address v => set_text Session.set_multisig_address v s
  | U_creation_height v => Session.set_creation_height (Some v) s
  end.

(** The keys of a [Partial<Trade>] the routes pass to [updateTrade]. *)
Inductive TradeUpdate : Type :=
| TU_status (v : TradeStatus).

Definition apply_trade_update (t : Trade) (u : TradeUpdate) : Trade :=
  match u with
  | TU_status v => Trade.set_status v t
  end.

(** ** The wallet library and the outside world *)

(** One entry per call made to the wallet library (monero-ts), to the file
    system or to the daemon, with the arguments that matter to the protocol. *)
Inductive WalletCall : Type :=
| CallOpenWalletFull (path : option string)
| CallDaemonGetHeight
| CallCreateWalletFull (path : option string) (seed : option string)
    (restoreHeight : option Z)
| CallPrepareMultisig
| CallIsMultisig
| CallMakeMultisig (peerHexes : list (option string)) (threshold : Z)
| CallExchangeMultisigKeys (hexes : list (option string))
| CallGetAddress
| CallGetSeed
| CallSave
| CallClose
| CallUnlinkSync (path : string)
| CallGetHeight
| CallGetDaemonHeight
| CallSetRestoreHeight (height : Z)
| CallRescanBlockchain
| CallSync
| CallGetBalance
| CallGetUnlockedBalance
| CallCreateTx (address : string) (amount : Z)
| CallExportMultisigHex
| CallSignMultisigTxHex (hex : string)
| CallSubmitMultisigTxHex (hex : string).

(** The operations the coordinator relies on.  [World] is everything outside
    the process (wallet files, daemon, ledger, clock); [Wallet] is an open
    wallet object.  Every operation may throw and may change the world. *)
Class WalletCapability (World Wallet : Type) : Type := {
  cap_openWalletFull : option string -> World -> Res Wallet * World;
  (** [connectToDaemonRpc(uri)] followed by [getHeight()] *)
  cap_daemonGetHeight : World -> Res Z * World;
  cap_createWalletFull :
    option string -> option string -> option Z -> World -> Res Wallet * World;
  cap_prepareMultisig : Wallet -> World -> Res string * World;
  cap_isMultisig : Wallet -> World -> Res bool * World;
  cap_makeMultisig : Wallet -> list (option string) -> Z -> World -> Res string * World;
  (** [exchangeMultisigKeys(...)] followed by [getMultisigHex()] *)
  cap_exchangeMultisigKeys : Wallet -> list (option string) -> World -> Res string * World;
  cap_getAddress : Wallet -> World -> Res string * World;
  cap_getSeed : Wallet -> World -> Res string * World;
  cap_save : Wallet -> World -> Res unit * World;
  cap_close : Wallet -> World -> Res unit * World;
  cap_unlinkSync : string -> World -> Res unit * World;
  cap_getHeight : Wallet -> World -> Res Z * World;
  cap_getDaemonHeight : Wallet -> World -> Res Z * World;
  cap_setRestoreHeight : Wallet -> Z -> World -> Res unit * World;
  cap_rescanBlockchain : Wallet -> World -> Res unit * World;
  (** [sync()], raced against the timeout where the caller does so *)
  cap_sync : Wallet -> World -> Res unit * World;
  cap_getBalance : Wallet -> World -> Res Z * World;
  cap_getUnlockedBalance : Wallet -> World -> Res Z * World;
  cap_createTx : Wallet -> string -> Z -> World -> Res unit * World;
  cap_exportMultisigHex : Wallet -> World -> Res string * World;
  (** [signMultisigTxHex(hex)] followed by [getSignedMultisigTxHex()] *)
  cap_signMultisigTxHex : Wallet -> string -> World -> Res string * World;
  cap_submitMultisigTxHex : Wallet -> string -> World -> Res (list string) * World;
  (** [randomBytes(16).toString("hex")] *)
  cap_randomBytes : World -> string * World;
  (** [Date.now()] *)
  cap_now : World -> Z
}.

Section Coordinator.

Context {World Wallet : Type} `{WalletCapability World Wallet}.

(** *** Process state *)

Record St : Type := mkSt {
  world : World;
  multisig_sessions : gmap string MultisigSession;
  trades : gmap string Trade;
  platform_fees : list PlatformFee;
  walletLocks : gset string;
  calls : list WalletCall
}.

Definition set_world (w : World) (c : WalletCall) (st : St) : St :=
  mkSt w (multisig_sessions st) (trades st) (platform_fees st) (walletLocks st)
       (calls st ++ [c]).
Definition set_multisig_sessions (m : gmap string MultisigSession) (st : St) : St :=
  mkSt (world st) m (trades st) (platform_fees st) (walletLocks st) (calls st).
Definition set_trades (m : gmap string Trade) (st : St) : St :=
  mkSt (world st) (multisig_sessions st) m (platform_fees st) (walletLocks st) (calls st).
Definition set_platform_fees (l : list PlatformFee) (st : St) : St :=
  mkSt (world st) (multisig_sessions st) (trades st) l (walletLocks st) (calls st).
Definition set_walletLocks (l : gset string) (st : St) : St :=
  mkSt (world st) (multisig_sessions st) (trades st) (platform_fees st) l (calls st).

(** *** The monad of route handlers

    A computation reads and writes the process state and either returns or
    throws; what was written before a throw stays written. *)
Definition M (A : Type) : Type := St -> Res A * St.

Definition ret {A} (a : A) : M A := fun st => (Ok a, st).

Definition bind {A B} (m : M A) (k : A -> M B) : M B :=
  fun st =>
    match m st with
    | (Ok a, st') => k a st'
    | (Throw e, st') => (Throw e, st')
    end.

Definition throw {A} (e : string) : M A := fun st => (Throw e, st).

(** [try { m } catch (e) { h e }] *)
Definition try_catch {A} (m : M A) (h : string -> M A) : M A :=
  fun st =>
    match m st with
    | (Ok a, st') => (Ok a, st')
    | (Throw e, st') => h e st'
    end.

(** [try { m } finally { f }] *)
Definition try_finally {A} (m : M A) (f : M unit) : M A :=
  fun st =>
    match m st with
    | (r, st') =>
        match f st' with
        | (Ok _, st'') => (r, st'')
        | (Throw e, st'') => (Throw e, st'')
        end
    end.

Notation "'do' x <- m ; k" := (bind m (fun x => k))
  (at level 10, x name, m at level 100, k at level 200).
Notation "'run' m ; k" := (bind m (fun _ => k))
  (at level 10, m at level 100, k at level 200).

(** A call to the outside: run it on the world and record it. *)
Definition call {A} (c : WalletCall) (op : World -> Res A * World) : M A :=
  fun st =>
    match op (world st) with
    | (r, w) => (r, set_world w c st)
    end.

Definition openWalletFull (path : option string) : M Wallet :=
  call (CallOpenWalletFull path) (cap_openWalletFull path).
Definition daemonGetHeight : M Z := call CallDaemonGetHeight cap_daemonGetHeight.
Definition createWalletFull (path seed : option string) (restoreHeight : option Z)
    : M Wallet :=
  call (CallCreateWalletFull path seed restoreHeight)
       (cap_createWalletFull path seed restoreHeight).
Definition prepareMultisig (w : Wallet) : M string :=
  call CallPrepareMultisig (cap_prepareMultisig w).
Definition isMultisig (w : Wallet) : M bool :=
  call CallIsMultisig (cap_isMultisig w).
Definition makeMultisig (w : Wallet) (peerHexes : list (option string)) (threshold : Z)
    : M string :=
  call (CallMakeMultisig peerHexes threshold) (cap_makeMultisig w peerHexes threshold).
Definition exchangeMultisigKeys (w : Wallet) (hexes : list (option string)) : M string :=
  call (CallExchangeMultisigKeys hexes) (cap_exchangeMultisigKeys w hexes).
Definition getAddress (w : Wallet) : M string := call CallGetAddress (cap_getAddress w).
Definition getSeed (w : Wallet) : M string := call CallGetSeed (cap_getSeed w).
Definition save (w : Wallet) : M unit := call CallSave (cap_save w).
Definition close (w : Wallet) : M unit := call CallClose (cap_close w).
Definition unlinkSync (path : string) : M unit :=
  call (CallUnlinkSync path) (cap_unlinkSync path).
Definition getHeight (w : Wallet) : M Z := call CallGetHeight (cap_getHeight w).
Definition getDaemonHeight (w : Wallet) : M Z :=
  call CallGetDaemonHeight (cap_getDaemonHeight w).
Definition setRestoreHeight (w : Wallet) (h : Z) : M unit :=
  call (CallSetRestoreHeight h) (cap_setRestoreHeight w h).
Definition rescanBlockchain (w : Wallet) : M unit :=
  call CallRescanBlockchain (cap_rescanBlockchain w).
Definition sync (w : Wallet) : M unit := call CallSync (cap_sync w).
Definition getBalance (w : Wallet) : M Z := call CallGetBalance (cap_getBalance w).
Definition getUnlockedBalance (w : Wallet) : M Z :=
  call CallGetUnlockedBalance (cap_getUnlockedBalance w).
Definition createTx (w : Wallet) (address : string) (amount : Z) : M unit :=
  call (CallCreateTx address amount) (cap_createTx w address amount).
Definition exportMultisigHex (w : Wallet) : M string :=
  call CallExportMultisigHex (cap_exportMultisigHex w).
Definition signMultisigTxHex (w : Wallet) (hex : string) : M string :=
  call (CallSignMultisigTxHex hex) (cap_signMultisigTxHex w hex).
Definition submitMultisigTxHex (w : Wallet) (hex : string) : M (list string) :=
  call (CallSubmitMultisigTxHex hex) (cap_submitMultisigTxHex w hex).

(** [randomBytes] and [Date.now] are not wallet calls and are not recorded. *)
Definition randomBytes : M string :=
  fun st =>
    match cap_randomBytes (world st) with
    | (s, w) =>
        (Ok s, mkSt w (multisig_sessions st) (trades st) (platform_fees st)
                    (walletLocks st) (calls st))
    end.
Definition Date_now : M Z := fun st => (Ok (cap_now (world st)), st).

(** *** Store access (db.ts) *)

Definition createSession (id userId : string) (threshold totalParticipants : Z)
    : M unit :=
  fun st =>
    match multisig_sessions st !! id with
    | Some _ => (Throw "UNIQUE constraint failed: multisig_sessions.id", st)
    | None =>
        let now := cap_now (world st) in
        (Ok tt,
         set_multisig_sessions
           (<[id := Session.mk id userId preparing threshold totalParticipants
                 None None None None None None None None 0
                 None None None None None None None None now now]>
              (multisig_sessions st)) st)
    end.

Definition getSession (id : string) : M (option MultisigSession) :=
  fun st => (Ok (multisig_sessions st !! id), st).

(** [getSession(id)!] followed by a property read: on a missing row the read
    throws a [TypeError]. *)
Definition getSession_nonnull (id : string) : M MultisigSession :=
  fun st =>
    match multisig_sessions st !! id with
    | Some s => (Ok s, st)
    | None => (Throw "Cannot read properties of undefined", st)
    end.

(** The column a key names when the table has no such column: the key is
    kept unless its value is [undefined]. *)
Definition missing_column (u : SessionUpdate) : option string :=
  match u with
  | U_user_a_id v => match v with Undefined => None | _ => Some "user_a_id" end
  | U_user_b_id v => match v with Undefined => None | _ => Some "user_b_id" end
  | _ => None
  end.

(** The first column of the generated statement that the table does not
    have. *)
Fixpoint first_missing_column (updates : list SessionUpdate) : option string :=
  match updates with
  | [] => None
  | u :: rest =>
      match missing_column u with
      | Some c => Some c
      | None => first_missing_column rest
      end
  end.

(** [UPDATE multisig_sessions SET ..., updated_at = ? WHERE id = ?]: the
    statement is built from the keys whose value is not [undefined] and
    prepared; preparing it throws when it names a column the table does not
    have.  Otherwise the keys are written in one statement and [updated_at] is
    refreshed, also when no key is left; a missing row is not an error. *)
Definition updateSession (id : string) (updates : list SessionUpdate) : M unit :=
  fun st =>
    match first_missing_column updates with
    | Some column => (Throw ("no such column: " +:+ column), st)
    | None =>
        match multisig_sessions st !! id with
        | Some s =>
            (Ok tt,
             set_multisig_sessions
               (<[id := Session.set_updated_at (cap_now (world st))
                          (foldl apply_session_update s updates)]>
                  (multisig_sessions st)) st)
        | None => (Ok tt, st)
        end
    end.

Definition getTradeById (id : string) : M (option Trade) :=
  fun st => (Ok (trades st !! id), st).

Definition updateTrade (id : string) (updates : list TradeUpdate) : M unit :=
  fun st =>
    match trades st !! id with
    | Some t =>
        (Ok tt,
         set_trades
           (<[id := Trade.set_updated_at (cap_now (world st))
                      (foldl apply_trade_update t updates)]> (trades st)) st)
    | None => (Ok tt, st)
    end.

(** [INSERT INTO platform_fees ...]: [id] is the primary key, [trade_id] is
    a plain indexed column, so nothing but a repeated [id] makes it fail. *)
Definition recordPlatformFee (id tradeId : string) (amountXmr feePercentage : float)
    : M unit :=
  fun st =>
    if existsb (fun f => String.eqb (fee_id f) id) (platform_fees st)
    then (Throw "UNIQUE constraint failed: platform_fees.id", st)
    else
      (Ok tt,
       set_platform_fees
         (platform_fees st ++
            [mkPlatformFee id tradeId amountXmr feePercentage (cap_now (world st))])
         st).

Definition getPlatformFeesByTradeId (tradeId : string) (st : St) : list PlatformFee :=
  filter (fun f => fee_trade_id f = tradeId) (platform_fees st).

(** *** HTTP responses *)

Inductive Body : Type :=
| ErrorBody (error : string)
| PrepareBody (allPrepared : bool)
| MakeBody (madeHex : option string) (allMade : bool)
| ExchangeBody (exchangeHex : option string) (currentRound totalRounds : Z)
    (allExchanged isComplete : bool) (multisigAddress : option string)
| RetryBody (isComplete : bool) (multisigAddress : option string)
| InitiateBody (unsignedTxHex recipientAddress : string)
    (tradeAmount platformFee recipientReceives : float)
| FinalizeBody (txHashes : list string) (trade : option Trade)
| ReleaseEscrowBody (recipientAddress : string)
    (tradeAmount platformFee recipientReceives : float)
    (unsignedTxHex serviceSignedHex : string) (trade : option Trade).

Record Response : Type := mkResponse { code : Z; body : Body }.

Definition json (b : Body) : Response := mkResponse 200 b.
Definition error (c : Z) (msg : string) : Response := mkResponse c (ErrorBody msg).

(** The outer [try { ... } catch (error) { res.status(500)... }] of a route. *)
Definition route (m : M Response) (st : St) : Response * St :=
  match m st with
  | (Ok r, st') => (r, st')
  | (Throw e, st') => (error 500 e, st')
  end.

(** ** Multisig session routes (routes/multisig.ts) *)

(** [initializeMultisigSession]: create the service wallet at the current
    chain height (less a margin of ten blocks), prepare it, and create the
    2-of-3 session in [preparing] with the service's prepared hex. *)
Definition initializeMultisigSession (userId : string) : M (string * string) :=
  do sessionId <- randomBytes;
  let threshold := 2 in
  let totalParticipants := 3 in
  do creationHeight <-
    try_catch (do currentHeight <- daemonGetHeight; ret (Z.max 0 (currentHeight - 10)))
              (fun _ => ret 0);
  let serviceWalletPath := "../../wallets/service_" +:+ sessionId in
  (* Step 1: Create wallet to get the seed *)
  do tempWallet <- createWalletFull (Some serviceWalletPath) None None;
  do walletSeed <- getSeed tempWallet;
  run close tempWallet;
  (* Step 2: Delete the wallet files *)
  run try_catch (run unlinkSync serviceWalletPath; unlinkSync (serviceWalletPath +:+ ".keys"))
                (fun _ => ret tt);
  (* Step 3: Restore from seed with proper creation height *)
  do serviceWallet <-
    createWalletFull (Some serviceWalletPath) (Some walletSeed) (Some creationHeight);
  do servicePreparedHex <- prepareMultisig serviceWallet;
  do serviceAddress <- getAddress serviceWallet;
  run createSession sessionId userId threshold totalParticipants;
  run updateSession sessionId
        [U_service_wallet_path (Str serviceWalletPath);
         U_service_address (Str serviceAddress);
         U_service_prepared_hex (Str servicePreparedHex);
         U_creation_height creationHeight];
  run close serviceWallet;
  ret (sessionId, servicePreparedHex).

Definition allPrepared (s : MultisigSession) : bool :=
  truthy_col (Session.service_prepared_hex s)
  && truthy_col (Session.user_a_prepared_hex s)
  && truthy_col (Session.user_b_prepared_hex s).

Definition allMade (s : MultisigSession) : bool :=
  truthy_col (Session.service_made_hex s)
  && truthy_col (Session.user_a_made_hex s)
  && truthy_col (Session.user_b_made_hex s).

Definition allExchanged (s : MultisigSession) : bool :=
  truthy_col (Session.service_exchange_hexes s)
  && truthy_col (Session.user_a_exchange_hexes s)
  && truthy_col (Session.user_b_exchange_hexes s).

(** [POST /multisig/:sessionId/prepare] *)
Definition prepare (sessionId userId participantId : string) (preparedHex : JsVal)
    : St -> Response * St :=
  route (
    do session <- getSession sessionId;
    match session with
    | None => ret (error 404 "Session not found")
    | Some session =>
      if negb (bool_decide (Session.status session = preparing)) then
        ret (error 400 ("Session is in " +:+ session_status_string (Session.status session)
                          +:+ " state, cannot accept prepared hex"))
      else
        let store :=
          if String.eqb participantId "user_a" then
            Some [U_user_a_prepared_hex preparedHex; U_user_a_id (Str userId)]
          else if String.eqb participantId "user_b" then
            Some [U_user_b_prepared_hex preparedHex; U_user_b_id (Str userId)]
          else None in
        match store with
        | None => ret (error 400 "Invalid participantId")
        | Some updates =>
          run updateSession sessionId updates;
          (* Check if we have all prepared hexes *)
          do updatedSession <- getSession_nonnull sessionId;
          run (if allPrepared updatedSession then updateSession sessionId [U_status making]
               else ret tt);
          ret (json (PrepareBody (allPrepared updatedSession)))
        end
    end).

(** The service makes its wallet multisig from the two users' prepared
    hexes: the [participantId === "service"] branch of [/make]. *)
Definition make_service (sessionId : string) (session : MultisigSession) : M string :=
  do serviceWallet <- openWalletFull (Session.service_wallet_path session);
  let peerHexes :=
    [Session.user_a_prepared_hex session; Session.user_b_prepared_hex session] in
  do madeHex <- makeMultisig serviceWallet peerHexes (Session.threshold session);
  run close serviceWallet;
  run updateSession sessionId [U_service_made_hex (Str madeHex)];
  ret madeHex.

(** The automatic variant, run when both users have made theirs; a failure
    is logged and swallowed. *)
Definition make_auto (sessionId : string) (updatedSession : MultisigSession) : M unit :=
  try_catch (
    do serviceWallet <- openWalletFull (Session.service_wallet_path updatedSession);
    let peerHexes :=
      [Session.user_a_prepared_hex updatedSession;
       Session.user_b_prepared_hex updatedSession] in
    do serviceMadeHex <-
      makeMultisig serviceWallet peerHexes (Session.threshold updatedSession);
    run save serviceWallet;
    run close serviceWallet;
    updateSession sessionId [U_service_made_hex (Str serviceMadeHex)])
    (fun _ => ret tt).

(** [POST /multisig/:sessionId/make] *)
Definition make (sessionId participantId : string) (userMadeHex : JsVal)
    : St -> Response * St :=
  route (
    do session <- getSession sessionId;
    match session with
    | None => ret (error 404 "Session not found")
    | Some session =>
      if negb (bool_decide (Session.status session = making)) then
        ret (error 400 ("Session is in " +:+ session_status_string (Session.status session)
                          +:+ " state, not ready for makeMultisig"))
      else
        do stored <-
          (if String.eqb participantId "service" then
             do madeHex <- make_service sessionId session;
             ret (inr (Str madeHex))
           else if String.eqb participantId "user_a" || String.eqb participantId "user_b" then
             if negb (truthy userMadeHex) then
               ret (inl (error 400 "madeHex is required"))
             else
               run (if String.eqb participantId "user_a"
                    then updateSession sessionId [U_user_a_made_hex userMadeHex]
                    else updateSession sessionId [U_user_b_made_hex userMadeHex]);
               ret (inr userMadeHex)
           else ret (inl (error 400 "Invalid participantId")));
        match stored with
        | inl early => ret early
        | inr madeHex =>
          (* Check if both users have made their wallets *)
          do updatedSession <- getSession_nonnull sessionId;
          let bothUsersMade :=
            truthy_col (Session.user_a_made_hex updatedSession)
            && truthy_col (Session.user_b_made_hex updatedSession) in
          run (if bothUsersMade
                  && negb (truthy_col (Session.service_made_hex updatedSession))
                  && negb (String.eqb participantId "service")
               then make_auto sessionId updatedSession
               else ret tt);
          (* Check if ALL participants (including service) have made *)
          do finalSession <- getSession_nonnull sessionId;
          run (if allMade finalSession then updateSession sessionId [U_status exchanging]
               else ret tt);
          ret (json (MakeBody
                       (if String.eqb participantId "service" then to_col madeHex else None)
                       (allMade finalSession)))
        end
    end).

(** [totalRounds = session.total_participants - session.threshold + 1] *)
Definition totalRounds (session : MultisigSession) : Z :=
  Session.total_participants session - Session.threshold session + 1.

(** The peer hexes handed to [exchangeMultisigKeys] when the service is the
    submitting participant. *)
Definition hexesToExchange_service (session : MultisigSession) : list (option string) :=
  if Session.exchange_round session =? 0 then
    (* First exchange: use made hexes *)
    [Session.user_a_made_hex session; Session.user_b_made_hex session]
  else
    (* Subsequent exchanges: use previous round's exchange results *)
    [Session.user_a_exchange_hexes_prev session;
     Session.user_b_exchange_hexes_prev session].

(** The peer hexes handed to [exchangeMultisigKeys] by the automatic
    exchange and by the admin retry. *)
Definition hexesToExchange_auto (session : MultisigSession) : list (option string) :=
  if Session.exchange_round session =? 0 then
    [Session.user_a_made_hex session; Session.user_b_made_hex session]
  else
    [Session.user_a_exchange_hexes session; Session.user_b_exchange_hexes session].

(** The [participantId === "service"] branch of [/exchange]. *)
Definition exchange_service (sessionId : string) (session : MultisigSession) : M string :=
  do serviceWallet <- openWalletFull (Session.service_wallet_path session);
  do exchangeResultHex <-
    exchangeMultisigKeys serviceWallet (hexesToExchange_service session);
  (* If this is the final round, get the multisig address *)
  run (if Session.exchange_round session =? totalRounds session - 1 then
         do multisigAddress <- getAddress serviceWallet;
         updateSession sessionId [U_multisig_address (Str multisigAddress)]
       else ret tt);
  run save serviceWallet;
  run close serviceWallet;
  run updateSession sessionId [U_service_exchange_hexes (Str exchangeResultHex)];
  ret exchangeResultHex.

(** The automatic exchange of the service keys, run when both users have
    exchanged for this round; a failure is logged and swallowed. *)
Definition exchange_auto (sessionId : string) (updatedSession : MultisigSession)
    (total : Z) : M unit :=
  try_catch (
    do serviceWallet <- openWalletFull (Session.service_wallet_path updatedSession);
    do serviceExchangeHex <-
      exchangeMultisigKeys serviceWallet (hexesToExchange_auto updatedSession);
    run (if Session.exchange_round updatedSession =? total - 1 then
           do multisigAddress <- getAddress serviceWallet;
           updateSession sessionId
             [U_service_exchange_hexes (Str serviceExchangeHex);
              U_multisig_address (Str multisigAddress)]
         else updateSession sessionId [U_service_exchange_hexes (Str serviceExchangeHex)]);
    run save serviceWallet;
    close serviceWallet)
    (fun _ => ret tt).

(** Recreate the service wallet from its seed at the creation height, once
    the session is ready; every failure is logged and swallowed. *)
Definition fix_restore_height (sessionId : string) : M unit :=
  try_catch (
    do readySession <- getSession_nonnull sessionId;
    match Session.service_wallet_path readySession, Session.creation_height readySession with
    | Some path, Some height =>
      if negb (String.eqb path EmptyString) && negb (height =? 0) then
        do wallet <- openWalletFull (Some path);
        do walletSeed <- getSeed wallet;
        run close wallet;
        run try_catch (run unlinkSync path; unlinkSync (path +:+ ".keys"))
                      (fun _ => ret tt);
        do wallet <- createWalletFull (Some path) (Some walletSeed) (Some height);
        do newHeight <- getHeight wallet;
        close wallet
      else ret tt
    | _, _ => ret tt
    end)
    (fun _ => ret tt).

(** First half of [/exchange]: store the submitted hex (or compute the
    service's), then run the automatic service exchange if it is due.
    Returns the early response of a rejected request, or the hex that was
    stored. *)
Definition exchange_submit (sessionId participantId : string) (exchangeHex : JsVal)
    (session : MultisigSession) : M (Response + JsVal) :=
  do stored <-
    (if String.eqb participantId "service" then
       do exchangeResultHex <- exchange_service sessionId session;
       ret (inr (Str exchangeResultHex))
     else if String.eqb participantId "user_a" || String.eqb participantId "user_b" then
       if negb (truthy exchangeHex) then
         ret (inl (error 400 "exchangeHex is required"))
       else
         run (if String.eqb participantId "user_a"
              then updateSession sessionId [U_user_a_exchange_hexes exchangeHex]
              else updateSession sessionId [U_user_b_exchange_hexes exchangeHex]);
         ret (inr exchangeHex)
     else ret (inl (error 400 "Invalid participantId")));
  match stored with
  | inl early => ret (inl early)
  | inr exchangeResultHex =>
    (* Check if both users have exchanged for this round *)
    do updatedSession <- getSession_nonnull sessionId;
    let bothUsersExchanged :=
      truthy_col (Session.user_a_exchange_hexes updatedSession)
      && truthy_col (Session.user_b_exchange_hexes updatedSession) in
    run (if bothUsersExchanged
            && negb (truthy_col (Session.service_exchange_hexes updatedSession))
            && negb (String.eqb participantId "service")
         then exchange_auto sessionId updatedSession (totalRounds session)
         else ret tt);
    ret (inr exchangeResultHex)
  end.

(** Second half of [/exchange]: if all three have exchanged for this round,
    finish the session or move to the next round. *)
Definition exchange_complete (sessionId participantId : string) (total : Z)
    (exchangeResultHex : JsVal) : M Response :=
  do finalSession <- getSession_nonnull sessionId;
  run (if allExchanged finalSession then
         let nextRound := Session.exchange_round finalSession + 1 in
         if nextRound >=? total then
           (* Done! *)
           run updateSession sessionId [U_status ready; U_exchange_round nextRound];
           fix_restore_height sessionId
         else
           (* More rounds needed - save current exchange hexes and clear for next round *)
           updateSession sessionId
             [U_exchange_round nextRound;
              U_service_exchange_hexes_prev
                (from_option Str Null (Session.service_exchange_hexes finalSession));
              U_user_a_exchange_hexes_prev
                (from_option Str Null (Session.user_a_exchange_hexes finalSession));
              U_user_b_exchange_hexes_prev
                (from_option Str Null (Session.user_b_exchange_hexes finalSession));
              U_service_exchange_hexes Null;
              U_user_a_exchange_hexes Null;
              U_user_b_exchange_hexes Null]
       else ret tt);
  ret (json (ExchangeBody
               (if String.eqb participantId "service" then to_col exchangeResultHex else None)
               (Session.exchange_round finalSession) total
               (allExchanged finalSession)
               (bool_decide (Session.status finalSession = ready))
               (Session.multisig_address finalSession))).

(** [POST /multisig/:sessionId/exchange] *)
Definition exchange (sessionId participantId : string) (exchangeHex : JsVal)
    : St -> Response * St :=
  route (
    do session <- getSession sessionId;
    match session with
    | None => ret (error 404 "Session not found")
    | Some session =>
      if negb (bool_decide (Session.status session = exchanging)) then
        ret (error 400 ("Session is in " +:+ session_status_string (Session.status session)
                          +:+ " state, not ready for key exchange"))
      else
        do submitted <- exchange_submit sessionId participantId exchangeHex session;
        match submitted with
        | inl early => ret early
        | inr exchangeResultHex =>
            exchange_complete sessionId participantId (totalRounds session)
              exchangeResultHex
        end
    end).

(** [POST /multisig/:sessionId/admin/retry-service-exchange] *)
Definition retry_service_exchange (sessionId : string) : St -> Response * St :=
  route (
    do session <- getSession sessionId;
    match session with
    | None => ret (error 404 "Session not found")
    | Some session =>
      if negb (bool_decide (Session.status session = exchanging)) then
        ret (error 400 ("Session is in " +:+ session_status_string (Session.status session)
                          +:+ " state, not exchanging"))
      else if negb (truthy_col (Session.user_a_exchange_hexes session)
                    && truthy_col (Session.user_b_exchange_hexes session)) then
        ret (error 400 "Both users must exchange keys first")
      else if truthy_col (Session.service_exchange_hexes session) then
        ret (error 400 "Service already exchanged keys")
      else
        let total := totalRounds session in
        do serviceWallet <- openWalletFull (Session.service_wallet_path session);
        do isMultisigFlag <- isMultisig serviceWallet;
        do serviceExchangeHex <-
          exchangeMultisigKeys serviceWallet (hexesToExchange_auto session);
        (* If this is the final round, get the multisig address *)
        run (if Session.exchange_round session =? total - 1 then
               do multisigAddress <- getAddress serviceWallet;
               updateSession sessionId
                 [U_service_exchange_hexes (Str serviceExchangeHex);
                  U_multisig_address (Str multisigAddress)]
             else
               updateSession sessionId [U_service_exchange_hexes (Str serviceExchangeHex)]);
        run save serviceWallet;
        run close serviceWallet;
        (* Check if all participants have exchanged *)
        do updatedSession <- getSession_nonnull sessionId;
        run (if allExchanged updatedSession then
               let nextRound := Session.exchange_round updatedSession + 1 in
               if nextRound >=? total then
                 run updateSession sessionId [U_status ready; U_exchange_round nextRound];
                 fix_restore_height sessionId
               else updateSession sessionId [U_exchange_round nextRound]
             else ret tt);
        ret (json (RetryBody (bool_decide (Session.status updatedSession = ready))
                             (Session.multisig_address updatedSession)))
    end).

(** ** Release routes (routes/trades.ts, routes/admin.ts) *)

Definition FEE_PERCENTAGE : float := 0.005%float.

(** [trade.xmr_amount * FEE_PERCENTAGE] *)
Definition feeXmr (t : Trade) : float := (Trade.xmr_amount t * FEE_PERCENTAGE)%float.

(** [trade.xmr_amount - feeXmr] *)
Definition amountAfterFee (t : Trade) : float := (Trade.xmr_amount t - feeXmr t)%float.

(** [BigInt(Math.floor(x * 1e12))]: XMR to atomic units. *)
Definition toAtomic (x : float) : option Z := BigInt_floor (x * 1e12)%float.

Definition toAtomic_or_throw (x : float) : M Z :=
  match toAtomic x with
  | Some n => ret n
  | None => throw "RangeError: cannot be converted to a BigInt"
  end.

(** [require("crypto").randomBytes(16).toString("hex")], as the two routes
    that record a fee draw its id.  The server is made of ES modules (it reads
    [import.meta.url] and imports with [import]), and [require] is not defined
    in an ES module: evaluating the expression throws a [ReferenceError].
    (The routes that draw an id with the imported [randomBytes] do not.) *)
Definition require_randomBytes : M string :=
  throw "require is not defined in ES module scope, you can use import instead".

(** [POST /trades/:id/initiate-release] *)
Definition initiate_release (id userId : string) (recipientAddress : JsVal)
    : St -> Response * St :=
  route (
    do trade <- getTradeById id;
    match trade with
    | None => ret (error 404 "Trade not found")
    | Some trade =>
      (* Only seller can initiate release *)
      if negb (String.eqb (Trade.seller_id trade) userId) then
        ret (error 403 "Only the seller can initiate escrow release")
      else if negb (bool_decide (Trade.status trade = payment_sent)) then
        ret (error 400 ("Trade must be in 'payment_sent' status. Current status: "
                          +:+ trade_status_string (Trade.status trade)))
      else
        match recipientAddress with
        | Str address =>
          if String.eqb address EmptyString then
            ret (error 400 "recipientAddress (your XMR address) is required")
          else if negb (truthy_col (Trade.multisig_session_id trade)) then
            ret (error 400 "Trade does not have an associated multisig session")
          else
            do session <- getSession (default EmptyString (Trade.multisig_session_id trade));
            match session with
            | None => ret (error 400 "Multisig session is not ready")
            | Some session =>
              if negb (bool_decide (Session.status session = ready)) then
                ret (error 400 "Multisig session is not ready")
              else
                (* Open service wallet and create transaction *)
                do serviceWallet <- openWalletFull (Session.service_wallet_path session);
                run sync serviceWallet;
                (* Calculate amount minus 0.5% platform fee *)
                do amountAfterFeeAtomic <- toAtomic_or_throw (amountAfterFee trade);
                run createTx serviceWallet address amountAfterFeeAtomic;
                (* Export unsigned multisig hex for seller to sign *)
                do unsignedTxHex <- exportMultisigHex serviceWallet;
                run close serviceWallet;
                ret (json (InitiateBody unsignedTxHex address (Trade.xmr_amount trade)
                             (feeXmr trade) (amountAfterFee trade)))
            end
        | _ => ret (error 400 "recipientAddress (your XMR address) is required")
        end
    end).

(** [POST /trades/:id/finalize-release].  The reputation counters of the
    users table and the console notification that follow the status update
    touch neither trades nor fees and are left out.  Everything after
    [close] is written as in the source, although the draw of the fee id
    throws. *)
Definition finalize_release (id userId : string) (sellerSignedHex : JsVal)
    : St -> Response * St :=
  route (
    do trade <- getTradeById id;
    match trade with
    | None => ret (error 404 "Trade not found")
    | Some trade =>
      if negb (String.eqb (Trade.seller_id trade) userId) then
        ret (error 403 "Only the seller can finalize release")
      else
        match sellerSignedHex with
        | Str signedHex =>
          if String.eqb signedHex EmptyString then ret (error 400 "sellerSignedHex is required")
          else
            do session <-
              match Trade.multisig_session_id trade with
              | Some sid => getSession sid
              | None => ret None
              end;
            match session with
            | None => ret (error 404 "Multisig session not found")
            | Some session =>
              (* Mark as releasing *)
              run updateTrade id [TU_status releasing];
              (* Open service wallet *)
              do serviceWallet <- openWalletFull (Session.service_wallet_path session);
              (* Sign the seller's partially signed hex with service wallet *)
              do finalSignedHex <- signMultisigTxHex serviceWallet signedHex;
              (* Submit fully signed transaction to network *)
              do txHashes <- submitMultisigTxHex serviceWallet finalSignedHex;
              run close serviceWallet;
              (* Record fee and update trade *)
              do feeId <- require_randomBytes;
              run recordPlatformFee feeId id (feeXmr trade) FEE_PERCENTAGE;
              run updateTrade id [TU_status completed];
              do updated <- getTradeById id;
              ret (json (FinalizeBody txHashes updated))
            end
        | _ => ret (error 400 "sellerSignedHex is required")
        end
    end).

(** [POST /admin/trades/:id/release-escrow] (after the admin check of the
    middleware). *)
Definition release_escrow (id recipient : string) (recipientAddress : JsVal)
    : St -> Response * St :=
  route (
    if negb (String.eqb recipient "buyer" || String.eqb recipient "seller") then
      ret (error 400 "Recipient must be either buyer or seller")
    else
      match recipientAddress with
      | Str address =>
        if String.eqb address EmptyString then
          ret (error 400 "recipientAddress (XMR address) is required")
        else
          do trade <- getTradeById id;
          match trade with
          | None => ret (error 404 "Trade not found")
          | Some trade =>
            if negb (bool_decide (Trade.status trade = payment_confirmed))
               && negb (bool_decide (Trade.status trade = disputed)) then
              ret (error 400
                     ("Trade must be in 'payment_confirmed' or 'disputed' status to release escrow. Current status: "
                        +:+ trade_status_string (Trade.status trade)))
            else if negb (truthy_col (Trade.multisig_session_id trade)) then
              ret (error 400 "Trade does not have an associated multisig session")
            else
              do session <- getSession (default EmptyString (Trade.multisig_session_id trade));
              match session with
              | None => ret (error 404 "Multisig session not found")
              | Some session =>
                if negb (bool_decide (Session.status session = ready)) then
                  ret (error 400 "Multisig session is not ready for transactions")
                else
                  do serviceWallet <- openWalletFull (Session.service_wallet_path session);
                  run sync serviceWallet;
                  (* Get balance to verify funds are available *)
                  do balance <- getUnlockedBalance serviceWallet;
                  do tradeAmountAtomic <- toAtomic_or_throw (Trade.xmr_amount trade);
                  if balance <? tradeAmountAtomic then
                    run close serviceWallet;
                    ret (error 400 "Insufficient balance in escrow")
                  else
                    do amountAfterFeeAtomic <- toAtomic_or_throw (amountAfterFee trade);
                    run createTx serviceWallet address amountAfterFeeAtomic;
                    do unsignedTxHex <- exportMultisigHex serviceWallet;
                    (* Service signs the transaction *)
                    do serviceSignedHex <- signMultisigTxHex serviceWallet unsignedTxHex;
                    run close serviceWallet;
                    (* Record platform fee *)
                    do feeId <- require_randomBytes;
                    run recordPlatformFee feeId id (feeXmr trade) FEE_PERCENTAGE;
                    run updateTrade id [TU_status completed];
                    do updated <- getTradeById id;
                    ret (json (ReleaseEscrowBody address (Trade.xmr_amount trade)
                                 (feeXmr trade) (amountAfterFee trade)
                                 unsignedTxHex serviceSignedHex updated))
              end
          end
      | _ => ret (error 400 "recipientAddress (XMR address) is required")
      end).

(** ** Deposit monitor (services/depositMonitor.ts) *)

Record DepositCheck : Type := mkDepositCheck {
  hasDeposit : bool;
  isUnlocked : bool;
  balance : Z
}.

Definition no_deposit : DepositCheck := mkDepositCheck false false 0.

(** The body of the [try] of [performWalletCheck] once the wallet is open. *)
Definition wallet_round_trip (serviceWallet : Wallet) (session : MultisigSession)
    (expectedAmount : float) : M DepositCheck :=
  (* Check wallet sync height BEFORE syncing *)
  do syncHeight <- getHeight serviceWallet;
  do daemonHeight <- getDaemonHeight serviceWallet;
  do syncHeight <-
    (if (syncHeight <? 100)
        && match Session.creation_height session with
           | Some h => negb (h =? 0) && (0 <? h)
           | None => false
           end
     then
       run setRestoreHeight serviceWallet (default 0 (Session.creation_height session));
       run rescanBlockchain serviceWallet;
       run sync serviceWallet;
       getHeight serviceWallet
     else ret syncHeight);
  run (if syncHeight >=? daemonHeight then ret tt else sync serviceWallet);
  do balance <- getBalance serviceWallet;
  do unlockedBalance <- getUnlockedBalance serviceWallet;
  run close serviceWallet;
  do expectedAtomic <- toAtomic_or_throw expectedAmount;
  ret (mkDepositCheck (balance >=? expectedAtomic) (unlockedBalance >=? expectedAtomic)
         balance).

(** [performWalletCheck]: [serviceWallet] is [null] until the wallet is
    open; the [catch] closes it if it is set and reports no deposit. *)
Definition performWalletCheck (sessionId : string) (expectedAmount : float)
    : M DepositCheck :=
  do session <- getSession sessionId;
  match session with
  | None => ret no_deposit
  | Some session =>
    if negb (bool_decide (Session.status session = ready)) then ret no_deposit
    else
      try_catch (
        do serviceWallet <- openWalletFull (Session.service_wallet_path session);
        try_catch (wallet_round_trip serviceWallet session expectedAmount)
          (fun _ =>
             (* Make sure to close wallet on error *)
             run try_catch (close serviceWallet) (fun _ => ret tt);
             ret no_deposit))
        (fun _ => ret no_deposit)
  end.

(** [checkWalletDeposits] as run by one request with no other check of the
    same session in flight: an entry found in [walletLocks] has settled, so
    the [await] on it returns at once; the check is performed, its promise is
    put in the map, and the [finally] removes the entry.  The interleaving of
    several requests is the subject of [EventLoop] below. *)
Definition checkWalletDeposits (sessionId : string) (expectedAmount : float)
    : M DepositCheck :=
  try_finally
    (do result <- performWalletCheck sessionId expectedAmount;
     run (fun st => (Ok tt, set_walletLocks ({[sessionId]} ∪ walletLocks st) st));
     ret result)
    (* Remove lock when done *)
    (fun st => (Ok tt, set_walletLocks (walletLocks st ∖ {[sessionId]}) st)).

Record TradeDepositResult : Type := mkTradeDepositResult {
  success : bool;
  td_hasDeposit : bool;
  td_isUnlocked : bool;
  (** the balance in atomic units; the route prints it with
      [(Number(balance) / 1e12).toFixed(8)] *)
  td_balance : Z
}.

Definition no_result : TradeDepositResult := mkTradeDepositResult false false false 0.

(** [checkTradeDeposit]: the manual deposit check of one trade. *)
Definition checkTradeDeposit (tradeId : string) (st : St) : TradeDepositResult * St :=
  match
    (do trade <- getTradeById tradeId;
     match trade with
     | None => ret no_result
     | Some trade =>
       match Trade.multisig_session_id trade with
       | Some sid =>
         if String.eqb sid EmptyString then ret no_result
         else
           do r <- checkWalletDeposits sid (Trade.xmr_amount trade);
           (* Update trade status if deposit is unlocked *)
           run (if isUnlocked r && bool_decide (Trade.status trade = pending)
                then updateTrade tradeId [TU_status funded]
                else ret tt);
           ret (mkTradeDepositResult true (hasDeposit r) (isUnlocked r) (balance r))
       | None => ret no_result
       end
     end) st
  with
  | (Ok r, st') => (r, st')
  | (Throw _, st') => (no_result, st')
  end.

(** ** Reasoning about handlers

    [post m st Q]: running [m] from [st] ends in a result and a state that
    satisfy [Q].  The rules below follow the structure of a computation. *)

Definition post {A} (m : M A) (st : St) (Q : Res A -> St -> Prop) : Prop :=
  Q (m st).1 (m st).2.

Lemma post_ret {A} (a : A) st Q : Q (Ok a) st -> post (ret a) st Q.
Proof. intros HQ. exact HQ. Qed.

Lemma post_throw {A} e st (Q : Res A -> St -> Prop) : Q (Throw e) st -> post (throw e) st Q.
Proof. intros HQ. exact HQ. Qed.

Lemma post_bind {A B} (m : M A) (k : A -> M B) st Q :
  post m st (fun r st' =>
    match r with
    | Ok a => post (k a) st' Q
    | Throw e => Q (Throw e) st'
    end) ->
  post (bind m k) st Q.
Proof. unfold post, bind. destruct (m st) as [[a|e] st']; intros HQ; exact HQ. Qed.

Lemma post_try_catch {A} (m : M A) (h : string -> M A) st Q :
  post m st (fun r st' =>
    match r with
    | Ok a => Q (Ok a) st'
    | Throw e => post (h e) st' Q
    end) ->
  post (try_catch m h) st Q.
Proof. unfold post, try_catch. destruct (m st) as [[a|e] st']; intros HQ; exact HQ. Qed.

Lemma post_call {A} c (op : World -> Res A * World) st Q :
  (forall r w, op (world st) = (r, w) -> Q r (set_world w c st)) ->
  post (call c op) st Q.
Proof.
  intros HQ. unfold post, call. destruct (op (world st)) as [r w] eqn:E.
  exact (HQ r w eq_refl).
Qed.

Lemma post_call_eq {A} c (op : World -> Res A * World) st Q r w :
  op (world st) = (r, w) -> Q r (set_world w c st) -> post (call c op) st Q.
Proof. intros E HQ. unfold post, call. rewrite E. exact HQ. Qed.

Lemma post_getSession id st Q :
  Q (Ok (multisig_sessions st !! id)) st -> post (getSession id) st Q.
Proof. intros HQ. exact HQ. Qed.

Lemma post_getSession_nonnull id st Q :
  match multisig_sessions st !! id with
  | Some s => Q (Ok s) st
  | None => Q (Throw "Cannot read properties of undefined") st
  end ->
  post (getSession_nonnull id) st Q.
Proof. unfold post, getSession_nonnull. destruct (multisig_sessions st !! id); intros HQ; exact HQ. Qed.

Lemma post_updateSession id updates st Q :
  first_missing_column updates = None ->
  match multisig_sessions st !! id with
  | Some s =>
      Q (Ok tt)
        (set_multisig_sessions
           (<[id := Session.set_updated_at (cap_now (world st))
                      (foldl apply_session_update s updates)]>
              (multisig_sessions st)) st)
  | None => Q (Ok tt) st
  end ->
  post (updateSession id updates) st Q.
Proof.
  intros Hcols. unfold post, updateSession. rewrite Hcols.
  destruct (multisig_sessions st !! id); intros HQ; exact HQ.
Qed.

Lemma post_updateSession_missing id updates column st Q :
  first_missing_column updates = Some column ->
  Q (Throw ("no such column: " +:+ column)) st ->
  post (updateSession id updates) st Q.
Proof. intros Hcols HQ. unfold post, updateSession. rewrite Hcols. exact HQ. Qed.

Lemma post_createSession id userId threshold totalParticipants st Q :
  match multisig_sessions st !! id with
  | Some _ => Q (Throw "UNIQUE constraint failed: multisig_sessions.id") st
  | None =>
      Q (Ok tt)
        (set_multisig_sessions
           (<[id := Session.mk id userId preparing threshold totalParticipants
                 None None None None None None None None 0
                 None None None None None None None None
                 (cap_now (world st)) (cap_now (world st))]>
              (multisig_sessions st)) st)
  end ->
  post (createSession id userId threshold totalParticipants) st Q.
Proof.
  unfold post, createSession. destruct (multisig_sessions st !! id); intros HQ; exact HQ.
Qed.

Lemma post_randomBytes st Q :
  (forall s w, cap_randomBytes (world st) = (s, w) ->
     Q (Ok s) (mkSt w (multisig_sessions st) (trades st) (platform_fees st)
                    (walletLocks st) (calls st))) ->
  post randomBytes st Q.
Proof.
  intros HQ. unfold post, randomBytes.
  destruct (cap_randomBytes (world st)) as [s w] eqn:E. exact (HQ s w eq_refl).
Qed.

Lemma post_randomBytes_eq st Q s w :
  cap_randomBytes (world st) = (s, w) ->
  Q (Ok s) (mkSt w (multisig_sessions st) (trades st) (platform_fees st)
                 (walletLocks st) (calls st)) ->
  post randomBytes st Q.
Proof. intros E HQ. unfold post, randomBytes. rewrite E. exact HQ. Qed.

Lemma post_recordPlatformFee id tradeId amountXmr feePercentage st Q :
  (if existsb (fun f => String.eqb (fee_id f) id) (platform_fees st)
   then Q (Throw "UNIQUE constraint failed: platform_fees.id") st
   else Q (Ok tt)
          (set_platform_fees
             (platform_fees st ++
                [mkPlatformFee id tradeId amountXmr feePercentage (cap_now (world st))])
             st)) ->
  post (recordPlatformFee id tradeId amountXmr feePercentage) st Q.
Proof.
  unfold post, recordPlatformFee.
  destruct (existsb _ (platform_fees st)); intros HQ; exact HQ.
Qed.

Lemma post_getTradeById id st Q :
  Q (Ok (trades st !! id)) st -> post (getTradeById id) st Q.
Proof. intros HQ. exact HQ. Qed.

Lemma post_updateTrade id updates st Q :
  match trades st !! id with
  | Some t =>
      Q (Ok tt)
        (set_trades
           (<[id := Trade.set_updated_at (cap_now (world st))
                      (foldl apply_trade_update t updates)]> (trades st)) st)
  | None => Q (Ok tt) st
  end ->
  post (updateTrade id updates) st Q.
Proof. unfold post, updateTrade. destruct (trades st !! id); intros HQ; exact HQ. Qed.

Lemma post_route (m : M Response) st (Q : Response -> St -> Prop) :
  post m st (fun r st' =>
    match r with
    | Ok x => Q x st'
    | Throw e => Q (error 500 e) st'
    end) ->
  Q (route m st).1 (route m st).2.
Proof. unfold post, route. destruct (m st) as [[x|e] st']; intros HQ; exact HQ. Qed.

Lemma post_elim {A} (m : M A) st Q r st' : post m st Q -> m st = (r, st') -> Q r st'.
Proof. unfold post. intros HQ E. rewrite E in HQ. exact HQ. Qed.

Ltac st_simpl :=
  cbn [world multisig_sessions trades platform_fees walletLocks calls
       set_world set_multisig_sessions set_trades set_platform_fees set_walletLocks] in *.

Ltac wallet_ops :=
  unfold openWalletFull, daemonGetHeight, createWalletFull, prepareMultisig, isMultisig, makeMultisig, exchangeMultisigKeys,
    getAddress, getSeed, save, close, unlinkSync, getHeight, getDaemonHeight,
    setRestoreHeight, rescanBlockchain, sync, getBalance, getUnlockedBalance, createTx,
    exportMultisigHex, signMultisigTxHex, submitMultisigTxHex.

Ltac step :=
  lazymatch goal with
  | |- post (bind _ _) _ _ => apply post_bind
  | |- post (ret _) _ _ => apply post_ret
  | |- post (throw _) _ _ => apply post_throw
  | |- post require_randomBytes _ _ => apply post_throw
  | |- post (try_catch _ _) _ _ => apply post_try_catch
  | |- post (call _ _) _ _ =>
      first [ eapply post_call_eq; [eassumption|]
            | apply post_call; intros [?|?] ? ? ]
  | |- post (getSession _) _ _ => apply post_getSession
  | |- post (getSession_nonnull _) _ _ => apply post_getSession_nonnull
  | |- post (updateSession _ _) _ _ =>
      first [ apply post_updateSession; [reflexivity|]
            | eapply post_updateSession_missing; [reflexivity|] ]
  | |- post (createSession _ _ _ _) _ _ => apply post_createSession
  | |- post randomBytes _ _ =>
      first [ eapply post_randomBytes_eq; [eassumption|]
            | apply post_randomBytes; intros ? ? ? ]
  | |- post (recordPlatformFee _ _ _ _) _ _ => apply post_recordPlatformFee
  | |- post (getTradeById _) _ _ => apply post_getTradeById
  | |- post (updateTrade _ _) _ _ => apply post_updateTrade
  | |- post (if ?b then _ else _) _ _ =>
      let E := fresh "Hif" in
      destruct b eqn:E;
      try solve [exfalso; rewrite ?andb_false_r in E; simpl in E; congruence]
  | |- post (match (if ?b then _ else _) with _ => _ end) _ _ => destruct b eqn:?
  | |- post (match ?x with _ => _ end) _ _ => destruct x eqn:?
  | |- match ?x with _ => _ end => destruct x eqn:?
  | |- if ?b then _ else _ => destruct b eqn:?
  end; cbv beta iota zeta; st_simpl.

Lemma post_mono {A} (m : M A) st (Q Q' : Res A -> St -> Prop) :
  post m st Q' -> (forall r st', Q' r st' -> Q r st') -> post m st Q.
Proof. unfold post. intros HQ' HQ. apply HQ, HQ'. Qed.

(** Calls to the outside leave the store alone. *)
Definition same_store (st st' : St) : Prop :=
  multisig_sessions st' = multisig_sessions st /\ trades st' = trades st /\
  platform_fees st' = platform_fees st.

Lemma same_store_refl st : same_store st st.
Proof. repeat split. Qed.

Lemma same_store_set_world st st' w c : same_store st st' -> same_store st (set_world w c st').
Proof. intros (?&?&?). repeat split; assumption. Qed.

Lemma fix_restore_height_store sessionId st :
  post (fix_restore_height sessionId) st (fun r st' => r = Ok tt /\ same_store st st').
Proof.
  unfold fix_restore_height. wallet_ops.
  repeat step;
    repeat match goal with u : unit |- _ => destruct u end;
    (split; [reflexivity|]);
    repeat (first [ apply same_store_refl | apply same_store_set_world ]).
Qed.

Ltac rew_lookups :=
  repeat match goal with
         | E : ?m !! ?k = _ |- context [?m !! ?k] => rewrite E
         end;
  rewrite ?lookup_insert_eq.

Ltac steps := cbv zeta; repeat (step; rew_lookups; cbv beta iota zeta).

(** The fields that the first half of [/exchange] never writes. *)
Definition same_round (s fs : MultisigSession) : Prop :=
  Session.status fs = Session.status s /\
  Session.threshold fs = Session.threshold s /\
  Session.total_participants fs = Session.total_participants s /\
  Session.exchange_round fs = Session.exchange_round s.

Lemma exchange_submit_post sid pid hex s st :
  multisig_sessions st !! sid = Some s ->
  post (exchange_submit sid pid hex s) st (fun _ st1 =>
    exists fs, multisig_sessions st1 !! sid = Some fs /\ same_round s fs).
Proof.
  intros Hs. unfold exchange_submit, exchange_service, exchange_auto. wallet_ops.
  steps.
  all: destruct hex; try discriminate.
  all: eexists; split; [reflexivity|]; repeat split; reflexivity.
Qed.

(** What the second half of [/exchange] does to the session [fs] it reads. *)
Lemma exchange_complete_post sid pid T x fs st1 :
  multisig_sessions st1 !! sid = Some fs ->
  post (exchange_complete sid pid T x) st1 (fun r st' =>
    exists s', multisig_sessions st' !! sid = Some s' /\
      Session.threshold s' = Session.threshold fs /\
      Session.total_participants s' = Session.total_participants fs /\
      (allExchanged fs = false -> s' = fs) /\
      (allExchanged fs = true -> T <= Session.exchange_round fs + 1 ->
         Session.status s' = ready /\
         Session.exchange_round s' = Session.exchange_round fs + 1 /\
         Session.multisig_address s' = Session.multisig_address fs) /\
      (allExchanged fs = true -> Session.exchange_round fs + 1 < T ->
         Session.status s' = Session.status fs /\
         Session.exchange_round s' = Session.exchange_round fs + 1 /\
         Session.service_exchange_hexes_prev s' = Session.service_exchange_hexes fs /\
         Session.user_a_exchange_hexes_prev s' = Session.user_a_exchange_hexes fs /\
         Session.user_b_exchange_hexes_prev s' = Session.user_b_exchange_hexes fs /\
         Session.service_exchange_hexes s' = None /\
         Session.user_a_exchange_hexes s' = None /\
         Session.user_b_exchange_hexes s' = None)).
Proof.
  intros Hfs. unfold exchange_complete.
  apply post_bind, post_getSession_nonnull. rewrite Hfs.
  apply post_bind.
  destruct (allExchanged fs) eqn:Hall.
  - destruct (Session.exchange_round fs + 1 >=? T) eqn:Hnext.
    + apply post_bind, post_updateSession; [reflexivity|]. rewrite Hfs.
      eapply post_mono; [apply fix_restore_height_store|].
      intros r st' [-> (Hsess & _ & _)]. apply post_ret.
      rewrite Hsess. st_simpl. rewrite lookup_insert_eq.
      eexists; split; [reflexivity|]. split; [reflexivity|]. split; [reflexivity|].
      split; [discriminate|]. split; [intros _ _; cbn; auto|]. intros _ ?; lia.
    + apply post_updateSession; [reflexivity|]. rewrite Hfs. apply post_ret. st_simpl.
      rewrite lookup_insert_eq. eexists; split; [reflexivity|].
      unfold allExchanged in Hall. apply andb_true_iff in Hall as [Hall Hb].
      apply andb_true_iff in Hall as [Hsvc Ha].
      destruct (Session.service_exchange_hexes fs), (Session.user_a_exchange_hexes fs),
        (Session.user_b_exchange_hexes fs); try discriminate.
      split; [reflexivity|]. split; [reflexivity|].
      split; [discriminate|]. split; [intros _ ?; lia|]. intros _ _.
      cbn. repeat split; reflexivity.
  - apply post_ret, post_ret. rewrite Hfs. eexists; split; [reflexivity|].
    repeat split; intros; congruence.
Qed.

Lemma exchange_unfold sid pid hex st s x st1 :
  multisig_sessions st !! sid = Some s ->
  Session.status s = exchanging ->
  exchange_submit sid pid hex s st = (Ok (inr x), st1) ->
  exchange sid pid hex st = route (exchange_complete sid pid (totalRounds s) x) st1.
Proof.
  intros Hs Hst Hsub. unfold exchange. unfold route at 1. unfold bind at 1.
  unfold getSession. rewrite Hs. cbv beta iota.
  rewrite bool_decide_eq_true_2 by exact Hst. cbv beta iota.
  unfold negb. unfold bind at 1. rewrite Hsub. reflexivity.
Qed.

(** Completing a round of [/exchange]: once the submission has been stored
    and all three current-round exchange slots are non-empty, the round
    counter advances when the next round index is below
    [totalRounds = total_participants - threshold + 1] (2 for 2-of-3), and
    otherwise the session turns [ready]; the completion itself leaves the
    address column as the submission left it. *)
Lemma exchange_round_completion sid pid hex st s x st1 fs :
  multisig_sessions st !! sid = Some s ->
  Session.status s = exchanging ->
  exchange_submit sid pid hex s st = (Ok (inr x), st1) ->
  multisig_sessions st1 !! sid = Some fs ->
  allExchanged fs = true ->
  exists s', multisig_sessions (exchange sid pid hex st).2 !! sid = Some s' /\
    totalRounds s = Session.total_participants s - Session.threshold s + 1 /\
    (Session.threshold s = 2 -> Session.total_participants s = 3 -> totalRounds s = 2) /\
    (Session.exchange_round fs + 1 < totalRounds s ->
       Session.exchange_round s' = Session.exchange_round fs + 1 /\
       Session.status s' = exchanging) /\
    (totalRounds s <= Session.exchange_round fs + 1 ->
       Session.status s' = ready /\
       Session.exchange_round s' = Session.exchange_round fs + 1 /\
       Session.multisig_address s' = Session.multisig_address fs).
Proof.
  intros Hs Hst Hsub Hfs Hall.
  rewrite (exchange_unfold _ _ _ _ _ _ _ Hs Hst Hsub).
  pose proof (post_elim _ _ _ _ _ (exchange_submit_post sid pid hex s st Hs) Hsub)
    as (fs' & Hfs' & (Hstat & Hthr & Htot & Hround)).
  rewrite Hfs in Hfs'. injection Hfs' as <-.
  apply (post_route (exchange_complete sid pid (totalRounds s) x) st1
           (fun _ st' => exists s', multisig_sessions st' !! sid = Some s' /\ _)).
  eapply post_mono; [apply (exchange_complete_post _ _ _ _ _ _ Hfs)|].
  intros r st' (s' & Hs' & _ & _ & _ & Hready & Hnext).
  assert (Hgoal : exists s'0, multisig_sessions st' !! sid = Some s'0 /\
    totalRounds s = Session.total_participants s - Session.threshold s + 1 /\
    (Session.threshold s = 2 -> Session.total_participants s = 3 -> totalRounds s = 2) /\
    (Session.exchange_round fs + 1 < totalRounds s ->
       Session.exchange_round s'0 = Session.exchange_round fs + 1 /\
       Session.status s'0 = exchanging) /\
    (totalRounds s <= Session.exchange_round fs + 1 ->
       Session.status s'0 = ready /\
       Session.exchange_round s'0 = Session.exchange_round fs + 1 /\
       Session.multisig_address s'0 = Session.multisig_address fs)).
  { exists s'. split; [exact Hs'|]. split; [reflexivity|].
    split; [unfold totalRounds; lia|].
    split; [intros Hlt; destruct (Hnext Hall Hlt) as (E1 & E2 & _); split; congruence|].
    intros Hge; apply (Hready Hall Hge). }
  destruct r; exact Hgoal.
Qed.

(** ** The preparing and making phases *)

(** [/prepare] returns the state it was given: its only writes are the
    [updateSession] with the key [user_a_id] or [user_b_id], which the table
    refuses, and the one that follows it. *)
Lemma prepare_state sid uid pid hex st : (prepare sid uid pid hex st).2 = st.
Proof.
  unfold prepare.
  apply (post_route _ _ (fun _ st' => st' = st)).
  steps; reflexivity.
Qed.

(** [/prepare] is never answered 200 and never writes; sent for a user to a
    session in [preparing], it is answered 500: the row cannot take the
    user's id. *)
Theorem prepare_never_accepts :
  (forall sid uid pid hex st,
      code (prepare sid uid pid hex st).1 <> 200 /\ (prepare sid uid pid hex st).2 = st) /\
  (forall sid uid pid hex st s,
      multisig_sessions st !! sid = Some s ->
      Session.status s = preparing ->
      pid = "user_a" \/ pid = "user_b" ->
      code (prepare sid uid pid hex st).1 = 500).
Proof.
  split.
  - intros sid uid pid hex st. split; [|apply prepare_state].
    unfold prepare.
    apply (post_route _ _ (fun r _ => code r <> 200)).
    steps; cbn; discriminate.
  - intros sid uid pid hex st s Hs Hst Hpid. unfold prepare.
    apply (post_route _ _ (fun r _ => code r = 500)).
    apply post_bind, post_getSession. rewrite Hs.
    rewrite bool_decide_eq_true_2 by exact Hst. cbn [negb].
    destruct Hpid as [-> | ->]; cbn [String.eqb Ascii.eqb Bool.eqb].
    all: steps; reflexivity.
Qed.

(** The submission of [hex] for [pid] is the one that fills the third
    prepared slot of [s]. *)
Definition fills_third_slot (pid : string) (hex : JsVal) (s : MultisigSession) : Prop :=
  truthy hex = true /\
  truthy_col (Session.service_prepared_hex s) = true /\
  ((pid = "user_a" /\ truthy_col (Session.user_b_prepared_hex s) = true) \/
   (pid = "user_b" /\ truthy_col (Session.user_a_prepared_hex s) = true)).

(** The reading of [/prepare] under which the submission that fills the
    third prepared slot makes the wallet compute the service's made hex,
    stores it and moves the session to [making]. *)
Definition prepare_invokes_make (sid uid pid : string) (hex : JsVal) (st : St) : Prop :=
  forall s,
    multisig_sessions st !! sid = Some s ->
    Session.status s = preparing ->
    fills_third_slot pid hex s ->
    exists s' peers,
      multisig_sessions (prepare sid uid pid hex st).2 !! sid = Some s' /\
      Session.status s' = making /\
      truthy_col (Session.service_made_hex s') = true /\
      CallMakeMultisig peers (Session.threshold s)
        ∈ drop (length (calls st)) (calls (prepare sid uid pid hex st).2).

(** C4 (as amended).  [/prepare] never calls the wallet and never writes the
    service's made hex, whatever it is sent.  The service's made hex is
    computed from the two users' prepared hexes and stored by [/make]: by
    its service branch, and automatically when the second user's made hex
    arrives; the session then moves to [exchanging] once the three made
    hexes are there. *)
Theorem make_computes_service_hex :
  (forall sid uid pid hex st,
      calls (prepare sid uid pid hex st).2 = calls st /\
      forall x s, multisig_sessions st !! x = Some s ->
        exists s', multisig_sessions (prepare sid uid pid hex st).2 !! x = Some s' /\
          Session.service_made_hex s' = Session.service_made_hex s) /\
  (forall sid pid hex st s h w1 made w2 w3 w4,
      multisig_sessions st !! sid = Some s ->
      Session.status s = making ->
      (pid = "user_a" /\ truthy_col (Session.user_b_made_hex s) = true) \/
      (pid = "user_b" /\ truthy_col (Session.user_a_made_hex s) = true) ->
      truthy hex = true ->
      truthy_col (Session.service_made_hex s) = false ->
      cap_openWalletFull (Session.service_wallet_path s) (world st) = (Ok h, w1) ->
      cap_makeMultisig h [Session.user_a_prepared_hex s; Session.user_b_prepared_hex s]
        (Session.threshold s) w1 = (Ok made, w2) ->
      cap_save h w2 = (Ok tt, w3) ->
      cap_close h w3 = (Ok tt, w4) ->
      calls (make sid pid hex st).2 =
        calls st ++
          [CallOpenWalletFull (Session.service_wallet_path s);
           CallMakeMultisig
             [Session.user_a_prepared_hex s; Session.user_b_prepared_hex s]
             (Session.threshold s);
           CallSave; CallClose] /\
      exists s', multisig_sessions (make sid pid hex st).2 !! sid = Some s' /\
        Session.service_made_hex s' = Some made /\
        (made <> EmptyString -> Session.status s' = exchanging)) /\
  (forall sid hex st s h w1 made w2 w3,
      multisig_sessions st !! sid = Some s ->
      Session.status s = making ->
      cap_openWalletFull (Session.service_wallet_path s) (world st) = (Ok h, w1) ->
      cap_makeMultisig h [Session.user_a_prepared_hex s; Session.user_b_prepared_hex s]
        (Session.threshold s) w1 = (Ok made, w2) ->
      cap_close h w2 = (Ok tt, w3) ->
      (make sid "service" hex st).1
        = json (MakeBody (Some made)
                  (negb (String.eqb made EmptyString)
                   && truthy_col (Session.user_a_made_hex s)
                   && truthy_col (Session.user_b_made_hex s))) /\
      calls (make sid "service" hex st).2 =
        calls st ++
          [CallOpenWalletFull (Session.service_wallet_path s);
           CallMakeMultisig
             [Session.user_a_prepared_hex s; Session.user_b_prepared_hex s]
             (Session.threshold s);
           CallClose] /\
      exists s', multisig_sessions (make sid "service" hex st).2 !! sid = Some s' /\
        Session.service_made_hex s' = Some made /\
        Session.user_a_made_hex s' = Session.user_a_made_hex s /\
        Session.user_b_made_hex s' = Session.user_b_made_hex s /\
        Session.status s' = (if allMade s' then exchanging else making)).
Proof.
  split; [|split].
  - intros sid uid pid hex st. rewrite prepare_state.
    split; [reflexivity|]. intros x s Hs. exists s. split; [exact Hs|reflexivity].
  - intros sid pid hex st s h w1 made w2 w3 w4 Hs Hst Hpid Hhex Hsvc Hopen Hmake Hsave Hclose.
    unfold make, make_auto. wallet_ops.
    apply (post_route _ _ (fun _ st' =>
      calls st' = calls st ++ _ /\
      exists s', multisig_sessions st' !! sid = Some s' /\
        Session.service_made_hex s' = Some made /\
        (made <> EmptyString -> Session.status s' = exchanging))).
    apply post_bind, post_getSession. rewrite Hs.
    rewrite bool_decide_eq_true_2 by exact Hst. cbn [negb].
    destruct hex as [| |x]; try discriminate.
    destruct Hpid as [[-> Hother] | [-> Hother]]; cbn [String.eqb Ascii.eqb Bool.eqb orb].
    all: rewrite Hhex; cbn [negb].
    all: steps.
    all: unfold allMade in *; cbn in *.
    all: repeat match goal with
         | E : context [truthy_col _] |- _ =>
             first [rewrite Hother in E | rewrite Hsvc in E]
         | E : context [negb (String.eqb _ _)] |- _ => rewrite Hhex in E
         end.
    all: try discriminate.
    all: (split; [rewrite <- !app_assoc; reflexivity|]);
         eexists; (split; [reflexivity|]); (split; [reflexivity|]); intros Hne.
    all: try reflexivity.
    all: exfalso; destruct (String.eqb_spec made EmptyString); [congruence|discriminate].
  - intros sid hex st s h w1 made w2 w3 Hs Hst Hopen Hmake Hclose.
    unfold make, make_service. wallet_ops.
    apply (post_route _ _ (fun r st' =>
      r = json (MakeBody (Some made) _) /\
      calls st' = calls st ++ _ /\
      exists s', multisig_sessions st' !! sid = Some s' /\
        Session.service_made_hex s' = Some made /\
        Session.user_a_made_hex s' = Session.user_a_made_hex s /\
        Session.user_b_made_hex s' = Session.user_b_made_hex s /\
        Session.status s' = (if allMade s' then exchanging else making))).
    apply post_bind, post_getSession. rewrite Hs.
    rewrite bool_decide_eq_true_2 by exact Hst.
    cbn [negb String.eqb Ascii.eqb Bool.eqb andb].
    steps.
    all: unfold allMade in *; cbn in *.
    all: rewrite ?Hst;
         repeat match goal with
         | E : _ = true |- _ => rewrite E
         | E : _ = false |- _ => rewrite E
         end.
    all: (split; [reflexivity|]);
         (split; [rewrite <- !app_assoc; reflexivity|]);
         eexists; (split; [reflexivity|]); cbn;
         rewrite ?Hst;
         repeat match goal with
         | E : _ = true |- _ => rewrite E
         | E : _ = false |- _ => rewrite E
         end;
         repeat split; reflexivity.
Qed.

(** ** Release: fee and payout *)

(** The payout as a product, read in binary64: the transaction amount is
    that of [X * (1 - feeRate)]. *)
Definition payout_as_stated (t : Trade) : Prop :=
  toAtomic (amountAfterFee t)
  = toAtomic (Trade.xmr_amount t * (1 - FEE_PERCENTAGE))%float.

(** The payout of a trade of [num / den] XMR computed exactly:
    [floor (num / den * 0.995 * 10^12)] atomic units. *)
Definition exact_payout_atomic (num den : Z) : Z := (num * 995 * 10 ^ 12) / (den * 1000).

(** The payout as a product, read in exact decimal arithmetic. *)
Definition payout_as_stated_decimal (num den : Z) (t : Trade) : Prop :=
  toAtomic (amountAfterFee t) = Some (exact_payout_atomic num den).

(** C6 (as amended).  For a trade of [X] XMR, [initiate-release] asks the
    wallet for a transaction of [X - X * 0.005] XMR, computed in binary64 and
    floored to atomic units, and reports the fee [X * 0.005] in its answer.
    For [X = 2.0] these are 1.99 XMR, which is also [2.0 * (1 - 0.005)] and
    [2.0 * 0.995], that is 1990000000000 atomic units, and a fee of 0.01. *)
Theorem release_fee_and_payout :
  (forall id uid addr st hex a amt fee recv,
      (initiate_release id uid addr st).1 = json (InitiateBody hex a amt fee recv) ->
      exists t s atomic,
        trades st !! id = Some t /\
        multisig_sessions st !! default EmptyString (Trade.multisig_session_id t) = Some s /\
        amt = Trade.xmr_amount t /\
        fee = (Trade.xmr_amount t * 0.005)%float /\
        recv = (Trade.xmr_amount t - Trade.xmr_amount t * 0.005)%float /\
        toAtomic recv = Some atomic /\
        calls (initiate_release id uid addr st).2 =
          calls st ++
            [CallOpenWalletFull (Session.service_wallet_path s); CallSync;
             CallCreateTx a atomic; CallExportMultisigHex; CallClose]) /\
  (forall t : Trade,
      Trade.xmr_amount t = 2%float ->
      feeXmr t = 0.01%float /\
      amountAfterFee t = 1.99%float /\
      (Trade.xmr_amount t * (1 - FEE_PERCENTAGE))%float = 1.99%float /\
      (Trade.xmr_amount t * 0.995)%float = 1.99%float /\
      toAtomic (amountAfterFee t) = Some 1990000000000).
Proof.
  split.
  - intros id uid addr st hex a amt fee recv.
    unfold initiate_release, toAtomic_or_throw. wallet_ops.
    apply (post_route _ _ (fun r st' =>
      r = json (InitiateBody hex a amt fee recv) ->
      exists t s atomic, _ /\ _ /\ _ /\ _ /\ _ /\ _ /\ calls st' = _)).
    steps; try discriminate.
    intros [= <- <- <- <- <-].
    do 3 eexists. repeat (split; [first [reflexivity | eassumption]|]).
    rewrite <- !app_assoc. reflexivity.
  - intros t Ht. unfold feeXmr, amountAfterFee, feeXmr, toAtomic, FEE_PERCENTAGE.
    rewrite Ht. repeat split; vm_compute; reflexivity.
Qed.

(** ** Deposit checks *)

Lemma performWalletCheck_store sid x st :
  post (performWalletCheck sid x) st (fun r st' =>
    (exists v, r = Ok v) /\ same_store st st' /\ walletLocks st' = walletLocks st).
Proof.
  unfold performWalletCheck, wallet_round_trip, toAtomic_or_throw. wallet_ops.
  steps.
  all: split; [eexists; reflexivity|]; split; [|reflexivity];
       repeat (first [ apply same_store_refl | apply same_store_set_world ]).
Qed.






Lemma checkTradeDeposit_unfold tid st t :
  trades st !! tid = Some t ->
  checkTradeDeposit tid st =
  match Trade.multisig_session_id t with
  | Some sid =>
      if String.eqb sid EmptyString then (no_result, st)
      else
        match performWalletCheck sid (Trade.xmr_amount t) st with
        | (Ok v, st1) =>
            let st2 :=
              set_walletLocks (({[sid]} ∪ walletLocks st1) ∖ {[sid]}) st1 in
            (mkTradeDepositResult true (hasDeposit v) (isUnlocked v) (balance v),
             if isUnlocked v && bool_decide (Trade.status t = pending)
             then (updateTrade tid [TU_status funded] st2).2
             else st2)
        | (Throw _, st1) =>
            (no_result, set_walletLocks (walletLocks st1 ∖ {[sid]}) st1)
        end
  | None => (no_result, st)
  end.
Proof.
  intros Ht. unfold checkTradeDeposit, checkWalletDeposits.
  unfold bind at 1, getTradeById at 1. rewrite Ht.
  destruct (Trade.multisig_session_id t) as [sid|]; [|reflexivity].
  destruct (String.eqb sid EmptyString); [reflexivity|].
  unfold bind, try_finally.
  destruct (performWalletCheck sid (Trade.xmr_amount t) st) as [[v|e] st1]; [|reflexivity].
  cbn.
  destruct (isUnlocked v && bool_decide (Trade.status t = pending)); [|reflexivity].
  unfold updateTrade. cbn.
  destruct (trades st1 !! tid); reflexivity.
Qed.



(** C10.  When the session of a trade does not exist or is not [ready], the
    deposit check makes no call to the wallet, reports no deposit, not
    unlocked and balance 0, and leaves the trade table as it was. *)
Theorem checkDeposit_session_not_ready tid st t sid :
  trades st !! tid = Some t ->
  Trade.multisig_session_id t = Some sid ->
  sid <> EmptyString ->
  match multisig_sessions st !! sid with
  | Some s => Session.status s <> ready
  | None => True
  end ->
  performWalletCheck sid (Trade.xmr_amount t) st = (Ok (mkDepositCheck false false 0), st) /\
  (checkTradeDeposit tid st).1 = mkTradeDepositResult true false false 0 /\
  calls (checkTradeDeposit tid st).2 = calls st /\
  world (checkTradeDeposit tid st).2 = world st /\
  trades (checkTradeDeposit tid st).2 = trades st /\
  multisig_sessions (checkTradeDeposit tid st).2 = multisig_sessions st.
Proof.
  intros Ht Hsid Hne Hsess.
  assert (Hp : performWalletCheck sid (Trade.xmr_amount t) st = (Ok no_deposit, st)).
  { unfold performWalletCheck, bind, getSession.
    destruct (multisig_sessions st !! sid) as [s|]; [|reflexivity].
    rewrite bool_decide_eq_false_2 by exact Hsess. reflexivity. }
  split; [exact Hp|].
  rewrite (checkTradeDeposit_unfold _ _ _ Ht), Hsid.
  destruct (String.eqb_spec sid EmptyString) as [|_]; [contradiction|].
  rewrite Hp. cbn. repeat split; reflexivity.
Qed.

(** ** The two other paths of the service's key exchange *)

(** The automatic exchange, triggered by the submission that fills the
    second user slot: what it hands to [exchangeMultisigKeys] in a round
    after the first are the users' values of the current round, the one just
    submitted included. *)
Lemma exchange_auto_hexes sid pid hex st s h w1 :
  multisig_sessions st !! sid = Some s ->
  Session.status s = exchanging ->
  (pid = "user_a" /\ truthy_col (Session.user_b_exchange_hexes s) = true) \/
  (pid = "user_b" /\ truthy_col (Session.user_a_exchange_hexes s) = true) ->
  hex <> EmptyString ->
  truthy_col (Session.service_exchange_hexes s) = false ->
  cap_openWalletFull (Session.service_wallet_path s) (world st) = (Ok h, w1) ->
  take 2 (drop (length (calls st)) (calls (exchange sid pid (Str hex) st).2)) =
    [CallOpenWalletFull (Session.service_wallet_path s);
     CallExchangeMultisigKeys
       (if Session.exchange_round s =? 0 then
          [Session.user_a_made_hex s; Session.user_b_made_hex s]
        else if String.eqb pid "user_a" then
          [Some hex; Session.user_b_exchange_hexes s]
        else
          [Session.user_a_exchange_hexes s; Some hex])].
Proof.
  intros Hs Hst Hpid Hhex Hsvc Hopen.
  assert (Hne : negb (String.eqb hex EmptyString) = true).
  { destruct (String.eqb_spec hex EmptyString); [contradiction|reflexivity]. }
  unfold exchange, exchange_submit, exchange_auto, exchange_complete,
    fix_restore_height, hexesToExchange_auto.
  wallet_ops.
  apply (post_route _ _ (fun _ st' =>
    take 2 (drop (length (calls st)) (calls st')) = _)).
  apply post_bind, post_getSession. rewrite Hs.
  rewrite bool_decide_eq_true_2 by exact Hst. cbn [negb].
  destruct Hpid as [[-> Hother] | [-> Hother]];
    cbn [String.eqb Ascii.eqb Bool.eqb orb truthy negb]; rewrite Hne; cbn [negb].
  all: steps.
  all: cbn in *; rewrite ?Hother, ?Hsvc, ?Hne in *; try discriminate.
  all: rewrite <- ?app_assoc; rewrite drop_app_length; cbn [app take].
  all: destruct (Session.exchange_round s =? 0); reflexivity.
Qed.

(** The admin retry, when it completes a round that is not the last: the
    round counter moves on, nothing is copied to the previous-round fields
    and no slot is cleared. *)
Lemma retry_service_exchange_keeps_slots sid st s h w1 flag w2 hex w3 w4 w5 :
  multisig_sessions st !! sid = Some s ->
  Session.status s = exchanging ->
  truthy_col (Session.user_a_exchange_hexes s) = true ->
  truthy_col (Session.user_b_exchange_hexes s) = true ->
  truthy_col (Session.service_exchange_hexes s) = false ->
  Session.exchange_round s + 1 < totalRounds s ->
  cap_openWalletFull (Session.service_wallet_path s) (world st) = (Ok h, w1) ->
  cap_isMultisig h w1 = (Ok flag, w2) ->
  cap_exchangeMultisigKeys h (hexesToExchange_auto s) w2 = (Ok hex, w3) ->
  hex <> EmptyString ->
  cap_save h w3 = (Ok tt, w4) ->
  cap_close h w4 = (Ok tt, w5) ->
  exists s', multisig_sessions (retry_service_exchange sid st).2 !! sid = Some s' /\
    Session.exchange_round s' = Session.exchange_round s + 1 /\
    Session.service_exchange_hexes s' = Some hex /\
    Session.user_a_exchange_hexes s' = Session.user_a_exchange_hexes s /\
    Session.user_b_exchange_hexes s' = Session.user_b_exchange_hexes s /\
    Session.service_exchange_hexes_prev s' = Session.service_exchange_hexes_prev s /\
    Session.user_a_exchange_hexes_prev s' = Session.user_a_exchange_hexes_prev s /\
    Session.user_b_exchange_hexes_prev s' = Session.user_b_exchange_hexes_prev s.
Proof.
  intros Hs Hst Ha Hb Hsvc Hround Hopen Hmulti Hex Hhex Hsave Hclose.
  assert (Hne : negb (String.eqb hex EmptyString) = true).
  { destruct (String.eqb_spec hex EmptyString); [contradiction|reflexivity]. }
  unfold retry_service_exchange, fix_restore_height. wallet_ops.
  apply (post_route _ _ (fun _ st' =>
    exists s', multisig_sessions st' !! sid = Some s' /\ _)).
  apply post_bind, post_getSession. rewrite Hs.
  rewrite bool_decide_eq_true_2 by exact Hst. rewrite Ha, Hb, Hsvc. cbn [negb andb].
  replace (Session.exchange_round s =? totalRounds s - 1) with false
    by (symmetry; apply Z.eqb_neq; lia).
  steps.
  all: unfold allExchanged in *; cbn in *; rewrite ?Ha, ?Hb, ?Hne in *; try discriminate.
  all: try (exfalso; rewrite Z.geb_leb in *;
            match goal with E : (_ <=? _) = true |- _ => apply Z.leb_le in E end; lia).
  eexists; split; [reflexivity|]. cbn. repeat split; reflexivity.
Qed.

(** ** What the release routes do not check *)

(** [initiate-release] never writes to the store, whatever it answers. *)
Lemma initiate_release_store id uid addr st :
  same_store st (initiate_release id uid addr st).2.
Proof.
  unfold initiate_release, toAtomic_or_throw. wallet_ops.
  apply (post_route _ _ (fun _ st' => same_store st st')).
  steps.
  all: repeat (first [ apply same_store_refl | apply same_store_set_world ]).
Qed.

(** Every 400 of [initiate-release] is decided on the store alone, before
    the wallet is opened: the wallet's balance plays no part in it. *)
Lemma initiate_release_400_before_wallet id uid addr st :
  code (initiate_release id uid addr st).1 = 400 ->
  (initiate_release id uid addr st).2 = st.
Proof.
  unfold initiate_release, toAtomic_or_throw. wallet_ops.
  apply (post_route _ _ (fun r st' => code r = 400 -> st' = st)).
  steps; cbn; try discriminate; reflexivity.
Qed.

(** [finalize-release] looks at the seller and at the signed hex, not at the
    status of the trade.  Once the wallet has signed and submitted the
    transaction, the route fails where it draws the fee id with [require]:
    the answer is a 500, the trade stays [releasing] and no fee is recorded. *)
Lemma finalize_release_any_status id uid signed st t sid s h w1 final w2 hashes w3 :
  trades st !! id = Some t ->
  Trade.seller_id t = uid ->
  signed <> EmptyString ->
  Trade.multisig_session_id t = Some sid ->
  multisig_sessions st !! sid = Some s ->
  cap_openWalletFull (Session.service_wallet_path s) (world st) = (Ok h, w1) ->
  cap_signMultisigTxHex h signed w1 = (Ok final, w2) ->
  cap_submitMultisigTxHex h final w2 = (Ok hashes, w3) ->
  code (finalize_release id uid (Str signed) st).1 = 500 /\
  calls (finalize_release id uid (Str signed) st).2 =
    calls st ++
      [CallOpenWalletFull (Session.service_wallet_path s); CallSignMultisigTxHex signed;
       CallSubmitMultisigTxHex final; CallClose] /\
  platform_fees (finalize_release id uid (Str signed) st).2 = platform_fees st /\
  multisig_sessions (finalize_release id uid (Str signed) st).2 = multisig_sessions st /\
  Trade.status <$> (trades (finalize_release id uid (Str signed) st).2 !! id)
    = Some releasing.
Proof.
  intros Ht Hseller Hsigned Hsid Hs Hopen Hsign Hsubmit.
  unfold finalize_release. wallet_ops.
  apply (post_route _ _ (fun r st' =>
    code r = 500 /\ calls st' = calls st ++ _ /\ platform_fees st' = platform_fees st /\
    multisig_sessions st' = multisig_sessions st /\
    Trade.status <$> (trades st' !! id) = Some releasing)).
  apply post_bind, post_getTradeById. rewrite Ht, Hseller, String.eqb_refl. cbn [negb].
  destruct (String.eqb_spec signed EmptyString) as [|_]; [contradiction|].
  rewrite Hsid.
  steps; try congruence.
  all: rewrite <- ?app_assoc; repeat split; reflexivity.
Qed.


(** * Further routes and invariants

    ** Answers of the routes below

    The status code of an answer with the payload of a success or the
    message of an error. *)
Inductive Reply (A : Type) : Type :=
| Accepted (status : Z) (payload : A)
| Rejected (status : Z) (message : string).
Arguments Accepted {A} status payload.
Arguments Rejected {A} status message.

Definition reply_code {A} (r : Reply A) : Z :=
  match r with
  | Accepted c _ => c
  | Rejected c _ => c
  end.

(** The outer [try { ... } catch (error) { res.status(500)... }] of a route. *)
Definition reply_route {A} (m : M (Reply A)) (st : St) : Reply A * St :=
  match m st with
  | (Ok r, st') => (r, st')
  | (Throw e, st') => (Rejected 500 e, st')
  end.

Lemma post_reply_route {A} (m : M (Reply A)) st (Q : Reply A -> St -> Prop) :
  post m st (fun r st' =>
    match r with
    | Ok x => Q x st'
    | Throw e => Q (Rejected 500 e) st'
    end) ->
  Q (reply_route m st).1 (reply_route m st).2.
Proof. unfold post, reply_route. destruct (m st) as [[x|e] st']; intros HQ; exact HQ. Qed.

(** ** The session table under a request *)

(** [POST /multisig/create-session]: the session id and the service's
    prepared hex. *)
Definition create_session (userId : string) : St -> Reply (string * string) * St :=
  reply_route (
    do created <- initializeMultisigSession userId;
    ret (Accepted 200 created)).

(** The requests that write to [multisig_sessions]. *)
Inductive SessionRequest : Type :=
| ReqCreateSession (userId : string)
| ReqPrepare (sessionId userId participantId : string) (preparedHex : JsVal)
| ReqMake (sessionId participantId : string) (madeHex : JsVal)
| ReqExchange (sessionId participantId : string) (exchangeHex : JsVal)
| ReqRetryServiceExchange (sessionId : string).

(** The state after one request, its handler run from start to end. *)
Definition serve (q : SessionRequest) (st : St) : St :=
  match q with
  | ReqCreateSession userId => (create_session userId st).2
  | ReqPrepare sessionId userId participantId hex =>
      (prepare sessionId userId participantId hex st).2
  | ReqMake sessionId participantId hex => (make sessionId participantId hex st).2
  | ReqExchange sessionId participantId hex =>
      (exchange sessionId participantId hex st).2
  | ReqRetryServiceExchange sessionId => (retry_service_exchange sessionId st).2
  end.

Definition status_rank (s : SessionStatus) : Z :=
  match s with
  | preparing => 0
  | making => 1
  | exchanging => 2
  | ready => 3
  end.

(** The columns written when the session is created and never after. *)
Definition same_setup (s s' : MultisigSession) : Prop :=
  Session.id s' = Session.id s /\
  Session.user_id s' = Session.user_id s /\
  Session.threshold s' = Session.threshold s /\
  Session.total_participants s' = Session.total_participants s /\
  Session.service_wallet_path s' = Session.service_wallet_path s /\
  Session.service_address s' = Session.service_address s /\
  Session.service_prepared_hex s' = Session.service_prepared_hex s /\
  Session.creation_height s' = Session.creation_height s /\
  Session.created_at s' = Session.created_at s.

Definition session_advances (s s' : MultisigSession) : Prop :=
  status_rank (Session.status s) <= status_rank (Session.status s') /\ same_setup s s'.

Definition table_advances (st st' : St) : Prop :=
  (forall sid s, multisig_sessions st !! sid = Some s ->
     exists s', multisig_sessions st' !! sid = Some s' /\ session_advances s s') /\
  trades st' = trades st /\ platform_fees st' = platform_fees st.

Lemma session_advances_refl s : session_advances s s.
Proof. split; [lia|]. repeat split. Qed.

Lemma session_advances_trans s1 s2 s3 :
  session_advances s1 s2 -> session_advances s2 s3 -> session_advances s1 s3.
Proof.
  intros [Hr (E1&E2&E3&E4&E5&E6&E7&E8&E9)] [Hr' (F1&F2&F3&F4&F5&F6&F7&F8&F9)].
  split; [lia|]. repeat split; congruence.
Qed.

Ltac guard_facts :=
  repeat match goal with
         | G : negb (bool_decide _) = false |- _ =>
             apply negb_false_iff, bool_decide_eq_true in G
         | G : negb (bool_decide _) = true |- _ =>
             apply negb_true_iff, bool_decide_eq_false in G
         end.

(** The keys of an update that leave the setup columns alone. *)
Definition keeps_setup (u : SessionUpdate) : bool :=
  match u with
  | U_service_wallet_path _ | U_service_address _ | U_service_prepared_hex _
  | U_creation_height _ => false
  | _ => true
  end.

(** The status after an update whose keys are [ups]. *)
Fixpoint status_after (ups : list SessionUpdate) (before : SessionStatus)
    : SessionStatus :=
  match ups with
  | [] => before
  | u :: ups' => status_after ups' (match u with U_status v => v | _ => before end)
  end.

Lemma apply_session_update_setup s u :
  keeps_setup u = true -> same_setup s (apply_session_update s u).
Proof. destruct u; try discriminate; intros _; try destruct v; repeat split. Qed.

Lemma apply_session_update_status s u :
  Session.status (apply_session_update s u)
  = match u with U_status v => v | _ => Session.status s end.
Proof. destruct u; try destruct v; reflexivity. Qed.

Lemma same_setup_trans s1 s2 s3 : same_setup s1 s2 -> same_setup s2 s3 -> same_setup s1 s3.
Proof.
  intros (E1&E2&E3&E4&E5&E6&E7&E8&E9) (F1&F2&F3&F4&F5&F6&F7&F8&F9).
  repeat split; congruence.
Qed.

Lemma foldl_setup ups : forall s,
  forallb keeps_setup ups = true -> same_setup s (foldl apply_session_update s ups).
Proof.
  induction ups as [|u ups IH]; intros s Hk; [repeat split|].
  cbn in Hk. apply andb_true_iff in Hk as [Hu Hups]. cbn [foldl].
  eapply same_setup_trans; [apply apply_session_update_setup, Hu|apply IH, Hups].
Qed.

Lemma foldl_status ups : forall s,
  Session.status (foldl apply_session_update s ups) = status_after ups (Session.status s).
Proof.
  induction ups as [|u ups IH]; intros s; [reflexivity|].
  cbn [foldl status_after]. rewrite IH, apply_session_update_status. reflexivity.
Qed.

Lemma status_written s now ups :
  Session.status (Session.set_updated_at now (foldl apply_session_update s ups))
  = status_after ups (Session.status s).
Proof. rewrite <- foldl_status. reflexivity. Qed.

Lemma advances_written s x now ups :
  session_advances s x ->
  forallb keeps_setup ups = true ->
  status_rank (Session.status x) <= status_rank (status_after ups (Session.status x)) ->
  session_advances s (Session.set_updated_at now (foldl apply_session_update x ups)).
Proof.
  intros Hsx Hk Hr. eapply session_advances_trans; [exact Hsx|].
  split; [rewrite status_written; exact Hr|].
  eapply same_setup_trans; [apply foldl_setup, Hk|]. repeat split.
Qed.

Ltac rank_side :=
  rewrite ?status_written; cbn [status_after];
  repeat match goal with
         | G : Session.status _ = _ |- _ => rewrite G
         end;
  cbn [status_rank];
  first [ lia
        | match goal with
          | |- context [Session.status ?s] => destruct (Session.status s); cbn; lia
          end ].

(** What a request on the row [x] may do: the other rows, the trades and
    the fees are as they were, and the row itself advances. *)
Definition row_advances (x : string) (st st' : St) : Prop :=
  (forall other, other <> x -> multisig_sessions st' !! other = multisig_sessions st !! other) /\
  (forall s, multisig_sessions st !! x = Some s ->
     exists s', multisig_sessions st' !! x = Some s' /\ session_advances s s') /\
  trades st' = trades st /\ platform_fees st' = platform_fees st.

Lemma row_advances_refl x st : row_advances x st st.
Proof.
  split; [reflexivity|]. split; [|split; reflexivity].
  intros s Hs. exists s. split; [exact Hs|]. apply session_advances_refl.
Qed.

Lemma row_advances_same x st st' :
  multisig_sessions st' = multisig_sessions st ->
  trades st' = trades st ->
  platform_fees st' = platform_fees st ->
  row_advances x st st'.
Proof.
  intros Hs Ht Hf. split; [intros; rewrite Hs; reflexivity|].
  split; [|split; assumption].
  intros s Hsid. exists s. rewrite Hs. split; [exact Hsid|]. apply session_advances_refl.
Qed.

Lemma row_advances_table x st st' : row_advances x st st' -> table_advances st st'.
Proof.
  intros (Hother & Hrow & Ht & Hf). split; [|split; assumption].
  intros sid s Hs. destruct (decide (sid = x)) as [->|Hne].
  - apply Hrow, Hs.
  - exists s. rewrite Hother by exact Hne. split; [exact Hs|]. apply session_advances_refl.
Qed.

(** A leaf of a route that wrote, if at all, to the row [x] only. *)
Ltac advance_leaf x :=
  unfold row_advances; st_simpl;
  split; [intros ? ?; repeat rewrite lookup_insert_ne by congruence; reflexivity|];
  split; [|split; reflexivity];
  let s0 := fresh "s0" in
  let H0 := fresh "H0" in
  intros s0 H0;
  rewrite ?lookup_insert_eq;
  match goal with
  | E : multisig_sessions _ !! x = _ |- _ =>
      tryif constr_eq E H0 then fail else rewrite E in H0
  end;
  first [ discriminate H0
        | injection H0 as <-;
          eexists; split; [first [reflexivity | eassumption]|];
          guard_facts;
          repeat (apply advances_written; [|reflexivity|rank_side]);
          apply session_advances_refl ].

Ltac advance_done x :=
  first [ apply row_advances_refl
        | solve [apply row_advances_same; reflexivity]
        | advance_leaf x ].

Lemma prepare_advances sid uid pid hex st :
  row_advances sid st (prepare sid uid pid hex st).2.
Proof. rewrite prepare_state. apply row_advances_refl. Qed.

Lemma make_advances sid pid hex st :
  row_advances sid st (make sid pid hex st).2.
Proof.
  unfold make, make_service, make_auto. wallet_ops.
  apply (post_route _ _ (fun _ st' => row_advances sid st st')).
  destruct (multisig_sessions st !! sid) as [s|] eqn:Hs.
  2:{ apply post_bind, post_getSession. rewrite Hs. apply post_ret, row_advances_refl. }
  steps.
  all: advance_done sid.
Qed.

Lemma exchange_advances sid pid hex st :
  row_advances sid st (exchange sid pid hex st).2.
Proof.
  unfold exchange, exchange_submit, exchange_service, exchange_auto, exchange_complete,
    fix_restore_height.
  wallet_ops.
  apply (post_route _ _ (fun _ st' => row_advances sid st st')).
  destruct (multisig_sessions st !! sid) as [s|] eqn:Hs.
  2:{ apply post_bind, post_getSession. rewrite Hs. apply post_ret, row_advances_refl. }
  steps.
  all: advance_done sid.
Qed.

Lemma retry_service_exchange_advances sid st :
  row_advances sid st (retry_service_exchange sid st).2.
Proof.
  unfold retry_service_exchange, fix_restore_height. wallet_ops.
  apply (post_route _ _ (fun _ st' => row_advances sid st st')).
  destruct (multisig_sessions st !! sid) as [s|] eqn:Hs.
  2:{ apply post_bind, post_getSession. rewrite Hs. apply post_ret, row_advances_refl. }
  steps.
  all: advance_done sid.
Qed.

(** A created session takes a row that was free. *)
Definition row_created (st st' : St) : Prop :=
  multisig_sessions st' = multisig_sessions st \/
  exists x s', multisig_sessions st !! x = None /\
    multisig_sessions st' = <[x := s']> (multisig_sessions st) /\
    Session.status s' = preparing /\ Session.exchange_round s' = 0 /\
    Session.threshold s' = 2 /\ Session.total_participants s' = 3 /\
    Session.service_exchange_hexes s' = None /\ Session.multisig_address s' = None.

Lemma create_session_created uid st :
  row_created st (create_session uid st).2 /\
  trades (create_session uid st).2 = trades st /\
  platform_fees (create_session uid st).2 = platform_fees st.
Proof.
  unfold create_session, initializeMultisigSession. wallet_ops.
  apply (post_reply_route _ _ (fun _ st' =>
    row_created st st' /\ trades st' = trades st /\ platform_fees st' = platform_fees st)).
  steps.
  all: split; [|split; reflexivity].
  all: first [ left; reflexivity
             | right; do 2 eexists; split; [eassumption|];
               split; [apply insert_insert_eq|]; repeat split; reflexivity ].
Qed.

Lemma table_advances_same st st' :
  multisig_sessions st' = multisig_sessions st ->
  trades st' = trades st ->
  platform_fees st' = platform_fees st ->
  table_advances st st'.
Proof.
  intros Hs Ht Hf. split; [|split; assumption].
  intros sid s Hsid. exists s. rewrite Hs. split; [exact Hsid|].
  apply session_advances_refl.
Qed.

Lemma row_created_table st st' :
  row_created st st' -> trades st' = trades st -> platform_fees st' = platform_fees st ->
  table_advances st st'.
Proof.
  intros [Hsame|(x & s' & Hfree & Hins & _)] Ht Hf.
  - apply table_advances_same; assumption.
  - split; [|split; assumption]. intros sid s Hs. exists s. rewrite Hins.
    rewrite lookup_insert_ne by congruence. split; [exact Hs|]. apply session_advances_refl.
Qed.

Lemma serve_advances q st : table_advances st (serve q st).
Proof.
  destruct q; cbn [serve].
  - destruct (create_session_created userId st) as (Hc & Ht & Hf).
    apply row_created_table; assumption.
  - eapply row_advances_table, prepare_advances.
  - eapply row_advances_table, make_advances.
  - eapply row_advances_table, exchange_advances.
  - eapply row_advances_table, retry_service_exchange_advances.
Qed.

(** Whatever request is served, and whatever the wallet answers, a session
    that exists stays in the table, its status does not move backwards in
    the order preparing, making, exchanging, ready, and its threshold,
    participant count, owner, wallet path, service address, service prepared
    hex, creation height and creation time stay as they were created.  The
    session requests write neither trades nor fees. *)
Theorem sessions_only_advance q st sid s :
  multisig_sessions st !! sid = Some s ->
  (exists s', multisig_sessions (serve q st) !! sid = Some s' /\
     status_rank (Session.status s) <= status_rank (Session.status s') /\
     same_setup s s') /\
  trades (serve q st) = trades st /\
  platform_fees (serve q st) = platform_fees st.
Proof.
  intros Hs. destruct (serve_advances q st) as (Hrows & Ht & Hf).
  split; [|split; assumption].
  destruct (Hrows _ _ Hs) as (s' & Hs' & Hrank & Hsetup). exists s'. auto.
Qed.

(** ** Requests out of phase *)

(** A request that arrives in another phase than its own is answered 400
    and changes nothing: no row is written and the wallet is not called.  In
    particular a ready session is closed to all four routes. *)
Theorem out_of_phase_changes_nothing sid st s :
  multisig_sessions st !! sid = Some s ->
  (Session.status s <> preparing -> forall uid pid hex,
     code (prepare sid uid pid hex st).1 = 400 /\ (prepare sid uid pid hex st).2 = st) /\
  (Session.status s <> making -> forall pid hex,
     code (make sid pid hex st).1 = 400 /\ (make sid pid hex st).2 = st) /\
  (Session.status s <> exchanging -> forall pid hex,
     code (exchange sid pid hex st).1 = 400 /\ (exchange sid pid hex st).2 = st) /\
  (Session.status s <> exchanging ->
     code (retry_service_exchange sid st).1 = 400 /\ (retry_service_exchange sid st).2 = st).
Proof.
  intros Hs. repeat split.
  all: unfold prepare, make, exchange, retry_service_exchange, route, bind, getSession.
  all: rewrite Hs; rewrite bool_decide_eq_false_2 by assumption; reflexivity.
Qed.

(** ** Completing a round that is not the last *)

(** When a submission to [/exchange] leaves all three slots of the round
    filled and the next round index is below [totalRounds], the three values
    are copied to the previous-round columns, the three slots are cleared, the
    round counter is incremented and the session stays in [exchanging]. *)
Theorem exchange_copies_and_clears sid pid hex st s x st1 fs :
  multisig_sessions st !! sid = Some s ->
  Session.status s = exchanging ->
  exchange_submit sid pid hex s st = (Ok (inr x), st1) ->
  multisig_sessions st1 !! sid = Some fs ->
  allExchanged fs = true ->
  Session.exchange_round fs + 1 < totalRounds s ->
  exists s', multisig_sessions (exchange sid pid hex st).2 !! sid = Some s' /\
    Session.status s' = exchanging /\
    Session.exchange_round s' = Session.exchange_round fs + 1 /\
    Session.service_exchange_hexes_prev s' = Session.service_exchange_hexes fs /\
    Session.user_a_exchange_hexes_prev s' = Session.user_a_exchange_hexes fs /\
    Session.user_b_exchange_hexes_prev s' = Session.user_b_exchange_hexes fs /\
    Session.service_exchange_hexes s' = None /\
    Session.user_a_exchange_hexes s' = None /\
    Session.user_b_exchange_hexes s' = None.
Proof.
  intros Hs Hst Hsub Hfs Hall Hlt.
  rewrite (exchange_unfold _ _ _ _ _ _ _ Hs Hst Hsub).
  pose proof (post_elim _ _ _ _ _ (exchange_submit_post sid pid hex s st Hs) Hsub)
    as (fs' & Hfs' & (Hstat & _)).
  rewrite Hfs in Hfs'. injection Hfs' as <-.
  apply (post_route (exchange_complete sid pid (totalRounds s) x) st1
           (fun _ st' => exists s', multisig_sessions st' !! sid = Some s' /\ _)).
  eapply post_mono; [apply (exchange_complete_post _ _ _ _ _ _ Hfs)|].
  intros r st' (s' & Hs' & _ & _ & _ & _ & Hnext).
  destruct (Hnext Hall Hlt) as (E1 & E2 & E3 & E4 & E5 & E6 & E7 & E8).
  assert (Hgoal : exists s'0, multisig_sessions st' !! sid = Some s'0 /\
    Session.status s'0 = exchanging /\
    Session.exchange_round s'0 = Session.exchange_round fs + 1 /\
    Session.service_exchange_hexes_prev s'0 = Session.service_exchange_hexes fs /\
    Session.user_a_exchange_hexes_prev s'0 = Session.user_a_exchange_hexes fs /\
    Session.user_b_exchange_hexes_prev s'0 = Session.user_b_exchange_hexes fs /\
    Session.service_exchange_hexes s'0 = None /\
    Session.user_a_exchange_hexes s'0 = None /\
    Session.user_b_exchange_hexes s'0 = None).
  { exists s'. split; [exact Hs'|]. split; [congruence|]. auto 10. }
  destruct r; exact Hgoal.
Qed.

(** ** A failed automatic exchange *)

(** When the submission of a user completes the two user slots and the
    wallet then fails in [exchangeMultisigKeys], the failure is swallowed: the
    answer is 200, the user's value is stored, the service slot stays empty,
    round and status are unchanged, and the wallet that was opened is not
    closed. *)
Theorem exchange_auto_failure_is_swallowed sid pid hex st s h w1 e w2 :
  multisig_sessions st !! sid = Some s ->
  Session.status s = exchanging ->
  (pid = "user_a" /\ truthy_col (Session.user_b_exchange_hexes s) = true) \/
  (pid = "user_b" /\ truthy_col (Session.user_a_exchange_hexes s) = true) ->
  hex <> EmptyString ->
  truthy_col (Session.service_exchange_hexes s) = false ->
  cap_openWalletFull (Session.service_wallet_path s) (world st) = (Ok h, w1) ->
  cap_exchangeMultisigKeys h
    (if Session.exchange_round s =? 0 then
       [Session.user_a_made_hex s; Session.user_b_made_hex s]
     else if String.eqb pid "user_a" then [Some hex; Session.user_b_exchange_hexes s]
     else [Session.user_a_exchange_hexes s; Some hex]) w1 = (Throw e, w2) ->
  code (exchange sid pid (Str hex) st).1 = 200 /\
  drop (length (calls st)) (calls (exchange sid pid (Str hex) st).2) =
    [CallOpenWalletFull (Session.service_wallet_path s);
     CallExchangeMultisigKeys
       (if Session.exchange_round s =? 0 then
          [Session.user_a_made_hex s; Session.user_b_made_hex s]
        else if String.eqb pid "user_a" then [Some hex; Session.user_b_exchange_hexes s]
        else [Session.user_a_exchange_hexes s; Some hex])] /\
  exists s', multisig_sessions (exchange sid pid (Str hex) st).2 !! sid = Some s' /\
    Session.status s' = exchanging /\
    Session.exchange_round s' = Session.exchange_round s /\
    Session.service_exchange_hexes s' = Session.service_exchange_hexes s /\
    (if String.eqb pid "user_a" then Session.user_a_exchange_hexes s'
     else Session.user_b_exchange_hexes s') = Some hex.
Proof.
  intros Hs Hst Hpid Hhex Hsvc Hopen Hfail.
  assert (Hne : negb (String.eqb hex EmptyString) = true).
  { destruct (String.eqb_spec hex EmptyString); [contradiction|reflexivity]. }
  unfold exchange, exchange_submit, exchange_auto, exchange_complete,
    fix_restore_height, hexesToExchange_auto.
  wallet_ops.
  apply (post_route _ _ (fun r st' =>
    code r = 200 /\ drop (length (calls st)) (calls st') = _ /\
    exists s', multisig_sessions st' !! sid = Some s' /\ _)).
  apply post_bind, post_getSession. rewrite Hs.
  rewrite bool_decide_eq_true_2 by exact Hst. cbn [negb].
  destruct Hpid as [[-> Hother] | [-> Hother]];
    cbn [String.eqb Ascii.eqb Bool.eqb orb truthy negb]; rewrite Hne; cbn [negb].
  all: destruct (Session.exchange_round s =? 0) eqn:Hround.
  all: unfold allExchanged.
  all: repeat (step; rew_lookups; cbv beta iota zeta;
               cbn [Session.exchange_round Session.user_a_exchange_hexes
                    Session.user_b_exchange_hexes Session.service_exchange_hexes
                    Session.user_a_made_hex Session.user_b_made_hex
                    Session.service_wallet_path
                    Session.set_updated_at Session.set_user_a_exchange_hexes
                    Session.set_user_b_exchange_hexes foldl apply_session_update
                    set_text to_col];
               rewrite ?Hround, ?Hother, ?Hsvc; cbn [truthy_col andb negb];
               rewrite ?Hne; cbn [andb negb]).
  all: try congruence.
  all: split; [reflexivity|].
  all: split; [rewrite <- ?app_assoc; rewrite drop_app_length; reflexivity|].
  all: eexists; split; [reflexivity|]; cbn; rewrite ?Hst; repeat split; reflexivity.
Qed.

(** ** Creating a session *)

(** When create-session answers with a session id and a prepared hex, the
    id was free before, and the new row is in [preparing], 2-of-3, owned by the
    requesting user, with the service's prepared hex, the wallet path derived
    from the id, and a creation height that is ten blocks below the daemon's
    height, never negative, and 0 when the daemon could not be asked. *)
Theorem create_session_row uid st sid hex :
  (create_session uid st).1 = Accepted 200 (sid, hex) ->
  multisig_sessions st !! sid = None /\
  exists s, multisig_sessions (create_session uid st).2 !! sid = Some s /\
    Session.id s = sid /\ Session.user_id s = uid /\
    Session.status s = preparing /\
    Session.threshold s = 2 /\ Session.total_participants s = 3 /\
    Session.service_prepared_hex s = Some hex /\
    Session.service_wallet_path s = Some ("../../wallets/service_" +:+ sid) /\
    exists w, cap_randomBytes (world st) = (sid, w) /\
      Session.creation_height s =
        Some match (cap_daemonGetHeight w).1 with
             | Ok height => Z.max 0 (height - 10)
             | Throw _ => 0
             end.
Proof.
  unfold create_session, initializeMultisigSession. wallet_ops.
  apply (post_reply_route _ _ (fun r st' =>
    r = Accepted 200 (sid, hex) ->
    multisig_sessions st !! sid = None /\
    exists s, multisig_sessions st' !! sid = Some s /\ _)).
  steps; try discriminate.
  all: intros [= <- <-].
  all: split; [assumption|].
  all: rewrite lookup_insert_eq.
  all: eexists; split; [reflexivity|].
  all: repeat (split; [reflexivity|]).
  all: eexists; split; [eassumption|].
  all: match goal with E : cap_daemonGetHeight _ = _ |- _ => rewrite E end; reflexivity.
Qed.

(** ** Release: what is written and when *)

(** The admin release of an escrow whose unlocked balance is below the
    trade amount: the wallet is opened, synchronised, asked for its unlocked
    balance and closed; the answer is 400 and nothing is written. *)
Theorem release_escrow_refuses_underfunded id recipient address st t sid s h w1 w2 u w3 need w4 :
  recipient = "buyer" \/ recipient = "seller" ->
  address <> EmptyString ->
  trades st !! id = Some t ->
  Trade.status t = payment_confirmed \/ Trade.status t = disputed ->
  Trade.multisig_session_id t = Some sid ->
  sid <> EmptyString ->
  multisig_sessions st !! sid = Some s ->
  Session.status s = ready ->
  cap_openWalletFull (Session.service_wallet_path s) (world st) = (Ok h, w1) ->
  cap_sync h w1 = (Ok tt, w2) ->
  cap_getUnlockedBalance h w2 = (Ok u, w3) ->
  toAtomic (Trade.xmr_amount t) = Some need ->
  u < need ->
  cap_close h w3 = (Ok tt, w4) ->
  (release_escrow id recipient (Str address) st).1
    = error 400 "Insufficient balance in escrow" /\
  calls (release_escrow id recipient (Str address) st).2 =
    calls st ++ [CallOpenWalletFull (Session.service_wallet_path s); CallSync;
                 CallGetUnlockedBalance; CallClose] /\
  same_store st (release_escrow id recipient (Str address) st).2.
Proof.
  intros Hrec Haddr Ht Hstatus Hsid Hsidne Hs Hready Hopen Hsync Hunl Hneed Hlt Hclose.
  unfold release_escrow, toAtomic_or_throw. wallet_ops.
  apply (post_route _ _ (fun r st' =>
    r = error 400 "Insufficient balance in escrow" /\ calls st' = _ /\ same_store st st')).
  assert (Hrecb : negb (String.eqb recipient "buyer" || String.eqb recipient "seller") = false)
    by (destruct Hrec as [-> | ->]; reflexivity).
  rewrite Hrecb.
  destruct (String.eqb_spec address EmptyString) as [|_]; [contradiction|].
  apply post_bind, post_getTradeById. rewrite Ht.
  assert (Hguard : negb (bool_decide (Trade.status t = payment_confirmed))
                   && negb (bool_decide (Trade.status t = disputed)) = false)
    by (destruct Hstatus as [-> | ->]; reflexivity).
  rewrite Hguard, Hsid. cbn [truthy_col negb from_option].
  destruct (String.eqb_spec sid EmptyString) as [|_]; [contradiction|].
  cbn [negb]. unfold Datatypes.id.
  apply post_bind, post_getSession. rewrite Hs.
  rewrite bool_decide_eq_true_2 by exact Hready. cbn [negb]. rewrite Hneed.
  assert (Hltb : (u <? need) = true) by (apply Z.ltb_lt; exact Hlt).
  steps; try congruence.
  split; [reflexivity|]. split; [rewrite <- !app_assoc; reflexivity|].
  repeat (first [ apply same_store_refl | apply same_store_set_world ]).
Qed.

(** The admin release never answers 200 and never writes: where it has
    created, exported and signed the transaction and closed the wallet, it
    fails on [require] before the fee is recorded and the trade completed.
    With enough unlocked in the wallet and every call answered, the answer is
    a 500 after exactly these calls; nothing is submitted to the network. *)
Theorem release_escrow_never_completes :
  (forall id recipient address st,
      code (release_escrow id recipient address st).1 <> 200 /\
      same_store st (release_escrow id recipient address st).2) /\
  (forall id recipient address st t sid s h w1 w2 u w3 need atomic w4 hex w5 signed w6,
      recipient = "buyer" \/ recipient = "seller" ->
      address <> EmptyString ->
      trades st !! id = Some t ->
      Trade.status t = payment_confirmed \/ Trade.status t = disputed ->
      Trade.multisig_session_id t = Some sid ->
      sid <> EmptyString ->
      multisig_sessions st !! sid = Some s ->
      Session.status s = ready ->
      cap_openWalletFull (Session.service_wallet_path s) (world st) = (Ok h, w1) ->
      cap_sync h w1 = (Ok tt, w2) ->
      cap_getUnlockedBalance h w2 = (Ok u, w3) ->
      toAtomic (Trade.xmr_amount t) = Some need ->
      need <= u ->
      toAtomic (amountAfterFee t) = Some atomic ->
      cap_createTx h address atomic w3 = (Ok tt, w4) ->
      cap_exportMultisigHex h w4 = (Ok hex, w5) ->
      cap_signMultisigTxHex h hex w5 = (Ok signed, w6) ->
      code (release_escrow id recipient (Str address) st).1 = 500 /\
      calls (release_escrow id recipient (Str address) st).2 =
        calls st ++ [CallOpenWalletFull (Session.service_wallet_path s); CallSync;
                     CallGetUnlockedBalance; CallCreateTx address atomic;
                     CallExportMultisigHex; CallSignMultisigTxHex hex; CallClose] /\
      trades (release_escrow id recipient (Str address) st).2 !! id = Some t /\
      platform_fees (release_escrow id recipient (Str address) st).2 = platform_fees st).
Proof.
  split.
  - intros id recipient address st.
    unfold release_escrow, toAtomic_or_throw. wallet_ops.
    apply (post_route _ _ (fun r st' => code r <> 200 /\ same_store st st')).
    steps.
    all: split; [cbn; discriminate|].
    all: repeat (first [ apply same_store_refl | apply same_store_set_world ]).
  - intros id recipient address st t sid s h w1 w2 u w3 need atomic w4 hex w5 signed w6
      Hrec Haddr Ht Hstatus Hsid Hsidne Hs Hready Hopen Hsync Hunl Hneed Hle Hatomic
      Hcreate Hexport Hsign.
    unfold release_escrow, toAtomic_or_throw. wallet_ops.
    apply (post_route _ _ (fun r st' =>
      code r = 500 /\ calls st' = _ /\ trades st' !! id = Some t /\
      platform_fees st' = platform_fees st)).
    assert (Hrecb : negb (String.eqb recipient "buyer" || String.eqb recipient "seller") = false)
      by (destruct Hrec as [-> | ->]; reflexivity).
    rewrite Hrecb.
    destruct (String.eqb_spec address EmptyString) as [|_]; [contradiction|].
    apply post_bind, post_getTradeById. rewrite Ht.
    assert (Hguard : negb (bool_decide (Trade.status t = payment_confirmed))
                     && negb (bool_decide (Trade.status t = disputed)) = false)
      by (destruct Hstatus as [-> | ->]; reflexivity).
    rewrite Hguard, Hsid. cbn [truthy_col negb from_option].
    destruct (String.eqb_spec sid EmptyString) as [|_]; [contradiction|].
    cbn [negb]. unfold Datatypes.id.
    apply post_bind, post_getSession. rewrite Hs.
    rewrite bool_decide_eq_true_2 by exact Hready. cbn [negb]. rewrite Hneed, Hatomic.
    assert (Hltb : (u <? need) = false) by (apply Z.ltb_ge; exact Hle).
    steps; try congruence.
    all: split; [reflexivity|]; split; [rewrite <- !app_assoc; reflexivity|];
         split; reflexivity.
Qed.

(** Both steps of the release are the seller's: for any other user they
    answer 403 and leave the state as it was, before the address or the signed
    hex is looked at and before the wallet is opened. *)
Theorem release_requires_seller id uid st t :
  trades st !! id = Some t ->
  Trade.seller_id t <> uid ->
  (forall address,
     initiate_release id uid address st
       = (error 403 "Only the seller can initiate escrow release", st)) /\
  (forall signed,
     finalize_release id uid signed st
       = (error 403 "Only the seller can finalize release", st)).
Proof.
  intros Ht Hseller.
  assert (Hne : String.eqb (Trade.seller_id t) uid = false)
    by (apply String.eqb_neq; exact Hseller).
  split; intros x.
  - unfold initiate_release, route, bind, getTradeById. rewrite Ht, Hne. reflexivity.
  - unfold finalize_release, route, bind, getTradeById. rewrite Ht, Hne. reflexivity.
Qed.

(** A [finalize-release] that ends in a 500 has marked the trade
    [releasing] and left it so; no fee has been recorded. *)
Theorem finalize_release_failure_leaves_releasing id uid signed st :
  code (finalize_release id uid signed st).1 = 500 ->
  exists t', trades (finalize_release id uid signed st).2 !! id = Some t' /\
    Trade.status t' = releasing /\
    platform_fees (finalize_release id uid signed st).2 = platform_fees st.
Proof.
  unfold finalize_release. wallet_ops.
  apply (post_route _ _ (fun r st' =>
    code r = 500 -> exists t', trades st' !! id = Some t' /\ _ /\ platform_fees st' = _)).
  steps; try discriminate.
  all: intros _; rewrite ?lookup_insert_eq.
  all: eexists; split; [reflexivity|]; split; reflexivity.
Qed.

(** ** Deposit checks: the wallet is closed, bad amounts are harmless *)

(** Once the wallet of a ready session has been opened, a deposit check
    does not return before it has called [close]: on the normal path and on
    every failure, the last call made is [close]. *)
Theorem performWalletCheck_closes_wallet sid x st s h w1 :
  multisig_sessions st !! sid = Some s ->
  Session.status s = ready ->
  cap_openWalletFull (Session.service_wallet_path s) (world st) = (Ok h, w1) ->
  last (calls (performWalletCheck sid x st).2) = Some CallClose.
Proof.
  intros Hs Hready Hopen.
  change (post (performWalletCheck sid x) st (fun _ st' => last (calls st') = Some CallClose)).
  unfold performWalletCheck, wallet_round_trip, toAtomic_or_throw. wallet_ops.
  apply post_bind, post_getSession. rewrite Hs.
  rewrite bool_decide_eq_true_2 by exact Hready. cbn [negb].
  steps.
  all: apply last_snoc.
Qed.

(** An expected amount that has no atomic value (not a number, or
    infinite) makes the check report no deposit; it does not throw. *)
Theorem performWalletCheck_unconvertible_amount sid x st :
  toAtomic x = None ->
  (performWalletCheck sid x st).1 = Ok no_deposit.
Proof.
  intros Hx.
  change (post (performWalletCheck sid x) st (fun r _ => r = Ok no_deposit)).
  unfold performWalletCheck, wallet_round_trip, toAtomic_or_throw. wallet_ops.
  rewrite Hx.
  steps.
  all: reflexivity.
Qed.

(** ** Trade routes (routes/trades.ts, routes/admin.ts)

    The console notifications and the reputation counters of the users
    table, which follow the writes below, touch neither trades nor sessions
    nor fees and are left out. *)

(** [POST /trades/:id/mark-payment-sent] *)
Definition mark_payment_sent (id userId : string) : St -> Reply (option Trade) * St :=
  reply_route (
    do trade <- getTradeById id;
    match trade with
    | None => ret (Rejected 404 "Trade not found")
    | Some trade =>
      (* Only buyer can mark payment as sent *)
      if negb (String.eqb (Trade.buyer_id trade) userId) then
        ret (Rejected 403 "Only the buyer can mark payment as sent")
      else if negb (bool_decide (Trade.status trade = funded)) then
        ret (Rejected 400 ("Trade must be in 'funded' status. Current status: "
                             +:+ trade_status_string (Trade.status trade)))
      else
        run updateTrade id [TU_status payment_sent];
        do updated <- getTradeById id;
        ret (Accepted 200 updated)
    end).

(** [validStatuses.includes(status)], with the status it names. *)
Definition parse_trade_status (s : string) : option TradeStatus :=
  if String.eqb s "pending" then Some pending
  else if String.eqb s "funded" then Some funded
  else if String.eqb s "payment_sent" then Some payment_sent
  else if String.eqb s "payment_confirmed" then Some payment_confirmed
  else if String.eqb s "releasing" then Some releasing
  else if String.eqb s "completed" then Some completed
  else if String.eqb s "disputed" then Some disputed
  else if String.eqb s "cancelled" then Some cancelled
  else None.

(** [PUT /admin/trades/:id] (after the admin check of the middleware). *)
Definition admin_update_trade (id : string) (status : JsVal)
    : St -> Reply (option Trade) * St :=
  reply_route (
    match status with
    | Str name =>
      match parse_trade_status name with
      | None =>
        ret (Rejected 400
               "Invalid status. Must be one of: pending, funded, payment_sent, payment_confirmed, releasing, completed, disputed, cancelled")
      | Some status =>
        do trade <- getTradeById id;
        match trade with
        | None => ret (Rejected 404 "Trade not found")
        | Some trade =>
          run updateTrade id [TU_status status];
          do updatedTrade <- getTradeById id;
          ret (Accepted 200 updatedTrade)
        end
      end
    | _ =>
      ret (Rejected 400
             "Invalid status. Must be one of: pending, funded, payment_sent, payment_confirmed, releasing, completed, disputed, cancelled")
    end).

(** [POST /trades/:id/check-deposit]: the result of the check with the
    status of the trade read after it. *)
Definition check_deposit (id userId : string)
    : St -> Reply (TradeDepositResult * option TradeStatus) * St :=
  reply_route (
    do trade <- getTradeById id;
    match trade with
    | None => ret (Rejected 404 "Trade not found")
    | Some trade =>
      (* Check if user is a participant *)
      if negb (String.eqb (Trade.buyer_id trade) userId)
         && negb (String.eqb (Trade.seller_id trade) userId) then
        ret (Rejected 403 "You are not authorized to check this trade")
      else
        do result <- (fun st => let (r, st') := checkTradeDeposit id st in (Ok r, st'));
        do current <- getTradeById id;
        ret (Accepted 200 (result, Trade.status <$> current))
    end).

(** [GET /multisig/:sessionId/balance]: balance, unlocked balance and the
    address of the session. *)
Definition get_balance (sessionId : string) : St -> Reply (Z * Z * option string) * St :=
  reply_route (
    do session <- getSession sessionId;
    match session with
    | None => ret (Rejected 404 "Session not found")
    | Some session =>
      if negb (bool_decide (Session.status session = ready)) then
        ret (Rejected 400 "Multisig session must be ready to check balance")
      else
        (* Open and sync the service wallet *)
        do serviceWallet <- openWalletFull (Session.service_wallet_path session);
        run sync serviceWallet;
        do balance <- getBalance serviceWallet;
        do unlockedBalance <- getUnlockedBalance serviceWallet;
        run close serviceWallet;
        ret (Accepted 200 (balance, unlockedBalance, Session.multisig_address session))
    end).

Lemma parse_trade_status_string v : parse_trade_status (trade_status_string v) = Some v.
Proof. destruct v; reflexivity. Qed.

(** The columns of a trade that only its creation writes. *)
Definition same_deal (t t' : Trade) : Prop :=
  Trade.id t' = Trade.id t /\ Trade.offer_id t' = Trade.offer_id t /\
  Trade.buyer_id t' = Trade.buyer_id t /\ Trade.seller_id t' = Trade.seller_id t /\
  Trade.amount t' = Trade.amount t /\ Trade.xmr_amount t' = Trade.xmr_amount t /\
  Trade.multisig_session_id t' = Trade.multisig_session_id t /\
  Trade.created_at t' = Trade.created_at t.

(** Marking the payment as sent succeeds exactly for the buyer of a funded
    trade, and then turns the trade [payment_sent] and nothing else; in every
    other case the answer is an error and nothing is written.  No case calls
    the wallet or touches another trade, a session or a fee. *)
Theorem mark_payment_sent_buyer_of_funded id uid st :
  (reply_code (mark_payment_sent id uid st).1 = 200 <->
     exists t, trades st !! id = Some t /\ Trade.buyer_id t = uid /\
               Trade.status t = funded) /\
  (forall t, trades st !! id = Some t ->
     reply_code (mark_payment_sent id uid st).1 = 200 ->
     exists t', trades (mark_payment_sent id uid st).2 !! id = Some t' /\
       Trade.status t' = payment_sent /\ same_deal t t') /\
  (reply_code (mark_payment_sent id uid st).1 <> 200 ->
     (mark_payment_sent id uid st).2 = st) /\
  (forall other, other <> id ->
     trades (mark_payment_sent id uid st).2 !! other = trades st !! other) /\
  multisig_sessions (mark_payment_sent id uid st).2 = multisig_sessions st /\
  platform_fees (mark_payment_sent id uid st).2 = platform_fees st /\
  calls (mark_payment_sent id uid st).2 = calls st.
Proof.
  unfold mark_payment_sent, reply_route, bind, getTradeById, updateTrade, ret.
  destruct (trades st !! id) as [t|] eqn:Ht; cbn.
  2:{ repeat split; try discriminate; try reflexivity.
      intros (t & [=] & _). }
  destruct (String.eqb_spec (Trade.buyer_id t) uid) as [Hb|Hb]; cbn.
  2:{ repeat split; try discriminate; try reflexivity.
      intros (t' & [= <-] & Hb' & _). contradiction. }
  destruct (decide (Trade.status t = funded)) as [Hf|Hf].
  - rewrite bool_decide_eq_true_2 by exact Hf. cbn. rewrite Ht. cbn.
    rewrite lookup_insert_eq. cbn.
    split; [split; [intros _; exists t; auto|reflexivity]|].
    split; [intros t0 [= <-] _; eexists; split; [reflexivity|]; repeat split|].
    split; [intros Hne; contradiction|].
    split; [intros other Hne; rewrite lookup_insert_ne by congruence; reflexivity|].
    repeat split.
  - rewrite bool_decide_eq_false_2 by exact Hf. cbn.
    repeat split; try discriminate; try reflexivity.
    intros (t' & [= <-] & _ & Hf'). contradiction.
Qed.

(** The admin update writes whatever valid status it is given, whatever the
    status of the trade was: there is no check of the transition.  Nothing
    else is written and the wallet is not called. *)
Theorem admin_update_trade_any_transition id v st t :
  trades st !! id = Some t ->
  reply_code (admin_update_trade id (Str (trade_status_string v)) st).1 = 200 /\
  (exists t', trades (admin_update_trade id (Str (trade_status_string v)) st).2 !! id
                = Some t' /\
     Trade.status t' = v /\ same_deal t t') /\
  (forall other, other <> id ->
     trades (admin_update_trade id (Str (trade_status_string v)) st).2 !! other
       = trades st !! other) /\
  multisig_sessions (admin_update_trade id (Str (trade_status_string v)) st).2
    = multisig_sessions st /\
  platform_fees (admin_update_trade id (Str (trade_status_string v)) st).2
    = platform_fees st /\
  calls (admin_update_trade id (Str (trade_status_string v)) st).2 = calls st.
Proof.
  intros Ht.
  unfold admin_update_trade, reply_route, bind, getTradeById, updateTrade, ret.
  rewrite parse_trade_status_string. cbn. rewrite Ht. cbn. rewrite Ht. cbn.
  rewrite lookup_insert_eq. cbn.
  split; [reflexivity|].
  split; [eexists; split; [reflexivity|]; repeat split|].
  split; [intros other Hne; rewrite lookup_insert_ne by congruence; reflexivity|].
  repeat split.
Qed.

(** What the manual check of an existing trade does to the store. *)
Lemma checkTradeDeposit_effect tid st t :
  trades st !! tid = Some t ->
  multisig_sessions (checkTradeDeposit tid st).2 = multisig_sessions st /\
  platform_fees (checkTradeDeposit tid st).2 = platform_fees st /\
  (forall other, other <> tid ->
     trades (checkTradeDeposit tid st).2 !! other = trades st !! other) /\
  exists t', trades (checkTradeDeposit tid st).2 !! tid = Some t' /\
    same_deal t t' /\
    Trade.status t' =
      (if td_isUnlocked (checkTradeDeposit tid st).1
          && bool_decide (Trade.status t = pending)
       then funded else Trade.status t).
Proof.
  intros Ht. rewrite (checkTradeDeposit_unfold _ _ _ Ht).
  destruct (Trade.multisig_session_id t) as [sid|].
  2:{ cbn. repeat split. exists t. split; [exact Ht|]. repeat split. }
  destruct (String.eqb sid EmptyString).
  { cbn. repeat split. exists t. split; [exact Ht|]. repeat split. }
  pose proof (performWalletCheck_store sid (Trade.xmr_amount t) st) as Hp.
  unfold post in Hp.
  destruct (performWalletCheck sid (Trade.xmr_amount t) st) as [r st1].
  cbn in Hp. destruct Hp as ([v ->] & (Hse & Htr & Hfe) & _).
  cbn [fst snd td_isUnlocked].
  destruct (isUnlocked v && bool_decide (Trade.status t = pending)) eqn:Hcond.
  - unfold updateTrade. cbn. rewrite Htr, Ht. cbn.
    split; [exact Hse|]. split; [exact Hfe|].
    split; [intros other Hne; rewrite lookup_insert_ne by congruence; reflexivity|].
    rewrite lookup_insert_eq. eexists; split; [reflexivity|]. repeat split.
  - cbn. split; [exact Hse|]. split; [exact Hfe|]. rewrite Htr.
    split; [reflexivity|]. exists t. split; [exact Ht|]. repeat split.
Qed.

(** The check-deposit route serves the buyer and the seller of the trade
    and nobody else; an error answer writes nothing.  The status it reports is
    the one stored after the check: [funded] if the check found the amount
    unlocked and the trade was [pending], the status of the trade otherwise.
    Sessions and fees are never written. *)
Theorem check_deposit_participants_only id uid st :
  (reply_code (check_deposit id uid st).1 = 200 <->
     exists t, trades st !! id = Some t /\
               (Trade.buyer_id t = uid \/ Trade.seller_id t = uid)) /\
  (reply_code (check_deposit id uid st).1 <> 200 -> (check_deposit id uid st).2 = st) /\
  (forall res cur, (check_deposit id uid st).1 = Accepted 200 (res, cur) ->
     exists t, trades st !! id = Some t /\
       cur = Trade.status <$> (trades (check_deposit id uid st).2 !! id) /\
       cur = Some (if td_isUnlocked res && bool_decide (Trade.status t = pending)
                   then funded else Trade.status t)) /\
  multisig_sessions (check_deposit id uid st).2 = multisig_sessions st /\
  platform_fees (check_deposit id uid st).2 = platform_fees st.
Proof.
  unfold check_deposit, reply_route, bind, getTradeById, ret.
  destruct (trades st !! id) as [t|] eqn:Ht; cbn.
  2:{ repeat split; try discriminate; try reflexivity. intros (t & [=] & _). }
  destruct (String.eqb_spec (Trade.buyer_id t) uid) as [Hb|Hb];
    destruct (String.eqb_spec (Trade.seller_id t) uid) as [Hs|Hs]; cbn.
  4:{ repeat split; try discriminate; try reflexivity.
      intros (t' & [= <-] & [Hb'|Hs']); contradiction. }
  all: destruct (checkTradeDeposit_effect id st t Ht) as (Hse & Hfe & _ & t' & Ht' & _ & Hst).
  all: destruct (checkTradeDeposit id st) as [res st'] eqn:Hchk; cbn in *.
  all: split; [split; [intros _; exists t; auto|reflexivity]|].
  all: split; [intros Hne; contradiction|].
  all: split; [|split; assumption].
  all: intros res0 cur [= <- <-]; exists t; split; [reflexivity|].
  all: rewrite Ht'; cbn; rewrite Hst; split; reflexivity.
Qed.

(** The balance route writes nothing.  It answers 404 or 400 without
    calling the wallet when the session is missing or not ready; when it
    answers 200 the session is ready, the address is the session's, and the
    wallet was opened, synchronised, asked for both balances and closed. *)
Theorem get_balance_reads_only sid st :
  same_store st (get_balance sid st).2 /\
  (reply_code (get_balance sid st).1 = 404 \/ reply_code (get_balance sid st).1 = 400 ->
     (get_balance sid st).2 = st) /\
  (forall b u a, (get_balance sid st).1 = Accepted 200 (b, u, a) ->
     exists s, multisig_sessions st !! sid = Some s /\ Session.status s = ready /\
       a = Session.multisig_address s /\
       calls (get_balance sid st).2 =
         calls st ++ [CallOpenWalletFull (Session.service_wallet_path s); CallSync;
                      CallGetBalance; CallGetUnlockedBalance; CallClose]).
Proof.
  unfold get_balance. wallet_ops.
  apply (post_reply_route _ _ (fun r st' =>
    same_store st st' /\
    (reply_code r = 404 \/ reply_code r = 400 -> st' = st) /\
    (forall b u a, r = Accepted 200 (b, u, a) ->
       exists s, multisig_sessions st !! sid = Some s /\ Session.status s = ready /\
         a = Session.multisig_address s /\ calls st' = _))).
  steps.
  all: split; [repeat (first [ apply same_store_refl | apply same_store_set_world ])|].
  all: split; [cbn; intros [?|?]; first [reflexivity | discriminate]|].
  all: intros bal unl adr; try discriminate.
  intros [= <- <- <-]. guard_facts.
  eexists; split; [reflexivity|]. split; [assumption|]. split; [reflexivity|].
  rewrite <- !app_assoc. reflexivity.
Qed.

(** ** Creating a trade (routes/trades.ts, db.ts) *)

Inductive OfferType : Type := buy | sell.

(** A row of [offers] ([interface Offer]). *)
Record Offer : Type := mkOffer {
  o_id : string;
  o_user_id : string;
  o_offer_type : OfferType;
  o_payment_method : string;
  o_description : option string;
  o_price_per_xmr : float;
  o_currency : string;
  o_min_limit : float;
  o_max_limit : float;
  o_country_code : option string;
  o_is_active : Z;
  o_created_at : Z;
  o_updated_at : Z
}.

(** [INSERT INTO trades ...] with status [pending] and no session, followed
    by [getTradeById(id)!]. *)
Definition createTrade (id offerId buyerId sellerId : string) (amount xmrAmount : float)
    : M Trade :=
  fun st =>
    match trades st !! id with
    | Some _ => (Throw "UNIQUE constraint failed: trades.id", st)
    | None =>
        let now := cap_now (world st) in
        let trade :=
          Trade.mk id offerId buyerId sellerId amount xmrAmount pending None now now in
        (Ok trade, set_trades (<[id := trade]> (trades st)) st)
    end.

(** [updateTrade(id, { multisig_session_id: sessionId })] *)
Definition updateTrade_session (id sessionId : string) : M unit :=
  fun st =>
    match trades st !! id with
    | Some t =>
        (Ok tt,
         set_trades
           (<[id := Trade.set_updated_at (cap_now (world st))
                      (Trade.set_multisig_session_id (Some sessionId) t)]> (trades st)) st)
    | None => (Ok tt, st)
    end.

(** [!x] for a number: zero and NaN are falsy. *)
Definition falsy_number (x : float) : bool :=
  PrimFloat.eqb x 0 || negb (PrimFloat.eqb x x).

(** [POST /trades]; [offers] is the offers table, which the route only
    reads, and a missing body field is [None].  The two limit messages end
    with the limit and the currency of the offer.  Answers with the trade
    carrying its session id, the session id and the service's prepared hex. *)
Definition create_trade (offers : gmap string Offer) (userId : string)
    (offer_id : JsVal) (amount xmr_amount : option float)
    : St -> Reply (Trade * string * string) * St :=
  reply_route (
    match offer_id, amount, xmr_amount with
    | Str offerId, Some amount, Some xmrAmount =>
      if String.eqb offerId EmptyString || falsy_number amount || falsy_number xmrAmount then
        ret (Rejected 400 "Missing required fields: offer_id, amount, xmr_amount")
      else
        (* Get the offer *)
        match offers !! offerId with
        | None => ret (Rejected 404 "Offer not found")
        | Some offer =>
          if o_is_active offer =? 0 then
            ret (Rejected 400 "This offer is no longer active")
          (* Check limits *)
          else if PrimFloat.ltb amount (o_min_limit offer) then
            ret (Rejected 400 "Amount must be at least ")
          else if PrimFloat.ltb (o_max_limit offer) 999999999
                  && PrimFloat.ltb (o_max_limit offer) amount then
            ret (Rejected 400 "Amount must not exceed ")
          (* Prevent users from trading with themselves *)
          else if String.eqb (o_user_id offer) userId then
            ret (Rejected 400 "You cannot trade with your own offer")
          else
            (* Determine buyer and seller based on offer type *)
            let buyerId :=
              match o_offer_type offer with buy => o_user_id offer | sell => userId end in
            let sellerId :=
              match o_offer_type offer with buy => userId | sell => o_user_id offer end in
            do tradeId <- randomBytes;
            do trade <- createTrade tradeId offerId buyerId sellerId amount xmrAmount;
            (* Automatically create and link multisig escrow session *)
            do created <- initializeMultisigSession userId;
            (* Link the multisig session to the trade *)
            run updateTrade_session tradeId created.1;
            ret (Accepted 201
                   (Trade.set_multisig_session_id (Some created.1) trade,
                    created.1, created.2))
        end
    | _, _, _ => ret (Rejected 400 "Missing required fields: offer_id, amount, xmr_amount")
    end).

Lemma post_createTrade id offerId buyerId sellerId amount xmrAmount st Q :
  match trades st !! id with
  | Some _ => Q (Throw "UNIQUE constraint failed: trades.id") st
  | None =>
      Q (Ok (Trade.mk id offerId buyerId sellerId amount xmrAmount pending None
               (cap_now (world st)) (cap_now (world st))))
        (set_trades
           (<[id := Trade.mk id offerId buyerId sellerId amount xmrAmount pending None
                      (cap_now (world st)) (cap_now (world st))]> (trades st)) st)
  end ->
  post (createTrade id offerId buyerId sellerId amount xmrAmount) st Q.
Proof. unfold post, createTrade. destruct (trades st !! id); intros HQ; exact HQ. Qed.

Lemma post_updateTrade_session id sessionId st Q :
  match trades st !! id with
  | Some t =>
      Q (Ok tt)
        (set_trades
           (<[id := Trade.set_updated_at (cap_now (world st))
                      (Trade.set_multisig_session_id (Some sessionId) t)]> (trades st)) st)
  | None => Q (Ok tt) st
  end ->
  post (updateTrade_session id sessionId) st Q.
Proof. unfold post, updateTrade_session. destruct (trades st !! id); intros HQ; exact HQ. Qed.

Ltac trade_step :=
  lazymatch goal with
  | |- post (createTrade _ _ _ _ _ _) _ _ => apply post_createTrade
  | |- post (updateTrade_session _ _) _ _ => apply post_updateTrade_session
  | |- _ => step
  end; cbv beta iota zeta; st_simpl.

Ltac trade_steps := cbv zeta; repeat (trade_step; rew_lookups; cbv beta iota zeta).

(** When [POST /trades] answers with a trade, the answer is a 201, the
    trade id was free, and the stored trade is [pending], made on an active
    offer of another user, linked to the session named in the answer; that
    session exists, is in [preparing] and holds the service's prepared hex of
    the answer.  The owner of a buy offer is the buyer and the requester the
    seller, the other way round for a sell offer, so buyer and seller are
    never the same user. *)
Theorem create_trade_links_escrow offers uid offer_id amount xmr st c t sid hex :
  (create_trade offers uid offer_id amount xmr st).1 = Accepted c (t, sid, hex) ->
  c = 201 /\
  trades st !! Trade.id t = None /\
  (exists offerId offer,
     offer_id = Str offerId /\ offers !! offerId = Some offer /\
     o_is_active offer <> 0 /\ o_user_id offer <> uid /\
     Trade.offer_id t = offerId /\
     Trade.buyer_id t = match o_offer_type offer with buy => o_user_id offer | sell => uid end /\
     Trade.seller_id t = match o_offer_type offer with buy => uid | sell => o_user_id offer end) /\
  Trade.buyer_id t <> Trade.seller_id t /\
  (exists row,
     trades (create_trade offers uid offer_id amount xmr st).2 !! Trade.id t = Some row /\
     Trade.status row = pending /\ Trade.multisig_session_id row = Some sid /\
     same_deal (Trade.set_multisig_session_id (Some sid) t) row /\
     amount = Some (Trade.amount row) /\ xmr = Some (Trade.xmr_amount row)) /\
  (exists s,
     multisig_sessions (create_trade offers uid offer_id amount xmr st).2 !! sid = Some s /\
     Session.status s = preparing /\ Session.service_prepared_hex s = Some hex).
Proof.
  unfold create_trade, initializeMultisigSession. wallet_ops.
  apply (post_reply_route _ _ (fun r st' =>
    r = Accepted c (t, sid, hex) ->
    c = 201 /\ trades st !! Trade.id t = None /\ _ /\ Trade.buyer_id t <> Trade.seller_id t /\
    (exists row, trades st' !! Trade.id t = Some row /\ _) /\
    (exists s, multisig_sessions st' !! sid = Some s /\ _))).
  trade_steps; try discriminate.
  all: intros [= <- <- <- <-]; cbn [Trade.id Trade.set_multisig_session_id fst snd].
  all: rewrite ?lookup_insert_eq.
  all: repeat match goal with
         | E : String.eqb _ _ = false |- _ => apply String.eqb_neq in E
         | E : (_ =? _) = false |- _ => apply Z.eqb_neq in E
         end.
  all: split; [reflexivity|].
  all: split; [assumption|].
  all: split; [do 2 eexists; repeat (split; [first [reflexivity | eassumption]|]);
               reflexivity|].
  all: split;
    [ cbn; match goal with |- context [o_offer_type ?o] => destruct (o_offer_type o) end;
      congruence |].
  all: split; [eexists; split; [reflexivity|]; repeat split|].
  all: eexists; split; [reflexivity|]; split; reflexivity.
Qed.

(** When [POST /trades] ends in a 500 and the id drawn for the trade was
    free, the trade has been inserted all the same: it is [pending] and has no
    session.  (The insertion comes before the creation of the escrow
    session, and nothing undoes it.) *)
Theorem create_trade_failure_leaves_trade offers uid offer_id amount xmr st tid w :
  reply_code (create_trade offers uid offer_id amount xmr st).1 = 500 ->
  cap_randomBytes (world st) = (tid, w) ->
  trades st !! tid = None ->
  exists row,
    trades (create_trade offers uid offer_id amount xmr st).2 !! tid = Some row /\
    Trade.status row = pending /\ Trade.multisig_session_id row = None.
Proof.
  intros Hcode Hrand Hfree. revert Hcode.
  unfold create_trade, initializeMultisigSession. wallet_ops.
  apply (post_reply_route _ _ (fun r st' =>
    reply_code r = 500 ->
    exists row, trades st' !! tid = Some row /\
      Trade.status row = pending /\ Trade.multisig_session_id row = None)).
  trade_steps; try discriminate.
  all: intros _; rewrite ?lookup_insert_eq.
  all: eexists; split; [reflexivity|]; split; reflexivity.
Qed.

(** ** The monitoring loop (services/depositMonitor.ts) *)

(** [WHERE status = 'pending' AND multisig_session_id IS NOT NULL] *)
Definition monitored_trade (t : Trade) : bool :=
  bool_decide (Trade.status t = pending)
  && match Trade.multisig_session_id t with Some _ => true | None => false end.

(** The rows selected by one sweep, read before the first check. *)
Definition monitored (st : St) : list Trade :=
  List.filter monitored_trade (map snd (map_to_list (trades st))).

(** The body of [for (const trade of trades)]. *)
Fixpoint monitor_each (ts : list Trade) : M unit :=
  match ts with
  | [] => ret tt
  | trade :: rest =>
      do r <- checkWalletDeposits (default EmptyString (Trade.multisig_session_id trade))
                (Trade.xmr_amount trade);
      run (if isUnlocked r then
             run updateTrade (Trade.id trade) [TU_status funded];
             (* Notify both parties *)
             do updatedTrade <- getTradeById (Trade.id trade);
             ret tt
           else ret tt);
      monitor_each rest
  end.

(** [monitorDeposits]: one sweep over the pending trades; an error ends the
    sweep and is logged. *)
Definition monitorDeposits : M unit :=
  try_catch (fun st => monitor_each (monitored st) st) (fun _ => ret tt).

Lemma checkWalletDeposits_store sid x st :
  post (checkWalletDeposits sid x) st (fun r st' =>
    (exists v, r = Ok v) /\ same_store st st').
Proof.
  pose proof (performWalletCheck_store sid x st) as Hp.
  unfold post, checkWalletDeposits, try_finally, bind in *.
  destruct (performWalletCheck sid x st) as [r st1].
  cbn in Hp. destruct Hp as ([v ->] & Hstore & _). cbn.
  split; [eexists; reflexivity|]. exact Hstore.
Qed.

(** A trade after a sweep: as it was, or funded if it was selected. *)
Definition funded_or_same (t t' : Trade) : Prop :=
  same_deal t t' /\
  (Trade.status t' = Trade.status t \/
   (monitored_trade t = true /\ Trade.status t' = funded)).

Definition sweep_rel (st0 st : St) : Prop :=
  multisig_sessions st = multisig_sessions st0 /\
  platform_fees st = platform_fees st0 /\
  forall k,
    match trades st0 !! k with
    | Some t => exists t', trades st !! k = Some t' /\ funded_or_same t t'
    | None => trades st !! k = None
    end.

Lemma sweep_rel_refl st : sweep_rel st st.
Proof.
  split; [reflexivity|]. split; [reflexivity|]. intros k.
  destruct (trades st !! k) as [t|]; [|reflexivity].
  exists t. split; [reflexivity|]. split; [repeat split|left; reflexivity].
Qed.

Lemma sweep_rel_same_store st0 st st1 :
  sweep_rel st0 st -> same_store st st1 -> sweep_rel st0 st1.
Proof.
  intros (Hs & Hf & Ht) (Es & Et & Ef). split; [congruence|]. split; [congruence|].
  intros k. rewrite Et. apply Ht.
Qed.

Lemma sweep_rel_fund st0 st id t0 :
  sweep_rel st0 st ->
  trades st0 !! id = Some t0 -> monitored_trade t0 = true ->
  sweep_rel st0 (updateTrade id [TU_status funded] st).2.
Proof.
  intros (Hs & Hf & Ht) Ht0 Hmon. unfold updateTrade.
  pose proof (Ht id) as Hid. rewrite Ht0 in Hid. destruct Hid as (cur & Hcur & Hdeal & _).
  rewrite Hcur. cbn [snd]. unfold sweep_rel. st_simpl.
  split; [exact Hs|]. split; [exact Hf|]. intros k.
  destruct (decide (k = id)) as [->|Hne].
  - rewrite Ht0, lookup_insert_eq. eexists; split; [reflexivity|].
    destruct Hdeal as (E1&E2&E3&E4&E5&E6&E7&E8).
    split; [repeat split; assumption|]. right. split; [exact Hmon|reflexivity].
  - rewrite lookup_insert_ne by congruence. apply Ht.
Qed.

Lemma monitor_each_rel st0 ts : forall st,
  sweep_rel st0 st ->
  (forall trade, In trade ts ->
     exists t0, trades st0 !! Trade.id trade = Some t0 /\ monitored_trade t0 = true) ->
  post (monitor_each ts) st (fun r st' => r = Ok tt /\ sweep_rel st0 st').
Proof.
  induction ts as [|trade rest IH]; intros st Hrel Hsel.
  - apply post_ret. split; [reflexivity|exact Hrel].
  - cbn [monitor_each]. apply post_bind.
    eapply post_mono; [apply checkWalletDeposits_store|].
    intros r st1 ([v ->] & Hstore).
    pose proof (sweep_rel_same_store _ _ _ Hrel Hstore) as Hrel1.
    destruct (Hsel trade (or_introl eq_refl)) as (t0 & Ht0 & Hmon).
    assert (Hrest : forall trade', In trade' rest ->
              exists t0, trades st0 !! Trade.id trade' = Some t0 /\ monitored_trade t0 = true)
      by (intros trade' Hin; apply Hsel; right; exact Hin).
    apply post_bind. destruct (isUnlocked v).
    + apply post_bind.
      pose proof (sweep_rel_fund _ _ _ _ Hrel1 Ht0 Hmon) as Hrel2.
      unfold post at 1.
      assert (Hok : (updateTrade (Trade.id trade) [TU_status funded] st1).1 = Ok tt)
        by (unfold updateTrade; destruct (trades st1 !! Trade.id trade); reflexivity).
      rewrite Hok. apply post_bind, post_getTradeById, post_ret. apply IH; assumption.
    + apply post_ret. apply IH; assumption.
Qed.

Lemma monitored_selected st trade :
  (forall k t, trades st !! k = Some t -> Trade.id t = k) ->
  In trade (monitored st) ->
  exists t0, trades st !! Trade.id trade = Some t0 /\ monitored_trade t0 = true.
Proof.
  intros Hkeys Hin. unfold monitored in Hin. apply filter_In in Hin as [Hin Hmon].
  apply in_map_iff in Hin as ([k t] & <- & Hin). cbn in *.
  apply list_elem_of_In, elem_of_map_to_list in Hin.
  exists t. rewrite (Hkeys _ _ Hin). split; [exact Hin|exact Hmon].
Qed.

(** One sweep of the monitor, on a trade table keyed by the id column:
    it never throws, never writes a session or a fee, and never adds or
    removes a trade.  A trade is either left with its status, or it was
    [pending] with a session and is now [funded]; the deal itself (parties,
    amounts, offer, session) is never altered. *)
Theorem monitorDeposits_only_funds_pending st :
  (forall k t, trades st !! k = Some t -> Trade.id t = k) ->
  (monitorDeposits st).1 = Ok tt /\
  multisig_sessions (monitorDeposits st).2 = multisig_sessions st /\
  platform_fees (monitorDeposits st).2 = platform_fees st /\
  (forall k, trades st !! k = None -> trades (monitorDeposits st).2 !! k = None) /\
  (forall k t, trades st !! k = Some t ->
     exists t', trades (monitorDeposits st).2 !! k = Some t' /\ same_deal t t' /\
       (Trade.status t' = Trade.status t \/
        (Trade.status t = pending /\ is_Some (Trade.multisig_session_id t) /\
         Trade.status t' = funded))).
Proof.
  intros Hkeys.
  pose proof (monitor_each_rel st (monitored st) st (sweep_rel_refl st)
                (fun trade => monitored_selected st trade Hkeys)) as Hp.
  unfold monitorDeposits, try_catch. unfold post in Hp.
  destruct (monitor_each (monitored st) st) as [r st']. cbn in Hp.
  destruct Hp as [-> (Hs & Hf & Ht)]. cbn.
  split; [reflexivity|]. split; [exact Hs|]. split; [exact Hf|]. split.
  - intros k Hk. specialize (Ht k). rewrite Hk in Ht. exact Ht.
  - intros k t Hk. specialize (Ht k). rewrite Hk in Ht.
    destruct Ht as (t' & Ht' & Hdeal & Hstatus). exists t'. split; [exact Ht'|].
    split; [exact Hdeal|]. destruct Hstatus as [Hsame|[Hmon Hfunded]]; [left; exact Hsame|].
    right. unfold monitored_trade in Hmon. apply andb_true_iff in Hmon as [Hpend Hsess].
    apply bool_decide_eq_true in Hpend. split; [exact Hpend|]. split; [|exact Hfunded].
    destruct (Trade.multisig_session_id t); [eexists; reflexivity|discriminate].
Qed.

(** ** Reputation (db.ts) *)

Record Reputation : Type := mkReputation {
  total_trades : Z;
  completed_trades : Z;
  disputed_trades : Z;
  success_rate : float
}.

(** [SELECT COUNT( * ) FROM trades WHERE (buyer_id = ? OR seller_id = ?) AND ...] *)
Definition count_trades (userId : string) (cond : TradeStatus -> bool) (st : St) : Z :=
  Z.of_nat
    (length
       (List.filter
          (fun t =>
             (String.eqb (Trade.buyer_id t) userId || String.eqb (Trade.seller_id t) userId)
             && cond (Trade.status t))
          (map snd (map_to_list (trades st))))).

(** A count as a JavaScript number. *)
Definition number_of_count (n : Z) : float := PrimFloat.of_uint63 (Uint63.of_Z n).

Definition calculateUserReputation (userId : string) (st : St) : Reputation :=
  (* Count all trades where user was buyer or seller *)
  let total := count_trades userId (fun s => negb (bool_decide (s = cancelled))) st in
  (* Count completed trades *)
  let completed := count_trades userId (fun s => bool_decide (s = completed)) st in
  (* Count disputed trades *)
  let disputed := count_trades userId (fun s => bool_decide (s = disputed)) st in
  (* Calculate success rate *)
  mkReputation total completed disputed
    (if 0 <? total
     then (number_of_count completed / number_of_count total * 100)%float
     else 0%float).

Lemma filter_counts {A} (p q r : A -> bool) (l : list A) :
  (forall a, p a = true -> q a = false) ->
  (forall a, p a = true -> r a = true) ->
  (forall a, q a = true -> r a = true) ->
  (length (List.filter p l) + length (List.filter q l) <= length (List.filter r l))%nat.
Proof.
  intros Hpq Hpr Hqr. induction l as [|a l IH]; [reflexivity|]. cbn.
  destruct (p a) eqn:Hp.
  - rewrite (Hpq a Hp), (Hpr a Hp). cbn. lia.
  - destruct (q a) eqn:Hq.
    + rewrite (Hqr a Hq). cbn. lia.
    + destruct (r a); cbn; lia.
Qed.

(** The reputation computed for a user: the completed and the disputed
    trades are counted among the total and never twice, so their sum does not
    exceed it and no count exceeds the number of trades; a user with no
    counted trade has success rate 0. *)
Theorem reputation_counts_bounded userId st :
  0 <= completed_trades (calculateUserReputation userId st) /\
  0 <= disputed_trades (calculateUserReputation userId st) /\
  completed_trades (calculateUserReputation userId st)
    + disputed_trades (calculateUserReputation userId st)
    <= total_trades (calculateUserReputation userId st) /\
  total_trades (calculateUserReputation userId st) <= Z.of_nat (size (trades st)) /\
  (total_trades (calculateUserReputation userId st) = 0 ->
   success_rate (calculateUserReputation userId st) = 0%float).
Proof.
  unfold calculateUserReputation, count_trades. cbn [total_trades completed_trades
    disputed_trades success_rate].
  split; [lia|]. split; [lia|]. split; [|split].
  - rewrite <- Nat2Z.inj_add. apply inj_le. apply filter_counts.
    + intros t Hp. apply andb_true_iff in Hp as [Hu Hc]. rewrite Hu. cbn.
      apply bool_decide_eq_true in Hc. rewrite Hc. reflexivity.
    + intros t Hp. apply andb_true_iff in Hp as [Hu Hc]. rewrite Hu. cbn.
      apply bool_decide_eq_true in Hc. rewrite Hc. reflexivity.
    + intros t Hp. apply andb_true_iff in Hp as [Hu Hc]. rewrite Hu. cbn.
      apply bool_decide_eq_true in Hc. rewrite Hc. reflexivity.
  - apply inj_le. etransitivity; [apply List.filter_length_le|].
    rewrite length_map, length_map_to_list. reflexivity.
  - intros Hzero. rewrite Hzero. reflexivity.
Qed.

End Coordinator.

(** ** A wallet double and recorded runs *)

Module TestWallet.

(** The outside world of the double: the balances and heights the wallet
    reports, a counter for random identifiers, the clock, and how many of the
    next [exchangeMultisigKeys] calls fail. *)
Record World : Type := mkWorld {
  tw_balance : Z;
  tw_unlocked : Z;
  tw_height : Z;
  tw_daemonHeight : Z;
  tw_nonce : nat;
  tw_clock : Z;
  tw_exchange_failures : nat
}.

Fixpoint hex_id (n : nat) : string :=
  match n with
  | O => "00"
  | S n => "a" +:+ hex_id n
  end.

Definition ok {A} (a : A) (w : World) : Res A * World := (Ok a, w).

#[export] Instance cap : WalletCapability World unit := {|
  cap_openWalletFull := fun _ => ok tt;
  cap_daemonGetHeight := fun w => (Ok (tw_daemonHeight w), w);
  cap_createWalletFull := fun _ _ _ => ok tt;
  cap_prepareMultisig := fun _ => ok "prepared_service";
  cap_isMultisig := fun _ => ok true;
  cap_makeMultisig := fun _ _ _ => ok "made_service";
  cap_exchangeMultisigKeys := fun _ _ w =>
    match tw_exchange_failures w with
    | O => (Ok "kex_service", w)
    | S n =>
        (Throw "wallet is busy",
         mkWorld (tw_balance w) (tw_unlocked w) (tw_height w) (tw_daemonHeight w)
                 (tw_nonce w) (tw_clock w) n)
    end;
  cap_getAddress := fun _ => ok "5MultisigAddress";
  cap_getSeed := fun _ => ok "seed words";
  cap_save := fun _ => ok tt;
  cap_close := fun _ => ok tt;
  cap_unlinkSync := fun _ => ok tt;
  cap_getHeight := fun _ w => (Ok (tw_height w), w);
  cap_getDaemonHeight := fun _ w => (Ok (tw_daemonHeight w), w);
  cap_setRestoreHeight := fun _ _ => ok tt;
  cap_rescanBlockchain := fun _ => ok tt;
  cap_sync := fun _ => ok tt;
  cap_getBalance := fun _ w => (Ok (tw_balance w), w);
  cap_getUnlockedBalance := fun _ w => (Ok (tw_unlocked w), w);
  cap_createTx := fun _ _ amount w =>
    if amount <=? tw_unlocked w then (Ok tt, w) else (Throw "not enough unlocked money", w);
  cap_exportMultisigHex := fun _ => ok "unsigned_tx";
  cap_signMultisigTxHex := fun _ hex => ok ("signed:" +:+ hex);
  cap_submitMultisigTxHex := fun _ _ => ok ["txhash"];
  cap_randomBytes := fun w =>
    (hex_id (tw_nonce w),
     mkWorld (tw_balance w) (tw_unlocked w) (tw_height w) (tw_daemonHeight w)
             (S (tw_nonce w)) (tw_clock w) (tw_exchange_failures w));
  cap_now := tw_clock
|}.

Definition world0 (failures : nat) : World := mkWorld 0 0 1000 1000 0 1700000000000 failures.

Definition empty_store (w : World) : @St World := mkSt w ∅ ∅ [] ∅ [].

(** The session id drawn by the first [initializeMultisigSession]. *)
Definition sid : string := hex_id 0.

Definition session_of (st : @St World) : option MultisigSession :=
  multisig_sessions st !! sid.

(** A row of the table: the 2-of-3 session [sid] of alice with the wallet
    path, address, prepared hex and creation height that
    [initializeMultisigSession] stores, in [status], with the given prepared
    and made hexes of the users and made hex of the service, in round 0 with
    nothing exchanged.  Sessions past [preparing] are given by their row:
    [/prepare] stores no prepared hex (see [prepare_never_accepts]). *)
Definition session_row (status : SessionStatus)
    (a_prepared b_prepared service_made a_made b_made : option string) : MultisigSession :=
  Session.mk sid "alice" status 2 3
    (Some "../../wallets/service_00") (Some "5MultisigAddress")
    (Some "prepared_service") service_made a_prepared a_made b_prepared b_made
    0 None None None None None None None (Some 990) 1700000000000 1700000000000.

(** The store that holds the row [s] and nothing else, one id drawn. *)
Definition store_of (failures : nat) (s : MultisigSession) : @St World :=
  mkSt (mkWorld 0 0 1000 1000 1 1700000000000 failures) {[sid := s]} ∅ [] ∅ [].

(** The session in [exchanging], round 0: the prepared and made hexes of
    both users and of the service are in place. *)
Definition exchanging_round0 (failures : nat) : @St World :=
  store_of failures
    (session_row exchanging (Some "prepA") (Some "prepB") (Some "made_service")
       (Some "madeA") (Some "madeB")).

(** Both users exchange for round 0, the service follows automatically. *)
Definition exchanging_round1 : @St World :=
  let st := (exchange sid "user_a" (Str "kexA0") (exchanging_round0 0)).2 in
  (exchange sid "user_b" (Str "kexB0") st).2.

End TestWallet.

Import TestWallet.

Example run_status_round0 :
  Session.status <$> session_of (exchanging_round0 0) = Some exchanging.
Proof. vm_compute. reflexivity. Qed.

Example run_round1 :
  Session.exchange_round <$> session_of exchanging_round1 = Some 1.
Proof. vm_compute. reflexivity. Qed.

(** *** Runs of the exchange phase *)

Definition new_calls (before after : @St World) : list WalletCall :=
  drop (length (calls before)) (calls after).

(** Round 0 with a wallet that fails its next key exchange: both users have
    exchanged, the automatic service exchange failed and was swallowed. *)
Definition stuck_round0 : @St World :=
  let st := (exchange sid "user_a" (Str "kexA0") (exchanging_round0 1)).2 in
  (exchange sid "user_b" (Str "kexB0") st).2.

Definition after_retry : @St World := (retry_service_exchange sid stuck_round0).2.

Example stuck_round0_shape :
  Session.status <$> session_of stuck_round0 = Some exchanging /\
  Session.exchange_round <$> session_of stuck_round0 = Some 0 /\
  Session.service_exchange_hexes <$> session_of stuck_round0 = Some None /\
  Session.user_a_exchange_hexes <$> session_of stuck_round0 = Some (Some "kexA0") /\
  Session.user_b_exchange_hexes <$> session_of stuck_round0 = Some (Some "kexB0").
Proof. vm_compute. repeat split; reflexivity. Qed.

(** The same round completed by [/exchange] itself: the three values are
    moved to the previous-round fields and the slots are cleared. *)
Example exchange_advances_and_clears :
  Session.exchange_round <$> session_of exchanging_round1 = Some 1 /\
  Session.service_exchange_hexes_prev <$> session_of exchanging_round1
    = Some (Some "kex_service") /\
  Session.user_a_exchange_hexes_prev <$> session_of exchanging_round1
    = Some (Some "kexA0") /\
  Session.user_b_exchange_hexes_prev <$> session_of exchanging_round1
    = Some (Some "kexB0") /\
  Session.service_exchange_hexes <$> session_of exchanging_round1 = Some None /\
  Session.user_a_exchange_hexes <$> session_of exchanging_round1 = Some None /\
  Session.user_b_exchange_hexes <$> session_of exchanging_round1 = Some None.
Proof. vm_compute. repeat split; reflexivity. Qed.

(** C2 (defect).  The admin retry completes round 0 and increments
    [exchange_round], but copies nothing to the previous-round fields and
    clears no slot: round 1 starts with the three round-0 values still in
    place. *)
Theorem retry_advances_without_clearing :
  (retry_service_exchange sid stuck_round0).1 = json (RetryBody false None) /\
  Session.status <$> session_of after_retry = Some exchanging /\
  Session.exchange_round <$> session_of after_retry = Some 1 /\
  Session.service_exchange_hexes <$> session_of after_retry = Some (Some "kex_service") /\
  Session.user_a_exchange_hexes <$> session_of after_retry = Some (Some "kexA0") /\
  Session.user_b_exchange_hexes <$> session_of after_retry = Some (Some "kexB0") /\
  Session.service_exchange_hexes_prev <$> session_of after_retry = Some None /\
  Session.user_a_exchange_hexes_prev <$> session_of after_retry = Some None /\
  Session.user_b_exchange_hexes_prev <$> session_of after_retry = Some None.
Proof. vm_compute. repeat split; reflexivity. Qed.

(** What follows from it: the next submission of a user finds all three
    slots filled, the session turns [ready] at once, and no address was ever
    stored. *)
Example retry_then_ready_without_address :
  let st := (exchange sid "user_a" (Str "kexA1") after_retry).2 in
  Session.status <$> session_of st = Some ready /\
  Session.multisig_address <$> session_of st = Some None.
Proof. vm_compute. split; reflexivity. Qed.

(** C1 (defect).  The session left by the admin retry is in round 1, the
    final round of a 2-of-3 session, and the values of round 0 are still in
    the slots of the service and of user B.  User A's submission for round 1
    then finds all three slots filled and completes the final round: the
    session turns [ready] and the round counter becomes 2, but the service's
    wallet was asked neither to exchange keys for this round nor for its
    address, and [multisig_address] is NULL. *)
Theorem final_round_ready_without_address :
  let r := exchange sid "user_a" (Str "kexA1") after_retry in
  Session.status <$> session_of after_retry = Some exchanging /\
  Session.exchange_round <$> session_of after_retry = Some 1 /\
  totalRounds <$> session_of after_retry = Some 2 /\
  code r.1 = 200 /\
  allExchanged <$> session_of r.2 = Some true /\
  Session.status <$> session_of r.2 = Some ready /\
  Session.exchange_round <$> session_of r.2 = Some 2 /\
  Session.multisig_address <$> session_of r.2 = Some None /\
  new_calls after_retry r.2 =
    [CallOpenWalletFull (Some "../../wallets/service_00"); CallGetSeed; CallClose;
     CallUnlinkSync "../../wallets/service_00";
     CallUnlinkSync "../../wallets/service_00.keys";
     CallCreateWalletFull (Some "../../wallets/service_00") (Some "seed words") (Some 990);
     CallGetHeight; CallClose].
Proof. vm_compute. repeat split; reflexivity. Qed.

(** Round 1, user A has submitted. *)
Definition round1_user_a : @St World :=
  (exchange sid "user_a" (Str "kexA1") exchanging_round1).2.

(** C3 (defect).  In round 1 the previous round's values of the users are
    [kexA0] and [kexB0].  The service's own branch of [/exchange] hands these
    to [exchangeMultisigKeys]; the automatic exchange triggered by user B's
    submission hands over the current round's [kexA1] and [kexB1] instead. *)
Theorem auto_exchange_uses_current_round_hexes :
  Session.exchange_round <$> session_of round1_user_a = Some 1 /\
  Session.user_a_exchange_hexes_prev <$> session_of round1_user_a = Some (Some "kexA0") /\
  Session.user_b_exchange_hexes_prev <$> session_of round1_user_a = Some (Some "kexB0") /\
  take 2 (new_calls round1_user_a (exchange sid "service" Undefined round1_user_a).2) =
    [CallOpenWalletFull (Some "../../wallets/service_00");
     CallExchangeMultisigKeys [Some "kexA0"; Some "kexB0"]] /\
  take 2 (new_calls round1_user_a (exchange sid "user_b" (Str "kexB1") round1_user_a).2) =
    [CallOpenWalletFull (Some "../../wallets/service_00");
     CallExchangeMultisigKeys [Some "kexA1"; Some "kexB1"]].
Proof. vm_compute. repeat split; reflexivity. Qed.

(** *** Runs of the release routes *)

(** The session after both rounds: [ready], with its address. *)
Definition ready_round2 : @St World :=
  (exchange sid "user_b" (Str "kexB1") round1_user_a).2.

Example ready_round2_shape :
  Session.status <$> session_of ready_round2 = Some ready /\
  Session.multisig_address <$> session_of ready_round2 = Some (Some "5MultisigAddress").
Proof. vm_compute. split; reflexivity. Qed.

(** A trade of [xmr] XMR sold by alice to bob, in [status], escrowed in the
    ready session, with [unlocked] atomic units unlocked in the wallet. *)
Definition trade_of (xmr : float) (status : TradeStatus) : Trade :=
  Trade.mk "t1" "offer1" "bob" "alice" 300 xmr status (Some sid)
           1700000000000 1700000000000.

Definition trading (xmr : float) (status : TradeStatus) (unlocked : Z) : @St World :=
  mkSt (mkWorld unlocked unlocked 1000 1000 1 1700000000000 0)
       (multisig_sessions ready_round2) {["t1" := trade_of xmr status]} [] ∅ [].

Definition fees_of (st : @St World) : list PlatformFee := getPlatformFeesByTradeId "t1" st.

(** C5 (defect).  [finalize-release] by the seller, with a transaction that
    the wallet signs and submits: the route fails where it draws the id of
    the fee, after the transaction has been submitted.  The answer is a 500,
    the trade is left [releasing] and no fee is recorded.  The route has no
    guard on the status of the trade: a second request signs and submits
    again, and fails in the same way.  Set to [completed] by the admin, the
    trade is completed with no fee recorded at all. *)
Theorem finalize_release_records_no_fee :
  let st0 := trading 2 payment_sent 2000000000000 in
  let r1 := finalize_release "t1" "alice" (Str "signed_by_seller") st0 in
  let r2 := finalize_release "t1" "alice" (Str "signed_by_seller") r1.2 in
  let r3 := admin_update_trade "t1" (Str "completed") r2.2 in
  code r1.1 = 500 /\
  new_calls st0 r1.2 =
    [CallOpenWalletFull (Some "../../wallets/service_00");
     CallSignMultisigTxHex "signed_by_seller";
     CallSubmitMultisigTxHex "signed:signed_by_seller"; CallClose] /\
  Trade.status <$> (trades r1.2 !! "t1") = Some releasing /\
  fees_of r1.2 = [] /\
  code r2.1 = 500 /\
  new_calls r1.2 r2.2 =
    [CallOpenWalletFull (Some "../../wallets/service_00");
     CallSignMultisigTxHex "signed_by_seller";
     CallSubmitMultisigTxHex "signed:signed_by_seller"; CallClose] /\
  Trade.status <$> (trades r2.2 !! "t1") = Some releasing /\
  fees_of r2.2 = [] /\
  reply_code r3.1 = 200 /\
  Trade.status <$> (trades r3.2 !! "t1") = Some completed /\
  fees_of r3.2 = [].
Proof. vm_compute. repeat split; reflexivity. Qed.

(** C8 (defect).  With nothing unlocked in the wallet, [initiate-release]
    of a 1 XMR trade does not answer 400: it never reads the balance, goes on
    to [createTx], and the wallet's refusal surfaces as a 500.  The trade is
    untouched.  The admin route [release-escrow] does check the balance and
    answers 400. *)
Theorem initiate_release_insufficient_balance :
  let st := trading 1 payment_sent 0 in
  let r := initiate_release "t1" "alice" (Str "4SellerAddress") st in
  r.1 = error 500 "not enough unlocked money" /\
  new_calls st r.2 =
    [CallOpenWalletFull (Some "../../wallets/service_00"); CallSync;
     CallCreateTx "4SellerAddress" 995000000000] /\
  trades r.2 = trades st /\
  (release_escrow "t1" "seller" (Str "4SellerAddress") (trading 1 disputed 0)).1
    = error 400 "Insufficient balance in escrow".
Proof. vm_compute. repeat split; reflexivity. Qed.

(** *** The general statements at recorded runs *)

(** Round 0, user A has submitted; user B's submission completes the round. *)
Definition round0_user_a : @St World :=
  (exchange sid "user_a" (Str "kexA0") (exchanging_round0 0)).2.

(** The session in [preparing] with user A's prepared hex in its row. *)
Definition prepared_user_a : @St World :=
  store_of 0 (session_row preparing (Some "prepA") None None None None).

(** The session in [making] with user A's made hex in its row. *)
Definition made_user_a : @St World :=
  store_of 0 (session_row making (Some "prepA") (Some "prepB") None (Some "madeA") None).

(** The session in [making] with both users' made hexes in its row, the
    service's still missing. *)
Definition made_by_users : @St World :=
  store_of 0
    (session_row making (Some "prepA") (Some "prepB") None (Some "madeA") (Some "madeB")).

Lemma make_computes_service_hex_witness :
  (new_calls made_user_a (make sid "user_b" (Str "madeB") made_user_a).2 =
     [CallOpenWalletFull (Some "../../wallets/service_00");
      CallMakeMultisig [Some "prepA"; Some "prepB"] 2; CallSave; CallClose] /\
   Session.service_made_hex <$> session_of (make sid "user_b" (Str "madeB") made_user_a).2
     = Some (Some "made_service") /\
   Session.status <$> session_of (make sid "user_b" (Str "madeB") made_user_a).2
     = Some exchanging) /\
  (new_calls made_by_users (make sid "service" Undefined made_by_users).2 =
     [CallOpenWalletFull (Some "../../wallets/service_00");
      CallMakeMultisig [Some "prepA"; Some "prepB"] 2; CallClose] /\
   Session.service_made_hex <$> session_of (make sid "service" Undefined made_by_users).2
     = Some (Some "made_service") /\
   Session.status <$> session_of (make sid "service" Undefined made_by_users).2
     = Some exchanging).
Proof.
  destruct (@make_computes_service_hex World unit cap) as (_ & Hauto & Hservice).
  split.
  - edestruct (Hauto sid "user_b" (Str "madeB") made_user_a)
      as (Hcalls & s' & Hs' & Hmade & Hstatus).
    + vm_compute; reflexivity.
    + vm_compute; reflexivity.
    + right. split; [reflexivity|]. vm_compute; reflexivity.
    + reflexivity.
    + vm_compute; reflexivity.
    + vm_compute; reflexivity.
    + vm_compute; reflexivity.
    + vm_compute; reflexivity.
    + vm_compute; reflexivity.
    + split; [unfold new_calls; rewrite Hcalls, drop_app_length; vm_compute; reflexivity|].
      unfold session_of. rewrite Hs'. cbn. rewrite Hmade, Hstatus by discriminate.
      split; reflexivity.
  - edestruct (Hservice sid Undefined made_by_users)
      as (_ & Hcalls & s' & Hs' & Hmade & Ha & Hb & Hstatus).
    + vm_compute; reflexivity.
    + vm_compute; reflexivity.
    + vm_compute; reflexivity.
    + vm_compute; reflexivity.
    + vm_compute; reflexivity.
    + split; [unfold new_calls; rewrite Hcalls, drop_app_length; vm_compute; reflexivity|].
      unfold session_of. rewrite Hs'. cbn. rewrite Hstatus. unfold allMade.
      rewrite Hmade, Ha, Hb. split; reflexivity.
Defined.

(** C4 (as stated) fails: user B's prepared hex fills the third slot of a
    session in [preparing]; the wallet is not called and no made hex of the
    service is stored. *)
Lemma prepare_does_not_make :
  ~ prepare_invokes_make sid "bob" "user_b" (Str "prepB") prepared_user_a.
Proof.
  intros Hclaim.
  edestruct Hclaim as (s' & peers & _ & _ & _ & Hcall).
  - vm_compute; reflexivity.
  - vm_compute; reflexivity.
  - split; [reflexivity|]. split; [reflexivity|]. right. split; reflexivity.
  - vm_compute in Hcall. apply elem_of_nil in Hcall. exact Hcall.
Qed.

(** C6 (as stated) fails.  In binary64, [2.01 - 2.01 * 0.005] is not
    [2.01 * (1 - 0.005)]: the transaction is requested for 1999950000000
    atomic units, the product gives 1999949999999.  In exact arithmetic,
    [0.03 * 0.995] is 29850000000 atomic units: the transaction is requested
    for 29849999999. *)
Lemma payout_differs_from_product :
  ~ payout_as_stated (trade_of 2.01 payment_sent) /\
  ~ payout_as_stated_decimal 3 100 (trade_of 0.03 payment_sent).
Proof.
  split; intros Hclaim; vm_compute in Hclaim; discriminate.
Qed.

Example payout_is_product_at_two :
  payout_as_stated (trade_of 2 payment_sent) /\
  payout_as_stated_decimal 2 1 (trade_of 2 payment_sent) /\
  toAtomic (amountAfterFee (trade_of 2.01 payment_sent)) = Some 1999950000000 /\
  toAtomic (2.01 * 0.995)%float = Some 1999949999999 /\
  toAtomic (amountAfterFee (trade_of 0.03 payment_sent)) = Some 29849999999 /\
  exact_payout_atomic 3 100 = 29850000000.
Proof. vm_compute. repeat split; reflexivity. Qed.

Lemma release_fee_and_payout_witness :
  let st0 := trading 2 payment_sent 2000000000000 in
  let r1 := initiate_release "t1" "alice" (Str "4SellerAddress") st0 in
  r1.1 = json (InitiateBody "unsigned_tx" "4SellerAddress" 2 0.01 1.99) /\
  new_calls st0 r1.2 =
    [CallOpenWalletFull (Some "../../wallets/service_00"); CallSync;
     CallCreateTx "4SellerAddress" 1990000000000; CallExportMultisigHex; CallClose].
Proof.
  destruct (@release_fee_and_payout World unit cap) as (Hinit & Htwo).
  cbv zeta.
  edestruct (Hinit "t1" "alice" (Str "4SellerAddress") (trading 2 payment_sent 2000000000000))
    as (t & s & atomic & Ht & Hs & _ & _ & _ & Hatomic & Hcalls).
  { vm_compute; reflexivity. }
  vm_compute in Ht. injection Ht as <-.
  vm_compute in Hs. injection Hs as <-.
  destruct (Htwo (trade_of 2 payment_sent) eq_refl) as (Hfee & _ & _ & _ & Hat).
  split.
  - vm_compute. reflexivity.
  - unfold new_calls. rewrite Hcalls, drop_app_length.
    vm_compute in Hatomic. injection Hatomic as <-. vm_compute. reflexivity.
Defined.



(** A pending trade whose session is still exchanging. *)
Definition trading_unready : @St World :=
  mkSt (mkWorld 5000000000000 5000000000000 1000 1000 1 1700000000000 0)
       (multisig_sessions exchanging_round1) {["t1" := trade_of 1 pending]} [] ∅ [].

Lemma checkDeposit_session_not_ready_witness :
  (checkTradeDeposit "t1" trading_unready).1 = mkTradeDepositResult true false false 0 /\
  calls (checkTradeDeposit "t1" trading_unready).2 = [] /\
  Trade.status <$> (trades (checkTradeDeposit "t1" trading_unready).2 !! "t1")
    = Some pending.
Proof.
  edestruct (checkDeposit_session_not_ready "t1" trading_unready)
    as (_ & Hres & Hcalls & _ & Htrades & _).
  - vm_compute; reflexivity.
  - vm_compute; reflexivity.
  - vm_compute; discriminate.
  - vm_compute; discriminate.
  - split; [exact Hres|]. split; [rewrite Hcalls; reflexivity|].
    rewrite Htrades. vm_compute. reflexivity.
Defined.

(** *** Further statements at recorded runs *)

Lemma sessions_only_advance_witness :
  exists s',
    multisig_sessions (serve (ReqExchange sid "user_b" (Str "kexB1")) round1_user_a) !! sid
      = Some s' /\
    Session.status s' = ready /\ Session.threshold s' = 2 /\
    Session.creation_height s' = Some 990.
Proof.
  edestruct (sessions_only_advance (ReqExchange sid "user_b" (Str "kexB1")) round1_user_a sid)
    as ((s' & Hs' & Hrank & Hsetup) & _).
  - vm_compute; reflexivity.
  - exists s'. split; [exact Hs'|].
    destruct Hsetup as (_ & _ & Hthr & _ & _ & _ & _ & Hheight & _). rewrite Hthr, Hheight.
    vm_compute in Hs'. injection Hs' as <-. repeat split; reflexivity.
Defined.

Lemma out_of_phase_changes_nothing_witness :
  code (exchange sid "user_a" (Str "late") ready_round2).1 = 400 /\
  (exchange sid "user_a" (Str "late") ready_round2).2 = ready_round2.
Proof.
  edestruct (out_of_phase_changes_nothing sid ready_round2) as (_ & _ & Hexchange & _).
  - vm_compute; reflexivity.
  - apply Hexchange. vm_compute. discriminate.
Defined.

Lemma exchange_copies_and_clears_witness :
  let st := (exchange sid "user_b" (Str "kexB0") round0_user_a).2 in
  Session.exchange_round <$> session_of st = Some 1 /\
  Session.user_a_exchange_hexes_prev <$> session_of st = Some (Some "kexA0") /\
  Session.user_b_exchange_hexes_prev <$> session_of st = Some (Some "kexB0") /\
  Session.user_a_exchange_hexes <$> session_of st = Some None.
Proof.
  cbv zeta.
  edestruct (exchange_copies_and_clears sid "user_b" (Str "kexB0") round0_user_a)
    as (s' & Hs' & _ & Hround & _ & Ha & Hb & _ & Hcleared & _).
  - vm_compute; reflexivity.
  - vm_compute; reflexivity.
  - vm_compute; reflexivity.
  - vm_compute; reflexivity.
  - vm_compute; reflexivity.
  - vm_compute; reflexivity.
  - unfold session_of. rewrite Hs'. cbn. rewrite Hround, Ha, Hb, Hcleared.
    repeat split; reflexivity.
Defined.

(** Round 0 with a wallet that fails its next key exchange, user A has
    submitted. *)
Definition failing_round0_user_a : @St World :=
  (exchange sid "user_a" (Str "kexA0") (exchanging_round0 1)).2.

Lemma exchange_auto_failure_is_swallowed_witness :
  code (exchange sid "user_b" (Str "kexB0") failing_round0_user_a).1 = 200 /\
  new_calls failing_round0_user_a (exchange sid "user_b" (Str "kexB0") failing_round0_user_a).2 =
    [CallOpenWalletFull (Some "../../wallets/service_00");
     CallExchangeMultisigKeys [Some "madeA"; Some "madeB"]].
Proof.
  edestruct (exchange_auto_failure_is_swallowed sid "user_b" "kexB0" failing_round0_user_a)
    as (Hcode & Hcalls & _).
  - vm_compute; reflexivity.
  - vm_compute; reflexivity.
  - right. split; [reflexivity|]. vm_compute; reflexivity.
  - discriminate.
  - vm_compute; reflexivity.
  - vm_compute; reflexivity.
  - vm_compute; reflexivity.
  - split; [exact Hcode|]. unfold new_calls. rewrite Hcalls. vm_compute. reflexivity.
Defined.

Lemma create_session_row_witness :
  Session.creation_height <$>
    (multisig_sessions (create_session "alice" (empty_store (world0 0))).2 !! sid)
    = Some (Some 990).
Proof.
  edestruct (create_session_row "alice" (empty_store (world0 0)) sid "prepared_service")
    as (_ & s & Hs & _ & _ & _ & _ & _ & _ & _ & w & Hw & Hheight).
  - vm_compute; reflexivity.
  - rewrite Hs. cbn. f_equal. rewrite Hheight.
    vm_compute in Hw. injection Hw as <-. vm_compute. reflexivity.
Defined.

Lemma release_escrow_refuses_underfunded_witness :
  (release_escrow "t1" "seller" (Str "4SellerAddress") (trading 1 disputed 999999999999)).1
    = error 400 "Insufficient balance in escrow" /\
  new_calls (trading 1 disputed 999999999999)
    (release_escrow "t1" "seller" (Str "4SellerAddress") (trading 1 disputed 999999999999)).2 =
    [CallOpenWalletFull (Some "../../wallets/service_00"); CallSync;
     CallGetUnlockedBalance; CallClose].
Proof.
  edestruct (release_escrow_refuses_underfunded "t1" "seller" "4SellerAddress"
               (trading 1 disputed 999999999999)) as (Hanswer & Hcalls & _).
  - right; reflexivity.
  - discriminate.
  - vm_compute; reflexivity.
  - right; reflexivity.
  - vm_compute; reflexivity.
  - vm_compute; discriminate.
  - vm_compute; reflexivity.
  - vm_compute; reflexivity.
  - vm_compute; reflexivity.
  - vm_compute; reflexivity.
  - vm_compute; reflexivity.
  - vm_compute; reflexivity.
  - vm_compute; reflexivity.
  - vm_compute; reflexivity.
  - split; [exact Hanswer|]. unfold new_calls. rewrite Hcalls, drop_app_length.
    vm_compute. reflexivity.
Defined.

Lemma release_escrow_never_completes_witness :
  let st := trading 1 disputed 1000000000000 in
  let r := release_escrow "t1" "buyer" (Str "4BuyerAddress") st in
  code r.1 = 500 /\
  new_calls st r.2 =
    [CallOpenWalletFull (Some "../../wallets/service_00"); CallSync;
     CallGetUnlockedBalance; CallCreateTx "4BuyerAddress" 995000000000;
     CallExportMultisigHex; CallSignMultisigTxHex "unsigned_tx"; CallClose] /\
  Trade.status <$> (trades r.2 !! "t1") = Some disputed /\
  platform_fees r.2 = [].
Proof.
  destruct (@release_escrow_never_completes World unit cap) as (_ & Hfails).
  cbv zeta.
  edestruct (Hfails "t1" "buyer" "4BuyerAddress" (trading 1 disputed 1000000000000))
    as (Hcode & Hcalls & Htrade & Hfees).
  - left; reflexivity.
  - discriminate.
  - vm_compute; reflexivity.
  - right; reflexivity.
  - vm_compute; reflexivity.
  - vm_compute; discriminate.
  - vm_compute; reflexivity.
  - vm_compute; reflexivity.
  - vm_compute; reflexivity.
  - vm_compute; reflexivity.
  - vm_compute; reflexivity.
  - vm_compute; reflexivity.
  - vm_compute; discriminate.
  - vm_compute; reflexivity.
  - vm_compute; reflexivity.
  - vm_compute; reflexivity.
  - vm_compute; reflexivity.
  - split; [exact Hcode|].
    split; [unfold new_calls; rewrite Hcalls, drop_app_length; reflexivity|].
    split; [rewrite Htrade; reflexivity|]. rewrite Hfees. reflexivity.
Defined.

Lemma release_requires_seller_witness :
  code (initiate_release "t1" "bob" (Str "4BuyerAddress") (trading 1 payment_sent 0)).1 = 403 /\
  (finalize_release "t1" "bob" (Str "signed_by_buyer") (trading 1 payment_sent 0)).2
    = trading 1 payment_sent 0.
Proof.
  edestruct (release_requires_seller "t1" "bob" (trading 1 payment_sent 0))
    as (Hinitiate & Hfinalize).
  - vm_compute; reflexivity.
  - vm_compute. discriminate.
  - rewrite Hinitiate, Hfinalize. split; reflexivity.
Defined.

Lemma finalize_release_failure_leaves_releasing_witness :
  let r := finalize_release "t1" "alice" (Str "signed_by_seller")
             (trading 2 payment_sent 2000000000000) in
  code r.1 = 500 /\
  Trade.status <$> (trades r.2 !! "t1") = Some releasing /\
  platform_fees r.2 = [].
Proof.
  cbv zeta.
  edestruct (finalize_release_failure_leaves_releasing "t1" "alice" (Str "signed_by_seller")
               (trading 2 payment_sent 2000000000000)) as (t' & Ht' & Hstatus & Hfees).
  - vm_compute; reflexivity.
  - split; [vm_compute; reflexivity|]. split; [rewrite Ht'; cbn; f_equal; exact Hstatus|].
    rewrite Hfees. reflexivity.
Defined.

Lemma performWalletCheck_closes_wallet_witness :
  last (calls (performWalletCheck sid 1 (trading 1 pending 1000000000000)).2) = Some CallClose.
Proof.
  eapply (performWalletCheck_closes_wallet sid 1%float (trading 1 pending 1000000000000)).
  - vm_compute; reflexivity.
  - vm_compute; reflexivity.
  - vm_compute; reflexivity.
Defined.

Lemma performWalletCheck_unconvertible_amount_witness :
  (performWalletCheck sid nan (trading 1 pending 1000000000000)).1 = Ok no_deposit /\
  (performWalletCheck sid infinity (trading 1 pending 1000000000000)).1 = Ok no_deposit.
Proof.
  split; apply performWalletCheck_unconvertible_amount; vm_compute; reflexivity.
Defined.

Lemma admin_update_trade_any_transition_witness :
  Trade.status <$>
    (trades (admin_update_trade "t1" (Str "pending") (trading 1 completed 0)).2 !! "t1")
    = Some pending.
Proof.
  edestruct (admin_update_trade_any_transition "t1" pending (trading 1 completed 0))
    as (_ & (t' & Ht' & Hstatus & _) & _).
  - vm_compute; reflexivity.
  - cbn [trade_status_string] in Ht'. rewrite Ht'. cbn. f_equal. exact Hstatus.
Defined.

(** An offer of alice to sell, and bob's request to trade on it. *)
Definition offers_of_alice : gmap string Offer :=
  {["offer1" := mkOffer "offer1" "alice" sell "bank transfer" None 150 "USD" 10 1000 None
                        1 1700000000000 1700000000000]}.

Lemma create_trade_links_escrow_witness :
  let r := create_trade offers_of_alice "bob" (Str "offer1") (Some 300%float) (Some 2%float)
             (empty_store (world0 0)) in
  reply_code r.1 = 201 /\
  Trade.buyer_id <$> (trades r.2 !! hex_id 0) = Some "bob" /\
  Trade.seller_id <$> (trades r.2 !! hex_id 0) = Some "alice" /\
  trades r.2 !! hex_id 0 ≫= Trade.multisig_session_id = Some (hex_id 1) /\
  Session.status <$> (multisig_sessions r.2 !! hex_id 1) = Some preparing.
Proof.
  cbv zeta.
  edestruct (create_trade_links_escrow offers_of_alice "bob" (Str "offer1")
               (Some 300%float) (Some 2%float) (empty_store (world0 0)))
    as (Hc & _ & _ & _ & (row & Hrow & _) & (s & Hs & Hstatus & _)).
  - vm_compute; reflexivity.
  - vm_compute. repeat split; reflexivity.
Defined.

(** A store in which the id the next session will draw is taken. *)
Definition session_id_taken : @St World :=
  mkSt (world0 0)
       (multisig_sessions
          (create_session "carol" (empty_store (mkWorld 0 0 1000 1000 1 1700000000000 0))).2)
       ∅ [] ∅ [].

Lemma create_trade_failure_leaves_trade_witness :
  let r := create_trade offers_of_alice "bob" (Str "offer1") (Some 300%float) (Some 2%float)
             session_id_taken in
  reply_code r.1 = 500 /\
  Trade.status <$> (trades r.2 !! hex_id 0) = Some pending /\
  trades r.2 !! hex_id 0 ≫= Trade.multisig_session_id = None.
Proof.
  cbv zeta.
  edestruct (create_trade_failure_leaves_trade offers_of_alice "bob" (Str "offer1")
               (Some 300%float) (Some 2%float) session_id_taken (hex_id 0))
    as (row & Hrow & Hstatus & Hsession).
  - vm_compute; reflexivity.
  - vm_compute; reflexivity.
  - vm_compute; reflexivity.
  - split; [vm_compute; reflexivity|]. rewrite Hrow. cbn. rewrite Hstatus, Hsession.
    split; reflexivity.
Defined.

Lemma monitorDeposits_only_funds_pending_witness :
  (monitorDeposits (trading 1 pending 1000000000000)).1 = Ok tt /\
  exists t', trades (monitorDeposits (trading 1 pending 1000000000000)).2 !! "t1" = Some t' /\
    Trade.xmr_amount t' = 1%float.
Proof.
  destruct (monitorDeposits_only_funds_pending (trading 1 pending 1000000000000))
    as (Hok & _ & _ & _ & Hrows).
  - intros k t Hk. unfold trading in Hk. cbn [trades] in Hk.
    apply lookup_singleton_Some in Hk as [<- <-]. reflexivity.
  - split; [exact Hok|].
    destruct (Hrows "t1" (trade_of 1 pending)) as (t' & Ht' & Hdeal & _).
    + vm_compute; reflexivity.
    + exists t'. split; [exact Ht'|]. destruct Hdeal as (_ & _ & _ & _ & _ & Hxmr & _).
      rewrite Hxmr. reflexivity.
Defined.

Lemma exchange_auto_hexes_witness :
  take 2 (new_calls round1_user_a (exchange sid "user_b" (Str "kexB1") round1_user_a).2) =
    [CallOpenWalletFull (Some "../../wallets/service_00");
     CallExchangeMultisigKeys [Some "kexA1"; Some "kexB1"]].
Proof.
  unfold new_calls.
  etransitivity.
  - eapply (exchange_auto_hexes sid "user_b" "kexB1" round1_user_a).
    + vm_compute; reflexivity.
    + vm_compute; reflexivity.
    + right. split; [reflexivity|]. vm_compute; reflexivity.
    + discriminate.
    + vm_compute; reflexivity.
    + vm_compute; reflexivity.
  - vm_compute. reflexivity.
Defined.

Lemma retry_service_exchange_keeps_slots_witness :
  Session.exchange_round <$> session_of (retry_service_exchange sid stuck_round0).2 = Some 1 /\
  Session.user_a_exchange_hexes <$> session_of (retry_service_exchange sid stuck_round0).2
    = Some (Some "kexA0") /\
  Session.user_a_exchange_hexes_prev <$> session_of (retry_service_exchange sid stuck_round0).2
    = Some None.
Proof.
  edestruct (retry_service_exchange_keeps_slots sid stuck_round0)
    as (s' & Hs' & Hround & _ & Ha & _ & _ & Haprev & _).
  - vm_compute; reflexivity.
  - vm_compute; reflexivity.
  - vm_compute; reflexivity.
  - vm_compute; reflexivity.
  - vm_compute; reflexivity.
  - vm_compute; reflexivity.
  - vm_compute; reflexivity.
  - vm_compute; reflexivity.
  - vm_compute; reflexivity.
  - discriminate.
  - vm_compute; reflexivity.
  - vm_compute; reflexivity.
  - unfold session_of. rewrite Hs'. cbn. rewrite Hround, Ha, Haprev.
    repeat split; reflexivity.
Defined.

Lemma finalize_release_any_status_witness :
  let st := trading 2 completed 0 in
  let r := finalize_release "t1" "alice" (Str "signed_again") st in
  code r.1 = 500 /\
  new_calls st r.2 =
    [CallOpenWalletFull (Some "../../wallets/service_00");
     CallSignMultisigTxHex "signed_again";
     CallSubmitMultisigTxHex "signed:signed_again"; CallClose] /\
  platform_fees r.2 = [] /\
  Trade.status <$> (trades r.2 !! "t1") = Some releasing.
Proof.
  cbv zeta.
  edestruct (finalize_release_any_status "t1" "alice" "signed_again" (trading 2 completed 0))
    as (Hcode & Hcalls & Hfees & _ & Hstatus).
  - vm_compute; reflexivity.
  - vm_compute; reflexivity.
  - discriminate.
  - vm_compute; reflexivity.
  - vm_compute; reflexivity.
  - vm_compute; reflexivity.
  - vm_compute; reflexivity.
  - vm_compute; reflexivity.
  - split; [exact Hcode|].
    split; [unfold new_calls; rewrite Hcalls, drop_app_length; reflexivity|].
    split; [rewrite Hfees; reflexivity|exact Hstatus].
Defined.

Lemma prepare_never_accepts_witness :
  let st := (create_session "alice" (empty_store (world0 0))).2 in
  Session.status <$> session_of st = Some preparing /\
  code (prepare sid "alice" "user_a" (Str "prepA") st).1 = 500 /\
  (prepare sid "alice" "user_a" (Str "prepA") st).2 = st.
Proof.
  destruct (@prepare_never_accepts World unit cap) as (Hnever & Hfails).
  cbv zeta. split; [vm_compute; reflexivity|]. split.
  - eapply (Hfails sid "alice" "user_a" (Str "prepA")).
    + vm_compute; reflexivity.
    + vm_compute; reflexivity.
    + left; reflexivity.
  - apply Hnever.
Defined.

(** ** Concurrent deposit checks

    [checkWalletDeposits] under the event loop, for one session id.  A
    request is suspended either at [await walletLocks.get(sessionId)] or at
    [await operationPromise]; between two suspension points it runs without
    interruption.  A request that finds no entry in [walletLocks], or that is
    resumed after the entry it awaited has settled, calls
    [performWalletCheck] (which opens the wallet before it first suspends),
    stores the new promise in [walletLocks] and awaits it.  When a wallet
    round trip ends, its promise settles and the continuations registered on
    it run in registration order: first the request that created it, which
    returns and, in its [finally], deletes the map entry; then every request
    that awaited it, in order of arrival. *)

Module EventLoop.

Inductive Pc : Type :=
| Waiting (p : nat)   (* at [await walletLocks.get(sessionId)], on promise [p] *)
| InFlight (p : nat)  (* at [await operationPromise]: round trip [p] is running *)
| Returned.

Record Loop : Type := mkLoop {
  lock : option nat;      (* [walletLocks.get(sessionId)] *)
  fresh : nat;            (* the next promise *)
  requests : list Pc      (* the requests, in order of arrival *)
}.

Definition init : Loop := mkLoop None 0 [].

(** A call of [checkWalletDeposits] arrives.  With an entry in the map it
    suspends on that promise ([if (walletLocks.has(sessionId)) await
    walletLocks.get(sessionId)]); without one it goes straight to
    [performWalletCheck] and [walletLocks.set]. *)
Definition arrive (l : Loop) : Loop :=
  match lock l with
  | Some p => mkLoop (lock l) (fresh l) (requests l ++ [Waiting p])
  | None => mkLoop (Some (fresh l)) (S (fresh l)) (requests l ++ [InFlight (fresh l)])
  end.

(** The continuations of promise [p], run over the requests in order.  The
    request that owns [p] comes before the requests that wait for it: it
    registered its [await operationPromise] in the same uninterrupted run in
    which it stored [p] in the map, where the others found it later. *)
Fixpoint resume (p : nat) (lk : option nat) (next : nat) (rs : list Pc)
    : option nat * nat * list Pc :=
  match rs with
  | [] => (lk, next, [])
  | InFlight q :: rs' =>
      if Nat.eqb q p then
        (* [return result] and [walletLocks.delete(sessionId)] *)
        let '(lk', next', out) := resume p None next rs' in
        (lk', next', Returned :: out)
      else
        let '(lk', next', out) := resume p lk next rs' in
        (lk', next', InFlight q :: out)
  | Waiting q :: rs' =>
      if Nat.eqb q p then
        (* [performWalletCheck(...)] and [walletLocks.set(sessionId, ...)] *)
        let '(lk', next', out) := resume p (Some next) (S next) rs' in
        (lk', next', InFlight next :: out)
      else
        let '(lk', next', out) := resume p lk next rs' in
        (lk', next', Waiting q :: out)
  | Returned :: rs' =>
      let '(lk', next', out) := resume p lk next rs' in
      (lk', next', Returned :: out)
  end.

(** The wallet round trip of promise [p] ends. *)
Definition settle (p : nat) (l : Loop) : Loop :=
  let '(lk, next, rs) := resume p (lock l) (fresh l) (requests l) in
  mkLoop lk next rs.

Inductive Event : Type :=
| Arrive
| Settle (p : nat).

Definition step (l : Loop) (e : Event) : Loop :=
  match e with
  | Arrive => arrive l
  | Settle p => settle p l
  end.

Definition run (es : list Event) : Loop := foldl step init es.

Definition is_in_flight (pc : Pc) : bool :=
  match pc with
  | InFlight _ => true
  | _ => false
  end.

(** The number of wallet round trips in progress. *)
Definition in_flight (l : Loop) : nat := length (List.filter is_in_flight (requests l)).

(** The number of requests waiting for promise [p]. *)
Fixpoint waiting_on (p : nat) (rs : list Pc) : nat :=
  match rs with
  | [] => O
  | Waiting q :: rs' => if Nat.eqb q p then S (waiting_on p rs') else waiting_on p rs'
  | _ :: rs' => waiting_on p rs'
  end.

(** Every request that waited for [p] starts a round trip of its own when
    [p] settles. *)
Lemma resume_starts_every_waiter p rs :
  forall lk next,
    (waiting_on p rs <= length (List.filter is_in_flight (resume p lk next rs).2))%nat.
Proof.
  induction rs as [|r rs IH]; intros lk next; [apply Nat.le_refl|].
  destruct r as [q|q|]; cbn [resume waiting_on].
  - destruct (Nat.eqb q p).
    + specialize (IH (Some next) (S next)).
      destruct (resume p (Some next) (S next) rs) as [[lk' next'] out].
      cbn in *. lia.
    + specialize (IH lk next). destruct (resume p lk next rs) as [[lk' next'] out].
      cbn in *. lia.
  - destruct (Nat.eqb q p).
    + specialize (IH None next). destruct (resume p None next rs) as [[lk' next'] out].
      cbn in *. lia.
    + specialize (IH lk next). destruct (resume p lk next rs) as [[lk' next'] out].
      cbn in *. lia.
  - specialize (IH lk next). destruct (resume p lk next rs) as [[lk' next'] out].
    cbn in *. lia.
Qed.

(** So two requests waiting on the same check overlap as soon as it ends. *)
Lemma waiters_overlap p l :
  (2 <= waiting_on p (requests l))%nat -> (2 <= in_flight (settle p l))%nat.
Proof.
  intros Hw. unfold in_flight, settle.
  pose proof (resume_starts_every_waiter p (requests l) (lock l) (fresh l)) as Hr.
  destruct (resume p (lock l) (fresh l) (requests l)) as [[lk next] out].
  cbn in *. lia.
Qed.

(** Two callers are serialised: the second waits, then performs a check of
    its own. *)
Example two_callers_serialised :
  requests (run [Arrive; Arrive]) = [InFlight 0; Waiting 0] /\
  requests (run [Arrive; Arrive; Settle 0]) = [Returned; InFlight 1] /\
  in_flight (run [Arrive; Arrive]) = 1%nat /\
  in_flight (run [Arrive; Arrive; Settle 0]) = 1%nat.
Proof. repeat split; reflexivity. Qed.

(** C9 (defect).  With three callers, the two that waited for the first
    check are both resumed when it ends; neither looks at [walletLocks]
    again, so each starts a wallet round trip of its own and the two
    overlap.  The [finally] of the first to finish then deletes the entry of
    the other, and a fourth caller starts a third overlapping round trip. *)
Theorem three_callers_overlap :
  requests (run [Arrive; Arrive; Arrive; Settle 0]) = [Returned; InFlight 1; InFlight 2] /\
  in_flight (run [Arrive; Arrive; Arrive; Settle 0]) = 2%nat /\
  lock (run [Arrive; Arrive; Arrive; Settle 0; Settle 1]) = None /\
  requests (run [Arrive; Arrive; Arrive; Settle 0; Settle 1; Arrive]) =
    [Returned; Returned; InFlight 2; InFlight 3].
Proof. repeat split; reflexivity. Qed.

(** *** When the lock does serialise

    A schedule in which no check ends with more than one request waiting
    for it. *)
Fixpoint at_most_one_waiter (l : Loop) (es : list Event) : bool :=
  match es with
  | [] => true
  | Arrive :: es' => at_most_one_waiter (arrive l) es'
  | Settle p :: es' =>
      (waiting_on p (requests l) <=? 1)%nat && at_most_one_waiter (settle p l) es'
  end.

Definition quiet (rs : list Pc) : Prop := Forall (fun r => r = Returned) rs.

(** With the lock free nothing is in progress; with the lock on [p] the
    round trip [p] is the only one in progress, and the requests that wait all
    wait for it and arrived after its owner. *)
Definition serialised (l : Loop) : Prop :=
  match lock l with
  | None => quiet (requests l)
  | Some p =>
      exists pre post,
        requests l = pre ++ InFlight p :: post /\ quiet pre /\
        Forall (fun r => r = Returned \/ r = Waiting p) post
  end.

Lemma quiet_in_flight rs : quiet rs -> length (List.filter is_in_flight rs) = O.
Proof. induction 1 as [|r rs -> _ IH]; [reflexivity|exact IH]. Qed.

Lemma waiting_in_flight p rs :
  Forall (fun r => r = Returned \/ r = Waiting p) rs ->
  length (List.filter is_in_flight rs) = O.
Proof. induction 1 as [|r rs [-> | ->] _ IH]; [reflexivity|exact IH|exact IH]. Qed.

Lemma serialised_in_flight l : serialised l -> (in_flight l <= 1)%nat.
Proof.
  unfold serialised, in_flight. destruct (lock l) as [p|].
  - intros (pre & post & -> & Hpre & Hpost).
    rewrite List.filter_app, length_app. cbn.
    rewrite (quiet_in_flight _ Hpre), (waiting_in_flight _ _ Hpost). lia.
  - intros Hq. rewrite (quiet_in_flight _ Hq). lia.
Qed.

Lemma resume_quiet p rs : quiet rs -> forall lk next, resume p lk next rs = (lk, next, rs).
Proof.
  induction 1 as [|r rs -> _ IH]; intros lk next; [reflexivity|].
  cbn [resume]. rewrite IH. reflexivity.
Qed.

Lemma resume_other q p rs :
  q <> p ->
  Forall (fun r => r = Returned \/ r = Waiting p \/ r = InFlight p) rs ->
  forall lk next, resume q lk next rs = (lk, next, rs).
Proof.
  intros Hne. induction 1 as [|r rs [-> | [-> | ->]] _ IH]; intros lk next; [reflexivity| | |].
  - cbn [resume]. rewrite IH. reflexivity.
  - cbn [resume]. destruct (Nat.eqb_spec p q) as [->|_]; [contradiction|].
    rewrite IH. reflexivity.
  - cbn [resume]. destruct (Nat.eqb_spec p q) as [->|_]; [contradiction|].
    rewrite IH. reflexivity.
Qed.

Lemma resume_prefix p pre rs lk next :
  quiet pre ->
  resume p lk next (pre ++ rs) =
    let '(lk', next', out) := resume p lk next rs in (lk', next', pre ++ out).
Proof.
  induction 1 as [|r pre -> _ IH]; cbn [app resume].
  - destruct (resume p lk next rs) as [[lk' next'] out]. reflexivity.
  - rewrite IH. destruct (resume p lk next rs) as [[lk' next'] out]. reflexivity.
Qed.

(** The requests behind the owner of [p] when [p] settles: with no waiter
    nothing happens; a single waiter starts its round trip and takes the
    lock. *)
Lemma resume_waiters p post :
  Forall (fun r => r = Returned \/ r = Waiting p) post ->
  (waiting_on p post <= 1)%nat ->
  forall lk next,
    (resume p lk next post = (lk, next, post) /\ quiet post) \/
    (exists a b, resume p lk next post = (Some next, S next, a ++ InFlight next :: b) /\
                 quiet a /\ quiet b).
Proof.
  induction 1 as [|r post [-> | ->] Hpost IH]; intros Hw lk next.
  - left. split; [reflexivity|constructor].
  - cbn [waiting_on] in Hw. cbn [resume].
    destruct (IH Hw lk next) as [[E Hq] | (a & b & E & Ha & Hb)]; rewrite E.
    + left. split; [reflexivity|]. constructor; [reflexivity|exact Hq].
    + right. exists (Returned :: a), b. split; [reflexivity|].
      split; [constructor; [reflexivity|exact Ha]|exact Hb].
  - cbn [waiting_on] in Hw. rewrite Nat.eqb_refl in Hw. cbn [resume].
    rewrite Nat.eqb_refl.
    destruct (IH ltac:(lia) (Some next) (S next)) as [[E Hq] | (a & b & E & _)].
    + rewrite E. right. exists [], post. split; [reflexivity|]. split; [constructor|exact Hq].
    + exfalso. clear -Hw Hpost E.
      assert (Hzero : waiting_on p post = O) by lia.
      assert (Hquiet : quiet post).
      { clear E Hw. induction Hpost as [|r post [-> | ->] _ IH'].
        - constructor.
        - constructor; [reflexivity|]. apply IH'. exact Hzero.
        - cbn [waiting_on] in Hzero. rewrite Nat.eqb_refl in Hzero. discriminate. }
      rewrite (resume_quiet p post Hquiet) in E. injection E as E1 E2 E3. lia.
Qed.

Lemma waiting_on_app p a b : waiting_on p (a ++ b) = (waiting_on p a + waiting_on p b)%nat.
Proof.
  induction a as [|r a IH]; [reflexivity|]. destruct r as [q|q|]; cbn [app waiting_on].
  - destruct (Nat.eqb q p); rewrite IH; reflexivity.
  - exact IH.
  - exact IH.
Qed.

Lemma arrive_serialised l : serialised l -> serialised (arrive l).
Proof.
  unfold serialised, arrive. destruct (lock l) as [p|] eqn:Hl; cbn [lock requests].
  - intros (pre & post & -> & Hpre & Hpost).
    exists pre, (post ++ [Waiting p]). rewrite <- app_assoc. split; [reflexivity|].
    split; [exact Hpre|]. apply Forall_app. split; [exact Hpost|].
    constructor; [right; reflexivity|constructor].
  - intros Hq. exists (requests l), []. split; [reflexivity|]. split; [exact Hq|constructor].
Qed.

Lemma settle_serialised p l :
  serialised l -> (waiting_on p (requests l) <= 1)%nat -> serialised (settle p l).
Proof.
  unfold serialised, settle. destruct (lock l) as [q|] eqn:Hl.
  - intros (pre & post & Hreq & Hpre & Hpost) Hw. rewrite Hreq in *.
    destruct (Nat.eq_dec p q) as [->|Hne].
    + rewrite (resume_prefix _ _ _ _ _ Hpre). cbn [resume]. rewrite Nat.eqb_refl.
      rewrite waiting_on_app in Hw. cbn [waiting_on] in Hw.
      destruct (resume_waiters q post Hpost ltac:(lia) None (fresh l))
        as [[E Hq] | (a & b & E & Ha & Hb)]; rewrite E; cbn [lock requests].
      * apply Forall_app. split; [exact Hpre|]. constructor; [reflexivity|exact Hq].
      * exists (pre ++ Returned :: a), b. rewrite <- app_assoc. split; [reflexivity|].
        split; [|eapply Forall_impl; [exact Hb|intros r ->; left; reflexivity]].
        apply Forall_app. split; [exact Hpre|]. constructor; [reflexivity|exact Ha].
    + assert (Hall : Forall (fun r => r = Returned \/ r = Waiting q \/ r = InFlight q)
                       (pre ++ InFlight q :: post)).
      { apply Forall_app. split.
        - eapply Forall_impl; [exact Hpre|]. intros r ->. left. reflexivity.
        - constructor; [right; right; reflexivity|].
          eapply Forall_impl; [exact Hpost|]. intros r [-> | ->]; auto. }
      rewrite (resume_other p q _ Hne Hall).
      cbn [lock requests]. exists pre, post. auto.
  - intros Hq _. rewrite (resume_quiet p _ Hq). cbn [lock requests]. exact Hq.
Qed.

Lemma schedule_serialised es : forall l,
  serialised l -> at_most_one_waiter l es = true -> serialised (foldl step l es).
Proof.
  induction es as [|e es IH]; intros l Hl Hes; [exact Hl|].
  destruct e as [|p]; cbn [foldl step at_most_one_waiter] in *.
  - apply IH; [apply arrive_serialised, Hl|exact Hes].
  - apply andb_true_iff in Hes as [Hw Hes]. apply Nat.leb_le in Hw.
    apply IH; [apply settle_serialised; assumption|exact Hes].
Qed.

(** As long as no check ends with more than one request waiting for it,
    at most one wallet round trip is in progress at any time, whatever the
    order of arrivals and completions. *)
Theorem one_waiter_is_serialised es :
  at_most_one_waiter init es = true -> (in_flight (run es) <= 1)%nat.
Proof.
  intros Hes. apply serialised_in_flight. unfold run.
  apply schedule_serialised; [constructor|exact Hes].
Qed.

Lemma one_waiter_is_serialised_witness :
  (in_flight (run [Arrive; Arrive; Settle 0; Arrive; Settle 1; Settle 2; Arrive]) <= 1)%nat.
Proof. apply one_waiter_is_serialised. reflexivity. Defined.

Lemma waiters_overlap_witness :
  (2 <= in_flight (settle 0 (run [Arrive; Arrive; Arrive])))%nat.
Proof. apply waiters_overlap. vm_compute. lia. Defined.

End EventLoop.
